(** * The MAC-layer bridge of the RSI 91x wireless driver

    A shallow embedding of the control-plane handlers and of the
    connection-quality monitor of
    [drivers/net/wireless/rsi/rsi_91x_mac80211.c], and the properties of
    them that the specification states.

    The handlers run under [common->mutex]; the embedding is sequential, a
    handler is a state transformer on the driver state, the memory holding
    the interface structures of mac80211, and the trace of what was sent to
    the firmware and reported to mac80211. *)

From Stdlib Require Import ZArith Lia List Bool.
From stdpp Require Import base gmap list.

Local Open Scope Z_scope.

(** ** Machine integers *)

Definition to_u8 (x : Z) : Z := x mod 2 ^ 8.
Definition to_u16 (x : Z) : Z := x mod 2 ^ 16.
Definition to_u32 (x : Z) : Z := x mod 2 ^ 32.

(** Conversion to a signed 32-bit [int], wrapping. *)
Definition to_int (x : Z) : Z := (x + 2 ^ 31) mod 2 ^ 32 - 2 ^ 31.

Definition BIT (n : Z) : Z := Z.shiftl 1 n.

(** [x & mask] used as a C condition. *)
Definition tstmask (x mask : Z) : bool := negb (Z.land x mask =? 0).

(** ** Constants of the kernel interfaces the driver is written against *)

Definition EINVAL : Z := 22.
Definition EOPNOTSUPP : Z := 95.

Inductive nl80211_iftype :=
| NL80211_IFTYPE_UNSPECIFIED
| NL80211_IFTYPE_ADHOC
| NL80211_IFTYPE_STATION
| NL80211_IFTYPE_AP
| NL80211_IFTYPE_AP_VLAN
| NL80211_IFTYPE_WDS
| NL80211_IFTYPE_MONITOR
| NL80211_IFTYPE_MESH_POINT
| NL80211_IFTYPE_P2P_CLIENT
| NL80211_IFTYPE_P2P_GO
| NL80211_IFTYPE_P2P_DEVICE
| NL80211_IFTYPE_OCB
| NL80211_IFTYPE_NAN.

Inductive nl80211_band := NL80211_BAND_2GHZ | NL80211_BAND_5GHZ.

Inductive nl80211_cqm_rssi_threshold_event :=
| NL80211_CQM_RSSI_THRESHOLD_EVENT_LOW
| NL80211_CQM_RSSI_THRESHOLD_EVENT_HIGH.

(** [enum set_key_cmd]; the handler has a [default] branch, reached by any
    other value. *)
Inductive set_key_cmd := SET_KEY | DISABLE_KEY | set_key_cmd_other (n : Z).

(** [enum ieee80211_ampdu_mlme_action], with the values the handler leaves
    to its [default] branch. *)
Inductive ieee80211_ampdu_mlme_action :=
| IEEE80211_AMPDU_RX_START
| IEEE80211_AMPDU_RX_STOP
| IEEE80211_AMPDU_TX_START
| IEEE80211_AMPDU_TX_STOP_CONT
| IEEE80211_AMPDU_TX_STOP_FLUSH
| IEEE80211_AMPDU_TX_STOP_FLUSH_CONT
| IEEE80211_AMPDU_TX_OPERATIONAL
| ieee80211_ampdu_other (n : Z).

(** [enum ieee80211_ac_numbers]. *)
Definition IEEE80211_NUM_ACS : Z := 4.
Definition IEEE80211_AC_VO : Z := 0.
Definition IEEE80211_AC_VI : Z := 1.
Definition IEEE80211_AC_BE : Z := 2.
Definition IEEE80211_AC_BK : Z := 3.

Definition IEEE80211_CONF_CHANGE_POWER : Z := BIT 5.
Definition IEEE80211_CONF_CHANGE_CHANNEL : Z := BIT 6.

Definition BSS_CHANGED_ASSOC : Z := BIT 0.
Definition BSS_CHANGED_CQM : Z := BIT 10.

Definition IEEE80211_KEY_FLAG_GENERATE_IV : Z := BIT 1.
Definition IEEE80211_KEY_FLAG_PAIRWISE : Z := BIT 3.

Definition WLAN_CIPHER_SUITE_WEP40 : Z := 0x000FAC01.
Definition WLAN_CIPHER_SUITE_WEP104 : Z := 0x000FAC05.

(** ** Structures of mac80211 *)

Record ieee80211_channel := {
  band : nl80211_band;
  center_freq : Z;
  hw_value : Z;           (* u16 *)
  chan_flags : Z
}.

(** [bss_conf.bssid] and [bss_conf.chandef.chan] are pointers: [bssid] is
    the six bytes the first points to and [chandef_chan] the channel the
    second points to, [None] for the null pointer.  The structure itself
    holds the two addresses only. *)
Record ieee80211_bss_conf := {
  assoc : bool;
  bssid : list Z;
  qos : bool;
  aid : Z;
  chandef_chan : option ieee80211_channel;
  cqm_rssi_thold : Z;     (* s32 *)
  cqm_rssi_hyst : Z       (* u32 *)
}.

(** [vif_rest] stands for the bytes of the structure that the driver does
    not read by name, the values of the pointers [bssid] and
    [chandef.chan] among them; [memcmp] over the structure compares them
    too. *)
Record ieee80211_vif := {
  vif_type : nl80211_iftype;
  bss_conf : ieee80211_bss_conf;
  vif_rest : list Z
}.

Record ieee80211_tx_queue_params := {
  txop : Z;
  cw_min : Z;
  cw_max : Z;
  aifs : Z
}.

(** [key] is a flexible array member at the end of the structure: the
    key bytes follow the named fields, the first of them inside the padding
    that [sizeof] counts. *)
Record ieee80211_key_conf := {
  cipher : Z;             (* u32 *)
  hw_key_idx : Z;
  key_flags : Z;
  keyidx : Z;
  keylen : Z;
  key : list Z
}.

Record ieee80211_ampdu_params := {
  sta_addr : list Z;
  action : ieee80211_ampdu_mlme_action;
  tid : Z;                (* u16 *)
  ssn : Z;                (* u16 *)
  buf_size : Z
}.

Record ieee80211_conf := {
  power_level : Z;
  conf_chan : option ieee80211_channel
}.

#[global] Instance nl80211_iftype_eq_dec : EqDecision nl80211_iftype.
Proof. solve_decision. Defined.
#[global] Instance nl80211_band_eq_dec : EqDecision nl80211_band.
Proof. solve_decision. Defined.
#[global] Instance ieee80211_channel_eq_dec : EqDecision ieee80211_channel.
Proof. solve_decision. Defined.
#[global] Instance ieee80211_bss_conf_eq_dec : EqDecision ieee80211_bss_conf.
Proof. solve_decision. Defined.
#[global] Instance ieee80211_vif_eq_dec : EqDecision ieee80211_vif.
Proof. solve_decision. Defined.

(** The bytes of [struct ieee80211_vif] itself, which is what a [memcmp]
    over [sizeof(struct ieee80211_vif)] compares: the fields held by
    value, and the other bytes, where the two pointers are.  What the
    pointers point to, the bytes of the bssid and the channel, lies outside
    the structure and is not compared. *)
Definition vif_bytes (v : ieee80211_vif)
    : nl80211_iftype * bool * bool * Z * Z * Z * list Z :=
  (vif_type v, assoc (bss_conf v), qos (bss_conf v), aid (bss_conf v),
   cqm_rssi_thold (bss_conf v), cqm_rssi_hyst (bss_conf v), vif_rest v).

(** ** Structures of the driver

    [rsi_main.h] is not part of this tree; the fields below are the ones
    the handlers touch, with the types their uses show. *)

(** Modelled from the spec: the slot constants [BK_Q], [BE_Q], [VI_Q] and
    [VO_Q] index [edca_params] and are declared in [rsi_main.h].  The
    data model has [qos_params[4]], one EDCA parameter set per access
    category (voice, video, best-effort, background): four slots, one for
    each name. *)
Inductive edca_queue := BK_Q | BE_Q | VI_Q | VO_Q.

#[global] Instance edca_queue_eq_dec : EqDecision edca_queue.
Proof. solve_decision. Defined.

(** Modelled from the spec: the driver keeps at most one interface, so the
    arrays [vifs] and [vif_info] have one element. *)
Definition RSI_MAX_VIFS : nat := 1.

Inductive opmode := STA_OPMODE | AP_OPMODE.
Inductive vap_status := VAP_ADD | VAP_DELETE | VAP_UPDATE.
Inductive rsi_key_type := RSI_PAIRWISE_KEY | RSI_GROUP_KEY.
Inductive sta_notify_events :=
| STA_TX_ADDBA_DONE
| STA_TX_DELBA
| STA_RX_ADDBA_DONE
| STA_RX_DELBA.

Record security_info := {
  security_enable : bool;
  ptk_cipher : Z;         (* u32 *)
  gtk_cipher : Z          (* u32 *)
}.

Record rsi_cqm_info := {
  last_cqm_event_rssi : Z;  (* s8 *)
  rssi_thold : Z;           (* int *)
  rssi_hyst : Z             (* u32 *)
}.

Record vif_priv := {
  is_ht : bool;
  sgi : bool;
  seq_start : Z           (* u16 *)
}.

Record rsi_common := {
  iface_down : bool;
  hw_data_qs_blocked : bool;
  tx_power : Z;           (* int *)
  secinfo : security_info;
  edca_params : edca_queue -> ieee80211_tx_queue_params;
  cqm_info : rsi_cqm_info;
  vif_info : list vif_priv;
  bitrate_mask : nl80211_band -> Z;
  min_rate : Z
}.

(** A pointer to an interface structure: an address, or null. *)
Definition vif_ptr := option N.

(** [sc_nvifs] is a [u8] in [rsi_main.h], which is not part of this
    tree. *)
Record rsi_hw := {
  sc_nvifs : Z;           (* u8 *)
  vifs : list vif_ptr;
  priv : rsi_common
}.

Record ieee80211_hw := {
  conf : ieee80211_conf;
  hw_priv : rsi_hw
}.

(** ** What leaves the driver

    The functions that build and send firmware frames live in
    [rsi_91x_mgmt.c], which is not part of this tree; each one appears here
    as a command handed to the command channel together with the status the
    channel returned for it.  Calls into mac80211 are recorded alike. *)

Inductive fw_cmd :=
| FW_VAP_CAPABILITIES (mode : opmode) (st : vap_status)
| FW_RX_FILTER (word : Z)
| FW_BLOCK_UNBLOCK (block : bool)
| FW_BAND_CHECK
| FW_SET_CHANNEL (ch : ieee80211_channel)
| FW_RADIO_PARAMS_UPDATE (power : Z)
| FW_LOAD_KEY (data : list Z) (key_len : Z) (kt : rsi_key_type)
    (key_id : Z) (suite : Z)
| FW_BSS_STATUS (status : bool) (peer : list Z) (qos_enable : bool) (aid : Z)
| FW_AGGREGATION_PARAMS (tid : Z) (ssn : Z) (buf_size : Z)
    (ev : sta_notify_events).

Inductive upcall :=
| UP_START_TX_BA_CB (vif : N) (ra : list Z) (tid : Z)
| UP_STOP_TX_BA_CB (vif : N) (ra : list Z) (tid : Z)
| UP_CQM_RSSI_NOTIFY (vif : vif_ptr)
    (ev : nl80211_cqm_rssi_threshold_event) (rssi : Z).

Inductive event :=
| Fw (c : fw_cmd) (status : Z)
| Up (u : upcall).

(** The firmware commands of a trace, in the order they were issued. *)
Definition fw_cmds (t : list event) : list fw_cmd :=
  omap (fun e => match e with Fw c _ => Some c | Up _ => None end) t.

(** ** The machine

    [vif_mem] is the memory in which mac80211 keeps the interface
    structures; the driver stores addresses into it and reads through
    them.  [trace] grows at its end. *)
Record machine := {
  hw : ieee80211_hw;
  vif_mem : gmap N ieee80211_vif;
  trace : list event
}.

Definition adapter_of (m : machine) : rsi_hw := hw_priv (hw m).
Definition common_of (m : machine) : rsi_common := priv (adapter_of m).

(** *** Field updates *)

Definition with_adapter (a : rsi_hw) (m : machine) : machine :=
  {| hw := {| conf := conf (hw m); hw_priv := a |};
     vif_mem := vif_mem m; trace := trace m |}.

Definition with_common (c : rsi_common) (m : machine) : machine :=
  with_adapter
    {| sc_nvifs := sc_nvifs (adapter_of m); vifs := vifs (adapter_of m);
       priv := c |} m.

Definition with_trace (t : list event) (m : machine) : machine :=
  {| hw := hw m; vif_mem := vif_mem m; trace := t |}.

Definition set_sc_nvifs (n : Z) (a : rsi_hw) : rsi_hw :=
  {| sc_nvifs := n; vifs := vifs a; priv := priv a |}.

Definition set_vifs (l : list vif_ptr) (a : rsi_hw) : rsi_hw :=
  {| sc_nvifs := sc_nvifs a; vifs := l; priv := priv a |}.

Definition set_iface_down (b : bool) (c : rsi_common) : rsi_common :=
  {| iface_down := b; hw_data_qs_blocked := hw_data_qs_blocked c;
     tx_power := tx_power c; secinfo := secinfo c;
     edca_params := edca_params c; cqm_info := cqm_info c;
     vif_info := vif_info c; bitrate_mask := bitrate_mask c;
     min_rate := min_rate c |}.

Definition set_hw_data_qs_blocked (b : bool) (c : rsi_common) : rsi_common :=
  {| iface_down := iface_down c; hw_data_qs_blocked := b;
     tx_power := tx_power c; secinfo := secinfo c;
     edca_params := edca_params c; cqm_info := cqm_info c;
     vif_info := vif_info c; bitrate_mask := bitrate_mask c;
     min_rate := min_rate c |}.

Definition set_tx_power (p : Z) (c : rsi_common) : rsi_common :=
  {| iface_down := iface_down c; hw_data_qs_blocked := hw_data_qs_blocked c;
     tx_power := p; secinfo := secinfo c;
     edca_params := edca_params c; cqm_info := cqm_info c;
     vif_info := vif_info c; bitrate_mask := bitrate_mask c;
     min_rate := min_rate c |}.

Definition set_secinfo (s : security_info) (c : rsi_common) : rsi_common :=
  {| iface_down := iface_down c; hw_data_qs_blocked := hw_data_qs_blocked c;
     tx_power := tx_power c; secinfo := s;
     edca_params := edca_params c; cqm_info := cqm_info c;
     vif_info := vif_info c; bitrate_mask := bitrate_mask c;
     min_rate := min_rate c |}.

Definition set_edca_params (f : edca_queue -> ieee80211_tx_queue_params)
    (c : rsi_common) : rsi_common :=
  {| iface_down := iface_down c; hw_data_qs_blocked := hw_data_qs_blocked c;
     tx_power := tx_power c; secinfo := secinfo c;
     edca_params := f; cqm_info := cqm_info c;
     vif_info := vif_info c; bitrate_mask := bitrate_mask c;
     min_rate := min_rate c |}.

Definition set_cqm_info (q : rsi_cqm_info) (c : rsi_common) : rsi_common :=
  {| iface_down := iface_down c; hw_data_qs_blocked := hw_data_qs_blocked c;
     tx_power := tx_power c; secinfo := secinfo c;
     edca_params := edca_params c; cqm_info := q;
     vif_info := vif_info c; bitrate_mask := bitrate_mask c;
     min_rate := min_rate c |}.

Definition set_vif_info (l : list vif_priv) (c : rsi_common) : rsi_common :=
  {| iface_down := iface_down c; hw_data_qs_blocked := hw_data_qs_blocked c;
     tx_power := tx_power c; secinfo := secinfo c;
     edca_params := edca_params c; cqm_info := cqm_info c;
     vif_info := l; bitrate_mask := bitrate_mask c;
     min_rate := min_rate c |}.

Definition set_bitrate_mask (f : nl80211_band -> Z) (c : rsi_common)
    : rsi_common :=
  {| iface_down := iface_down c; hw_data_qs_blocked := hw_data_qs_blocked c;
     tx_power := tx_power c; secinfo := secinfo c;
     edca_params := edca_params c; cqm_info := cqm_info c;
     vif_info := vif_info c; bitrate_mask := f;
     min_rate := min_rate c |}.

Definition set_min_rate (r : Z) (c : rsi_common) : rsi_common :=
  {| iface_down := iface_down c; hw_data_qs_blocked := hw_data_qs_blocked c;
     tx_power := tx_power c; secinfo := secinfo c;
     edca_params := edca_params c; cqm_info := cqm_info c;
     vif_info := vif_info c; bitrate_mask := bitrate_mask c;
     min_rate := r |}.

Definition set_security_enable (b : bool) (s : security_info) : security_info :=
  {| security_enable := b; ptk_cipher := ptk_cipher s;
     gtk_cipher := gtk_cipher s |}.

Definition set_ptk_cipher (x : Z) (s : security_info) : security_info :=
  {| security_enable := security_enable s; ptk_cipher := x;
     gtk_cipher := gtk_cipher s |}.

Definition set_gtk_cipher (x : Z) (s : security_info) : security_info :=
  {| security_enable := security_enable s; ptk_cipher := ptk_cipher s;
     gtk_cipher := x |}.

(** Assignment to one element of an array indexed by an enumeration. *)
Definition upd {A B} `{EqDecision A} (f : A -> B) (i : A) (x : B) : A -> B :=
  fun j => if decide (j = i) then x else f j.

(** ** The handler monad: state, and [None] where the run leaves the
    model: the C code would dereference a null or dangling pointer, which
    stops it, or index past an array, which reaches memory the model does
    not hold. *)

Definition M (A : Type) : Type := machine -> option (A * machine).

Definition ret {A} (a : A) : M A := fun m => Some (a, m).

Definition bind {A B} (c : M A) (k : A -> M B) : M B :=
  fun m => match c m with
           | Some (a, m') => k a m'
           | None => None
           end.

Definition fault {A} : M A := fun _ => None.

Declare Scope drv_scope.
Delimit Scope drv_scope with drv.
Notation "x <- c ;; k" := (bind c (fun x => k))
  (at level 100, c at next level, right associativity) : drv_scope.
Notation "c ;;; k" := (bind c (fun _ => k))
  (at level 100, right associativity) : drv_scope.
Local Open Scope drv_scope.

Definition get_adapter : M rsi_hw := fun m => Some (adapter_of m, m).
Definition put_adapter (a : rsi_hw) : M unit :=
  fun m => Some (tt, with_adapter a m).
Definition get_common : M rsi_common := fun m => Some (common_of m, m).
Definition put_common (c : rsi_common) : M unit :=
  fun m => Some (tt, with_common c m).
Definition get_conf : M ieee80211_conf := fun m => Some (conf (hw m), m).

(** Use of a value that C reaches through a pointer or an index. *)
Definition deref {A} (o : option A) : M A :=
  match o with Some a => ret a | None => fault end.

(** Read of the structure a (non-null) interface pointer refers to. *)
Definition load_vif (p : N) : M ieee80211_vif :=
  fun m => deref (vif_mem m !! p) m.

Definition notify (u : upcall) : M unit :=
  fun m => Some (tt, with_trace (trace m ++ [Up u]) m).

(** [adapter->vifs[i]] and [adapter->vifs[i] = p]. *)
Definition read_vifs (i : nat) : M vif_ptr :=
  adapter <- get_adapter ;; deref (vifs adapter !! i).

Definition store_vifs (i : nat) (p : vif_ptr) : M unit :=
  adapter <- get_adapter ;;
  if decide (i < length (vifs adapter))%nat
  then put_adapter (set_vifs (<[i := p]> (vifs adapter)) adapter)
  else fault.

(** The scan [for (ii = 0; ii < RSI_MAX_VIFS; ii++) if (vif == vifs[ii])
    break;] started at [ii] with [n] slots left; its result is the value of
    [ii] after the loop, [RSI_MAX_VIFS] when no slot holds [vif]. *)
Fixpoint vif_slot (vif : N) (l : list vif_ptr) (ii n : nat) : nat :=
  match n with
  | O => ii
  | S n' => if decide (l !! ii = Some (Some vif)) then ii
            else vif_slot vif l (S ii) n'
  end.

Section Driver.

(** The command channel: the status it answers to a command, given all that
    happened before.  Zero is success. *)
Variable command_channel : list event -> fw_cmd -> Z.

(** Bits of the receive-filter word, declared in [rsi_mgmt.h], which is not
    part of this tree. *)
Variables ALLOW_DATA_ASSOC_PEER ALLOW_CTRL_ASSOC_PEER ALLOW_MGMT_ASSOC_PEER : Z.

Definition send (c : fw_cmd) : M Z :=
  fun m =>
    let status := command_channel (trace m) c in
    Some (status, with_trace (trace m ++ [Fw c status]) m).

(** Modelled from the spec: the frame senders of [rsi_91x_mgmt.c], which is
    not part of this tree.  The command channel is a synchronous
    request/response primitive that, given an opcode and payload, returns a
    response or a failure code; each sender is one request carrying its
    arguments and leaves the fields of the driver state kept here as they
    are. *)
Definition rsi_set_vap_capabilities (mode : opmode) (st : vap_status) : M Z :=
  send (FW_VAP_CAPABILITIES mode st).

Definition rsi_send_rx_filter_frame (word : Z) : M Z :=
  send (FW_RX_FILTER word).

Definition rsi_send_block_unblock_frame (block : bool) : M Z :=
  send (FW_BLOCK_UNBLOCK block).

(** Modelled from the spec: the validation that the target band is
    supported, which fails with "band unsupported"; its verdict is taken from
    the channel like the status of a command. *)
Definition rsi_band_check : M Z := send FW_BAND_CHECK.

Definition rsi_set_channel (ch : ieee80211_channel) : M Z :=
  send (FW_SET_CHANNEL ch).

(** The sender takes [common] alone: the level it sends is the cached one. *)
Definition rsi_send_radio_params_update : M Z :=
  common <- get_common ;; send (FW_RADIO_PARAMS_UPDATE (tx_power common)).

Definition rsi_hal_load_key (data : list Z) (key_len : Z) (kt : rsi_key_type)
    (key_id : Z) (suite : Z) : M Z :=
  send (FW_LOAD_KEY data key_len kt key_id suite).

Definition rsi_inform_bss_status (status : bool) (peer : list Z)
    (qos_enable : bool) (aid : Z) : M unit :=
  _ <- send (FW_BSS_STATUS status peer qos_enable aid) ;; ret tt.

Definition rsi_send_aggregation_params_frame (tid ssn buf_size : Z)
    (ev : sta_notify_events) : M Z :=
  send (FW_AGGREGATION_PARAMS tid ssn buf_size ev).

(** ** The handlers *)

Definition rsi_mac80211_start : M Z :=
  common <- get_common ;;
  put_common (set_iface_down false common) ;;;
  _ <- rsi_send_rx_filter_frame 0 ;;
  ret 0.

Definition rsi_mac80211_stop : M unit :=
  common <- get_common ;;
  put_common (set_iface_down true common) ;;;
  _ <- rsi_send_rx_filter_frame 0xffff ;;
  ret tt.

Definition rsi_mac80211_add_interface (vif : N) : M Z :=
  v <- load_vif vif ;;
  match vif_type v with
  | NL80211_IFTYPE_STATION =>
      adapter <- get_adapter ;;
      if sc_nvifs adapter =? 0 then
        put_adapter (set_sc_nvifs (to_u8 (sc_nvifs adapter + 1)) adapter) ;;;
        store_vifs 0 (Some vif) ;;;
        rsi_set_vap_capabilities STA_OPMODE VAP_ADD
      else ret (- EOPNOTSUPP)
  | _ => ret (- EOPNOTSUPP)
  end.

Definition rsi_mac80211_remove_interface (vif : N) : M unit :=
  v <- load_vif vif ;;
  (if decide (vif_type v = NL80211_IFTYPE_STATION) then
     adapter <- get_adapter ;;
     put_adapter (set_sc_nvifs (to_u8 (sc_nvifs adapter - 1)) adapter) ;;;
     _ <- rsi_set_vap_capabilities STA_OPMODE VAP_DELETE ;;
     ret tt
   else ret tt) ;;;
  (* memcmp(adapter->vifs[0], vif, sizeof(struct ieee80211_vif)) *)
  p <- read_vifs 0 ;;
  q <- deref p ;;
  v0 <- load_vif q ;;
  v1 <- load_vif vif ;;
  if decide (vif_bytes v0 = vif_bytes v1) then store_vifs 0 None else ret tt.

Definition rsi_get_connected_channel : M Z :=
  vif <- read_vifs 0 ;;
  match vif with
  | Some p =>
      v <- load_vif p ;;
      channel <- deref (chandef_chan (bss_conf v)) ;;
      ret (hw_value channel)
  | None => ret 0
  end.

(** [bss->assoc] with [bss = &adapter->vifs[0]->bss_conf]. *)
Definition bss_assoc : M bool :=
  p <- read_vifs 0 ;;
  q <- deref p ;;
  v <- load_vif q ;;
  ret (assoc (bss_conf v)).

Definition set_blocked (b : bool) : M unit :=
  common <- get_common ;; put_common (set_hw_data_qs_blocked b common).

Definition rsi_channel_change : M Z :=
  cf <- get_conf ;;
  curchan <- deref (conf_chan cf) ;;
  let channel := hw_value curchan in
  a1 <- bss_assoc ;;
  (if a1 then
     common <- get_common ;;
     if negb (hw_data_qs_blocked common) then
       connected <- rsi_get_connected_channel ;;
       if negb (connected =? channel) then
         st <- rsi_send_block_unblock_frame true ;;
         if st =? 0 then set_blocked true else ret tt
       else ret tt
     else ret tt
   else ret tt) ;;;
  status <- rsi_band_check ;;
  status <- (if status =? 0 then rsi_set_channel curchan else ret status) ;;
  a2 <- bss_assoc ;;
  (if a2 then
     common <- get_common ;;
     if hw_data_qs_blocked common then
       connected <- rsi_get_connected_channel ;;
       if connected =? channel then
         st <- rsi_send_block_unblock_frame false ;;
         if st =? 0 then set_blocked false else ret tt
       else ret tt
     else ret tt
   else
     common <- get_common ;;
     if hw_data_qs_blocked common then
       st <- rsi_send_block_unblock_frame false ;;
       if st =? 0 then set_blocked false else ret tt
     else ret tt) ;;;
  ret status.

Definition rsi_config_power : M Z :=
  adapter <- get_adapter ;;
  if sc_nvifs adapter <=? 0 then ret (- EINVAL)
  else
    cf <- get_conf ;;
    common <- get_common ;;
    if power_level cf =? tx_power common then ret 0
    else
      put_common (set_tx_power (power_level cf) common) ;;;
      rsi_send_radio_params_update.

Definition rsi_mac80211_config (changed : Z) : M Z :=
  status <- (if tstmask changed IEEE80211_CONF_CHANGE_CHANNEL
             then rsi_channel_change else ret (- EOPNOTSUPP)) ;;
  if tstmask changed IEEE80211_CONF_CHANGE_POWER
  then rsi_config_power else ret status.

Definition rsi_mac80211_bss_info_changed (vif : N)
    (bss : ieee80211_bss_conf) (changed : Z) : M unit :=
  (if tstmask changed BSS_CHANGED_ASSOC then
     (if assoc bss then
        let rx_filter_word :=
          to_u16 (Z.lor (Z.lor ALLOW_DATA_ASSOC_PEER ALLOW_CTRL_ASSOC_PEER)
                        ALLOW_MGMT_ASSOC_PEER) in
        _ <- rsi_send_rx_filter_frame rx_filter_word ;; ret tt
      else ret tt) ;;;
     rsi_inform_bss_status (assoc bss) (bssid bss) (qos bss) (aid bss)
   else ret tt) ;;;
  if tstmask changed BSS_CHANGED_CQM then
    common <- get_common ;;
    put_common
      (set_cqm_info
         {| last_cqm_event_rssi := 0;
            rssi_thold := cqm_rssi_thold bss;
            rssi_hyst := cqm_rssi_hyst bss |} common)
  else ret tt.

Definition rsi_mac80211_conf_tx (vif : N) (queue : Z)
    (params : ieee80211_tx_queue_params) : M Z :=
  if IEEE80211_NUM_ACS <=? queue then ret 0
  else
    let idx :=
      if queue =? IEEE80211_AC_VO then VO_Q
      else if queue =? IEEE80211_AC_VI then VI_Q
      else if queue =? IEEE80211_AC_BE then BE_Q
      else if queue =? IEEE80211_AC_BK then BK_Q
      else BE_Q in
    common <- get_common ;;
    put_common (set_edca_params (upd (edca_params common) idx params) common) ;;;
    ret 0.

Definition rsi_hal_key_config (vif : N) (k : ieee80211_key_conf) : M Z :=
  let key_type :=
    if tstmask (key_flags k) IEEE80211_KEY_FLAG_PAIRWISE
    then RSI_PAIRWISE_KEY else RSI_GROUP_KEY in
  if (cipher k =? WLAN_CIPHER_SUITE_WEP104)
     || (cipher k =? WLAN_CIPHER_SUITE_WEP40) then
    status <- rsi_hal_load_key (key k) (keylen k) RSI_PAIRWISE_KEY
                (keyidx k) (cipher k) ;;
    if negb (status =? 0) then ret status
    else rsi_hal_load_key (key k) (keylen k) key_type (keyidx k) (cipher k)
  else rsi_hal_load_key (key k) (keylen k) key_type (keyidx k) (cipher k).

(** [sizeof(struct ieee80211_key_conf)] and [offsetof(struct
    ieee80211_key_conf, key)] for the declaration of [mac80211.h], which is
    not part of this tree: an 8-byte counter, the 4-byte cipher and six
    fields of one byte come before [key], and the size is rounded up to the
    alignment of the counter. *)
Definition sizeof_ieee80211_key_conf : nat := 24.
Definition offsetof_key : nat := 18.

(** [l] with its first [n] bytes, as far as it has them, set to zero. *)
Definition zero_prefix (n : nat) (l : list Z) : list Z :=
  replicate (min n (length l)) 0 ++ drop n l.

(** [memset(key, 0, sizeof(struct ieee80211_key_conf))]: the named fields
    are zeroed, and with them the key bytes that lie before the end of the
    structure; the key bytes behind it are kept. *)
Definition zeroed_key (k : ieee80211_key_conf) : ieee80211_key_conf :=
  {| cipher := 0; hw_key_idx := 0; key_flags := 0; keyidx := 0; keylen := 0;
     key := zero_prefix (sizeof_ieee80211_key_conf - offsetof_key) (key k) |}.

Definition set_security (b : bool) : M unit :=
  common <- get_common ;;
  put_common (set_secinfo (set_security_enable b (secinfo common)) common).

(** The handler writes through [key]; the record it leaves is returned with
    the status. *)
Definition rsi_mac80211_set_key (cmd : set_key_cmd) (vif : N)
    (k : ieee80211_key_conf) : M (Z * ieee80211_key_conf) :=
  match cmd with
  | SET_KEY =>
      set_security true ;;;
      status <- rsi_hal_key_config vif k ;;
      if negb (status =? 0) then ret (status, k)
      else
        common <- get_common ;;
        put_common
          (set_secinfo
             (if tstmask (key_flags k) IEEE80211_KEY_FLAG_PAIRWISE
              then set_ptk_cipher (cipher k) (secinfo common)
              else set_gtk_cipher (cipher k) (secinfo common)) common) ;;;
        ret (status,
             {| cipher := cipher k; hw_key_idx := to_u8 (keyidx k);
                key_flags := Z.lor (key_flags k) IEEE80211_KEY_FLAG_GENERATE_IV;
                keyidx := keyidx k; keylen := keylen k; key := key k |})
  | DISABLE_KEY =>
      set_security false ;;;
      status <- rsi_hal_key_config vif (zeroed_key k) ;;
      ret (status, zeroed_key k)
  | set_key_cmd_other _ => ret (- EOPNOTSUPP, k)
  end.

Definition set_seq_start (s : Z) (v : vif_priv) : vif_priv :=
  {| is_ht := is_ht v; sgi := sgi v; seq_start := s |}.

(** [common->vif_info[i]] and an assignment to it.  The C code does not
    check [i]: past the array it reads or writes what lies behind it in
    [rsi_common] and goes on.  The layout of [rsi_common] is not part of
    this tree, so such a run leaves the model, and nothing is stated about
    it. *)
Definition read_vif_info (i : nat) : M vif_priv :=
  common <- get_common ;; deref (vif_info common !! i).

Definition store_vif_info (i : nat) (v : vif_priv) : M unit :=
  common <- get_common ;;
  if decide (i < length (vif_info common))%nat
  then put_common (set_vif_info (<[i := v]> (vif_info common)) common)
  else fault.

Definition rsi_mac80211_ampdu_action (vif : N)
    (params : ieee80211_ampdu_params) : M Z :=
  adapter <- get_adapter ;;
  let ii := vif_slot vif (vifs adapter) 0 RSI_MAX_VIFS in
  let seq_no := to_u16 (ssn params) in
  let buf := to_u8 (buf_size params) in
  match action params with
  | IEEE80211_AMPDU_RX_START =>
      rsi_send_aggregation_params_frame (tid params) seq_no buf
        STA_RX_ADDBA_DONE
  | IEEE80211_AMPDU_RX_STOP =>
      rsi_send_aggregation_params_frame (tid params) 0 buf STA_RX_DELBA
  | IEEE80211_AMPDU_TX_START =>
      info <- read_vif_info ii ;;
      store_vif_info ii (set_seq_start seq_no info) ;;;
      notify (UP_START_TX_BA_CB vif (sta_addr params) (tid params)) ;;;
      ret 0
  | IEEE80211_AMPDU_TX_STOP_CONT
  | IEEE80211_AMPDU_TX_STOP_FLUSH
  | IEEE80211_AMPDU_TX_STOP_FLUSH_CONT =>
      status <- rsi_send_aggregation_params_frame (tid params) seq_no buf
                  STA_TX_DELBA ;;
      (if status =? 0
       then notify (UP_STOP_TX_BA_CB vif (sta_addr params) (tid params))
       else ret tt) ;;;
      ret status
  | IEEE80211_AMPDU_TX_OPERATIONAL =>
      info <- read_vif_info ii ;;
      rsi_send_aggregation_params_frame (tid params) (seq_start info) buf
        STA_TX_ADDBA_DONE
  | ieee80211_ampdu_other _ => ret (- EOPNOTSUPP)
  end.

(** The test of [rsi_perform_cqm].  [rssi] and [last_event] are [s8],
    [thold] is [int] and [hyst] is [u32]: [rssi < thold] is a comparison of
    [int]s, while [last_event - hyst] and [last_event + hyst] are computed,
    and compared with [rssi], as [u32]. *)
Definition cqm_event (rssi last_event thold hyst : Z)
    : option nl80211_cqm_rssi_threshold_event :=
  if (rssi <? thold)
     && ((last_event =? 0) || (to_u32 rssi <? to_u32 (last_event - hyst)))
  then Some NL80211_CQM_RSSI_THRESHOLD_EVENT_LOW
  else if (rssi >? thold)
          && ((last_event =? 0) || (to_u32 rssi >? to_u32 (last_event + hyst)))
  then Some NL80211_CQM_RSSI_THRESHOLD_EVENT_HIGH
  else None.

Definition rsi_perform_cqm (peer : list Z) (rssi : Z) : M unit :=
  common <- get_common ;;
  let last_event := last_cqm_event_rssi (cqm_info common) in
  let thold := rssi_thold (cqm_info common) in
  let hyst := rssi_hyst (cqm_info common) in
  match cqm_event rssi last_event thold hyst with
  | Some ev =>
      put_common
        (set_cqm_info
           {| last_cqm_event_rssi := rssi; rssi_thold := thold;
              rssi_hyst := hyst |} common) ;;;
      vif0 <- read_vifs 0 ;;
      notify (UP_CQM_RSSI_NOTIFY vif0 ev rssi)
  | None => ret tt
  end.

Definition rsi_mac80211_sta_remove (vif : N) : M Z :=
  common <- get_common ;;
  let common := set_bitrate_mask
                  (upd (upd (bitrate_mask common) NL80211_BAND_2GHZ 0)
                       NL80211_BAND_5GHZ 0) common in
  let common := set_min_rate 0xffff common in
  put_common common ;;;
  info <- read_vif_info 0 ;;
  store_vif_info 0 {| is_ht := false; sgi := false; seq_start := 0 |} ;;;
  common <- get_common ;;
  put_common
    (set_secinfo (set_gtk_cipher 0 (set_ptk_cipher 0 (secinfo common)))
       common) ;;;
  _ <- rsi_send_rx_filter_frame 0 ;;
  ret 0.

End Driver.

(** ** Runs of several calls *)

Inductive iface_op :=
| OP_ADD (vif : N)
| OP_REMOVE (vif : N).

Definition run_iface_op (cc : list event -> fw_cmd -> Z) (op : iface_op)
    : M unit :=
  match op with
  | OP_ADD vif => _ <- rsi_mac80211_add_interface cc vif ;; ret tt
  | OP_REMOVE vif => rsi_mac80211_remove_interface cc vif
  end.

Fixpoint run_iface_ops (cc : list event -> fw_cmd -> Z) (ops : list iface_op)
    : M unit :=
  match ops with
  | [] => ret tt
  | op :: rest => run_iface_op cc op ;;; run_iface_ops cc rest
  end.

(** [remove_interface] is called for a station interface only while the
    count is one: the discipline of mac80211, which removes what it added. *)
Definition removal_expected (op : iface_op) (m : machine) : bool :=
  match op with
  | OP_ADD _ => true
  | OP_REMOVE vif =>
      match vif_mem m !! vif with
      | Some v =>
          if decide (vif_type v = NL80211_IFTYPE_STATION)
          then sc_nvifs (adapter_of m) =? 1 else true
      | None => true
      end
  end.

Fixpoint removals_expected (cc : list event -> fw_cmd -> Z)
    (ops : list iface_op) (m : machine) : bool :=
  match ops with
  | [] => true
  | op :: rest =>
      removal_expected op m
      && match run_iface_op cc op m with
         | Some (_, m') => removals_expected cc rest m'
         | None => true
         end
  end.

Fixpoint run_ampdu (cc : list event -> fw_cmd -> Z) (vif : N)
    (ps : list ieee80211_ampdu_params) : M unit :=
  match ps with
  | [] => ret tt
  | p :: rest =>
      _ <- rsi_mac80211_ampdu_action cc vif p ;; run_ampdu cc vif rest
  end.

Fixpoint run_cqm (peer : list Z) (readings : list Z) : M unit :=
  match readings with
  | [] => ret tt
  | rssi :: rest => rsi_perform_cqm peer rssi ;;; run_cqm peer rest
  end.

(** ** Observations on a machine *)

Definition nvifs (m : machine) : Z := sc_nvifs (adapter_of m).
Definition vif0 (m : machine) : option vif_ptr := vifs (adapter_of m) !! 0%nat.
Definition blocked (m : machine) : bool := hw_data_qs_blocked (common_of m).
Definition cached_power (m : machine) : Z := tx_power (common_of m).
Definition security_enabled (m : machine) : bool :=
  security_enable (secinfo (common_of m)).
Definition pairwise_cipher (m : machine) : Z := ptk_cipher (secinfo (common_of m)).
Definition group_cipher (m : machine) : Z := gtk_cipher (secinfo (common_of m)).
Definition edca (m : machine) : edca_queue -> ieee80211_tx_queue_params :=
  edca_params (common_of m).
Definition last_reported (m : machine) : Z :=
  last_cqm_event_rssi (cqm_info (common_of m)).
Definition recorded_ssn (m : machine) (i : nat) : option Z :=
  seq_start <$> vif_info (common_of m) !! i.

(** The interface count is zero or one. *)
Definition nvifs_ok (m : machine) : Prop := nvifs m = 0 \/ nvifs m = 1.

Definition pairwise_flag (k : ieee80211_key_conf) : bool :=
  tstmask (key_flags k) IEEE80211_KEY_FLAG_PAIRWISE.

(** ** Concrete machines *)

Module Scenario.

Definition no_params : ieee80211_tx_queue_params :=
  {| txop := 0; cw_min := 0; cw_max := 0; aifs := 0 |}.

(** The driver state right after attach: nothing cached, no interface. *)
Definition common_at_attach : rsi_common :=
  {| iface_down := true; hw_data_qs_blocked := false; tx_power := 0;
     secinfo := {| security_enable := false; ptk_cipher := 0;
                   gtk_cipher := 0 |};
     edca_params := fun _ => no_params;
     cqm_info := {| last_cqm_event_rssi := 0; rssi_thold := 0;
                    rssi_hyst := 0 |};
     vif_info := [ {| is_ht := false; sgi := false; seq_start := 0 |} ];
     bitrate_mask := fun _ => 0;
     min_rate := 0xffff |}.

Definition adapter_at_attach : rsi_hw :=
  {| sc_nvifs := 0; vifs := [None]; priv := common_at_attach |}.

Definition channel_2ghz (n freq : Z) : ieee80211_channel :=
  {| band := NL80211_BAND_2GHZ; center_freq := freq; hw_value := n;
     chan_flags := 0 |}.

Definition channel_1 : ieee80211_channel := channel_2ghz 1 2412.
Definition channel_6 : ieee80211_channel := channel_2ghz 6 2437.

Definition iface (t : nl80211_iftype) (associated : bool)
    (ch : option ieee80211_channel) (rest : list Z) : ieee80211_vif :=
  {| vif_type := t;
     bss_conf := {| assoc := associated; bssid := [0; 0; 0; 0; 0; 0];
                    qos := false; aid := 0; chandef_chan := ch;
                    cqm_rssi_thold := 0; cqm_rssi_hyst := 0 |};
     vif_rest := rest |}.

(** Two station interfaces at addresses 1 and 2 that differ in a byte, and a
    monitor interface at address 3. *)
Definition interfaces : gmap N ieee80211_vif :=
  <[1%N := iface NL80211_IFTYPE_STATION false None [1]]>
    (<[2%N := iface NL80211_IFTYPE_STATION false None [2]]>
      (<[3%N := iface NL80211_IFTYPE_MONITOR false None [3]]> ∅)).

Definition machine_of (a : rsi_hw) (cf : ieee80211_conf)
    (mem : gmap N ieee80211_vif) : machine :=
  {| hw := {| conf := cf; hw_priv := a |}; vif_mem := mem; trace := [] |}.

Definition conf_at_attach : ieee80211_conf :=
  {| power_level := 0; conf_chan := Some channel_1 |}.

Definition at_attach : machine :=
  machine_of adapter_at_attach conf_at_attach interfaces.

(** Station interface 1 is up. *)
Definition with_station : machine :=
  machine_of (set_vifs [Some 1%N] (set_sc_nvifs 1 adapter_at_attach))
    conf_at_attach interfaces.

(** Station interface 1 is up and associated on channel [connected]; the
    stack asks for channel [target]; the queues are blocked or not. *)
Definition associated_on (connected target : ieee80211_channel)
    (associated qs_blocked : bool) : machine :=
  machine_of
    {| sc_nvifs := 1; vifs := [Some 1%N];
       priv := set_hw_data_qs_blocked qs_blocked common_at_attach |}
    {| power_level := 0; conf_chan := Some target |}
    (<[1%N := iface NL80211_IFTYPE_STATION associated (Some connected) [1]]> ∅).

(** A command channel that answers every command with the same status. *)
Definition answers (status : Z) : list event -> fw_cmd -> Z :=
  fun _ _ => status.

Definition ccmp_pairwise_key : ieee80211_key_conf :=
  {| cipher := 0x000FAC04; hw_key_idx := 0;
     key_flags := IEEE80211_KEY_FLAG_PAIRWISE; keyidx := 0; keylen := 16;
     key := repeat 0xaa 16 |}.

Definition best_effort_like : ieee80211_tx_queue_params :=
  {| txop := 0; cw_min := 15; cw_max := 1023; aifs := 7 |}.

Definition ampdu (a : ieee80211_ampdu_mlme_action) (t s : Z)
    : ieee80211_ampdu_params :=
  {| sta_addr := [0; 0; 0; 0; 0; 1]; action := a; tid := t; ssn := s;
     buf_size := 64 |}.

Definition monitoring (thold hyst : Z) : machine :=
  machine_of
    {| sc_nvifs := 1; vifs := [Some 1%N];
       priv := set_cqm_info {| last_cqm_event_rssi := 0; rssi_thold := thold;
                               rssi_hyst := hyst |} common_at_attach |}
    conf_at_attach interfaces.

(** Station interface 1 is up, nothing cached, and the stack asks for
    [level] dBm. *)
Definition requesting_power (level : Z) : machine :=
  machine_of (set_vifs [Some 1%N] (set_sc_nvifs 1 adapter_at_attach))
    {| power_level := level; conf_chan := Some channel_1 |} interfaces.

(** Station interface 1 is up with a CCMP pairwise key and a TKIP group key
    installed. *)
Definition keyed : machine :=
  machine_of
    {| sc_nvifs := 1; vifs := [Some 1%N];
       priv := set_secinfo {| security_enable := true;
                              ptk_cipher := 0x000FAC04;
                              gtk_cipher := 0x000FAC02 |} common_at_attach |}
    conf_at_attach interfaces.

End Scenario.

(** The arrays [vifs] and [vif_info] have their declared size. *)
Definition arrays_ok (m : machine) : Prop :=
  length (vifs (adapter_of m)) = RSI_MAX_VIFS
  /\ length (vif_info (common_of m)) = RSI_MAX_VIFS.

(** ** The properties as the specification words them

    Each one is stated at a machine, so that it can be tested there. *)

(** Key life cycle: a successful SET of a pairwise key caches its cipher
    and enables security; a successful DISABLE disables security and clears
    both cached ciphers. *)
Definition key_life_cycle_as_stated (cc : list event -> fw_cmd -> Z)
    (vif : N) (k : ieee80211_key_conf) (m : machine) : Prop :=
  (forall st k' m',
     rsi_mac80211_set_key cc SET_KEY vif k m = Some (st, k', m') ->
     st = 0 -> pairwise_flag k = true ->
     pairwise_cipher m' = cipher k /\ security_enabled m' = true)
  /\ (forall st k' m',
        rsi_mac80211_set_key cc DISABLE_KEY vif k m = Some (st, k', m') ->
        st = 0 ->
        security_enabled m' = false
        /\ pairwise_cipher m' = 0 /\ group_cipher m' = 0).

(** Power change: no interface is an error, an unchanged level is a no-op,
    and a failed radio-parameter update is returned with the cached level
    left as it was. *)
Definition power_change_as_stated (cc : list event -> fw_cmd -> Z)
    (m : machine) : Prop :=
  (nvifs m <= 0 -> rsi_config_power cc m = Some (- EINVAL, m))
  /\ (0 < nvifs m -> power_level (conf (hw m)) = cached_power m ->
      rsi_config_power cc m = Some (0, m))
  /\ (forall st m' c,
        rsi_config_power cc m = Some (st, m') ->
        trace m' = trace m ++ [Fw c st] -> st <> 0 ->
        cached_power m' = cached_power m).

(** Channel change, for the interface [v] stored in slot 0, the requested
    channel [cur] and the connected channel [bch]. *)
Definition channel_change_as_stated (cc : list event -> fw_cmd -> Z)
    (m : machine) : Prop :=
  forall q v cur bch st m',
    vif0 m = Some (Some q) -> vif_mem m !! q = Some v ->
    conf_chan (conf (hw m)) = Some cur ->
    chandef_chan (bss_conf v) = Some bch ->
    rsi_channel_change cc m = Some (st, m') ->
    exists new,
      trace m' = trace m ++ new
      /\ (assoc (bss_conf v) = true -> blocked m = false ->
          hw_value bch <> hw_value cur ->
          exists s rest,
            new = Fw (FW_BLOCK_UNBLOCK true) s :: rest
            /\ (s = 0 -> blocked m' = true))
      /\ (assoc (bss_conf v) = true -> hw_value bch = hw_value cur ->
          exists s pre,
            new = pre ++ [Fw (FW_BLOCK_UNBLOCK false) s]
            /\ (s = 0 -> blocked m' = false))
      /\ (assoc (bss_conf v) = false -> blocked m = true ->
          exists s pre,
            new = pre ++ [Fw (FW_BLOCK_UNBLOCK false) s]
            /\ (s = 0 -> blocked m' = false))
      /\ (assoc (bss_conf v) = true -> hw_value bch <> hw_value cur ->
          blocked m' = true).

(** Adding a station interface while a station interface is present, that
    is stored in slot 0, fails with the generic "unsupported" error and
    leaves the stored interface and the count as they are. *)
Definition add_interface_as_stated (cc : list event -> fw_cmd -> Z)
    (vif : N) (m : machine) : Prop :=
  forall v p vp,
    vif_mem m !! vif = Some v ->
    vif_type v = NL80211_IFTYPE_STATION ->
    vif0 m = Some (Some p) ->
    vif_mem m !! p = Some vp ->
    vif_type vp = NL80211_IFTYPE_STATION ->
    exists m',
      rsi_mac80211_add_interface cc vif m = Some (- EOPNOTSUPP, m')
      /\ vif0 m' = vif0 m /\ nvifs m' = nvifs m.

(** The interface count stays in {0,1} over any run of add and remove. *)
Definition interface_count_as_stated (cc : list event -> fw_cmd -> Z)
    (ops : list iface_op) (m : machine) : Prop :=
  nvifs_ok m ->
  forall m', run_iface_ops cc ops m = Some (tt, m') -> nvifs_ok m'.

(** [conf_tx]: out of range is a no-op; each recognized queue has its slot,
    background going to the slot of best-effort. *)
Definition conf_tx_as_stated (vif : N) (queue : Z)
    (p : ieee80211_tx_queue_params) (m : machine) : Prop :=
  (IEEE80211_NUM_ACS <= queue -> rsi_mac80211_conf_tx vif queue p m = Some (0, m))
  /\ (0 <= queue < IEEE80211_NUM_ACS ->
      exists m',
        rsi_mac80211_conf_tx vif queue p m = Some (0, m')
        /\ (queue = IEEE80211_AC_VO -> edca m' VO_Q = p)
        /\ (queue = IEEE80211_AC_VI -> edca m' VI_Q = p)
        /\ (queue = IEEE80211_AC_BE -> edca m' BE_Q = p)
        /\ (queue = IEEE80211_AC_BK -> edca m' BE_Q = p)).

(** A SET whose push fails is returned and updates no cached security
    state. *)
Definition failed_set_key_as_stated (cc : list event -> fw_cmd -> Z)
    (vif : N) (k : ieee80211_key_conf) (m : machine) : Prop :=
  forall st k' m',
    rsi_mac80211_set_key cc SET_KEY vif k m = Some (st, k', m') ->
    st <> 0 ->
    security_enabled m' = security_enabled m
    /\ pairwise_cipher m' = pairwise_cipher m
    /\ group_cipher m' = group_cipher m.

(** The hysteresis test as the specification words it, over the integers:
    [last_event = 0] stands for no prior report. *)
Definition cqm_event_as_stated (rssi last_event thold hyst : Z)
    : option nl80211_cqm_rssi_threshold_event :=
  if (rssi <? thold) && ((last_event =? 0) || (rssi <? last_event - hyst))
  then Some NL80211_CQM_RSSI_THRESHOLD_EVENT_LOW
  else if (rssi >? thold) && ((last_event =? 0) || (rssi >? last_event + hyst))
  then Some NL80211_CQM_RSSI_THRESHOLD_EVENT_HIGH
  else None.

(** The events reported to mac80211 by the monitor, in order. *)
Definition cqm_events (t : list event)
    : list (nl80211_cqm_rssi_threshold_event * Z) :=
  omap (fun e => match e with
                 | Up (UP_CQM_RSSI_NOTIFY _ ev rssi) => Some (ev, rssi)
                 | _ => None
                 end) t.

(** The call stored [p] in [slot] of [edca_params] and did nothing else to
    the slots or to the trace. *)
Definition stored_at (m m' : machine) (slot : edca_queue)
    (p : ieee80211_tx_queue_params) : Prop :=
  edca m' slot = p
  /\ (forall j, j <> slot -> edca m' j = edca m j)
  /\ trace m' = trace m.

(** The channel programming of one channel change, as it shows in the
    trace: a band check that failed, or a band check that succeeded followed
    by the channel-set command. *)
Definition channel_programming (cur : ieee80211_channel) (t : list event)
    : Prop :=
  (exists b, b <> 0 /\ t = [Fw FW_BAND_CHECK b])
  \/ (exists c, t = [Fw FW_BAND_CHECK 0; Fw (FW_SET_CHANNEL cur) c]).

(** [vif] is the interface stored in slot 0 and the arrays are in place:
    what an aggregation call on [vif] needs. *)
Definition ampdu_ready (vif : N) (m : machine) : Prop :=
  vif0 m = Some (Some vif) /\ arrays_ok m.

(** [e] is a load-key command answered with status [st]. *)
Definition is_load_key (e : event) (st : Z) : Prop :=
  exists data len kt id suite, e = Fw (FW_LOAD_KEY data len kt id suite) st.

(** * The rest of the file

    The handlers below touch fields of the driver state, firmware commands
    and calls into mac80211 that the handlers above do not: they are kept
    in a record of their own, [rsi_more], beside the machine, with a log of
    their own. *)

From Stdlib Require Import Sorted.

(** ** More constants of the kernel interfaces *)

Definition IEEE80211_HT_CAP_SGI_20 : Z := 0x0020.
Definition IEEE80211_HT_CAP_SGI_40 : Z := 0x0040.

Definition IEEE80211_HT_CAP_SUP_WIDTH_20_40 : Z := 0x0002.
Definition IEEE80211_HT_MAX_AMPDU_16K : Z := 1.
Definition IEEE80211_HT_MPDU_DENSITY_NONE : Z := 0.
Definition IEEE80211_HT_MCS_TX_DEFINED : Z := 0x01.

Definition IEEE80211_CHAN_DISABLED : Z := BIT 0.
Definition IEEE80211_CHAN_NO_IR : Z := BIT 1.
Definition IEEE80211_CHAN_RADAR : Z := BIT 3.

Definition IEEE80211_FCTL_FTYPE : Z := 0x000c.
Definition IEEE80211_FCTL_STYPE : Z := 0x00f0.
Definition IEEE80211_FCTL_PROTECTED : Z := 0x4000.
Definition IEEE80211_FTYPE_MGMT : Z := 0x0000.
Definition IEEE80211_STYPE_BEACON : Z := 0x0080.

Definition RX_FLAG_DECRYPTED : Z := BIT 1.
Definition RX_FLAG_MMIC_STRIPPED : Z := BIT 3.
Definition RX_FLAG_IV_STRIPPED : Z := BIT 4.

Definition ETH_ALEN : nat := 6.

(** Conversion to [s8], wrapping. *)
Definition to_s8 (x : Z) : Z := (x + 2 ^ 7) mod 2 ^ 8 - 2 ^ 7.

Definition ieee80211_has_protected (fc : Z) : bool :=
  tstmask fc IEEE80211_FCTL_PROTECTED.

Definition ieee80211_is_beacon (fc : Z) : bool :=
  Z.land fc (Z.lor IEEE80211_FCTL_FTYPE IEEE80211_FCTL_STYPE)
  =? Z.lor IEEE80211_FTYPE_MGMT IEEE80211_STYPE_BEACON.

(** [enum nl80211_dfs_regions], with the values outside it. *)
Inductive nl80211_dfs_regions :=
| NL80211_DFS_UNSET
| NL80211_DFS_FCC
| NL80211_DFS_ETSI
| NL80211_DFS_JP
| nl80211_dfs_other (n : Z).

Record ieee80211_sta := {
  supp_rates : nl80211_band -> Z;   (* u32 *)
  ht_supported : bool;
  ht_cap : Z                        (* u16 *)
}.

(** [mask->control[band]]: the legacy rates and the first byte of
    [ht_mcs]. *)
Record bitrate_mask_control := {
  legacy : Z;                       (* u32 *)
  ht_mcs_0 : Z                      (* u8 *)
}.

Record regulatory_request := {
  alpha2 : Z * Z;
  dfs_region : nl80211_dfs_regions
}.

(** A received frame: the bytes from [skb->data] on, and the side
    information the lower layer left in [skb->cb]. *)
Record sk_buff := {
  skb_data : list Z;
  skb_rssi : Z;                     (* s8 *)
  skb_channel : Z                   (* u16 *)
}.

Record ieee80211_rx_status := {
  rx_signal : Z;                    (* s8 *)
  rx_band : nl80211_band;
  rx_freq : Z;
  rx_flag : Z
}.

(** ** The tables of the file *)

Definition rsi_2ghz_channels : list ieee80211_channel :=
  map (fun '(f, n) => {| band := NL80211_BAND_2GHZ; center_freq := f;
                         hw_value := n; chan_flags := 0 |})
    [(2412, 1); (2417, 2); (2422, 3); (2427, 4); (2432, 5); (2437, 6);
     (2442, 7); (2447, 8); (2452, 9); (2457, 10); (2462, 11); (2467, 12);
     (2472, 13); (2484, 14)].

Definition rsi_5ghz_channels : list ieee80211_channel :=
  map (fun '(f, n) => {| band := NL80211_BAND_5GHZ; center_freq := f;
                         hw_value := n; chan_flags := 0 |})
    [(5180, 36); (5200, 40); (5220, 44); (5240, 48); (5260, 52); (5280, 56);
     (5300, 60); (5320, 64); (5500, 100); (5520, 104); (5540, 108);
     (5560, 112); (5580, 116); (5600, 120); (5620, 124); (5640, 128);
     (5660, 132); (5680, 136); (5700, 140); (5745, 149); (5765, 153);
     (5785, 157); (5805, 161); (5825, 165)].

(** The rate codes of the firmware; their values are in [rsi_mgmt.h]. *)
Inductive rsi_rate :=
| RSI_RATE_1 | RSI_RATE_2 | RSI_RATE_5_5 | RSI_RATE_11
| RSI_RATE_6 | RSI_RATE_9 | RSI_RATE_12 | RSI_RATE_18
| RSI_RATE_24 | RSI_RATE_36 | RSI_RATE_48 | RSI_RATE_54
| RSI_RATE_MCS0 | RSI_RATE_MCS1 | RSI_RATE_MCS2 | RSI_RATE_MCS3
| RSI_RATE_MCS4 | RSI_RATE_MCS5 | RSI_RATE_MCS6 | RSI_RATE_MCS7.

(** The [hw_value] column of [rsi_rates]. *)
Definition rsi_rates : list rsi_rate :=
  [RSI_RATE_1; RSI_RATE_2; RSI_RATE_5_5; RSI_RATE_11;
   RSI_RATE_6; RSI_RATE_9; RSI_RATE_12; RSI_RATE_18;
   RSI_RATE_24; RSI_RATE_36; RSI_RATE_48; RSI_RATE_54].

Definition rsi_mcsrates : list rsi_rate :=
  [RSI_RATE_MCS0; RSI_RATE_MCS1; RSI_RATE_MCS2; RSI_RATE_MCS3;
   RSI_RATE_MCS4; RSI_RATE_MCS5; RSI_RATE_MCS6; RSI_RATE_MCS7].

(** [enum rsi_dfs_regions] of [rsi_main.h]. *)
Inductive rsi_dfs_regions :=
| RSI_REGION_FCC
| RSI_REGION_ETSI
| RSI_REGION_TELEC
| RSI_REGION_WORLD.

Definition rsi_is_cipher_wep (common : rsi_common) : bool :=
  ((gtk_cipher (secinfo common) =? WLAN_CIPHER_SUITE_WEP104)
   || (gtk_cipher (secinfo common) =? WLAN_CIPHER_SUITE_WEP40))
  && (ptk_cipher (secinfo common) =? 0).

Definition rsi_map_region_code (region_code : nl80211_dfs_regions)
    : rsi_dfs_regions :=
  match region_code with
  | NL80211_DFS_FCC => RSI_REGION_FCC
  | NL80211_DFS_ETSI => RSI_REGION_ETSI
  | NL80211_DFS_JP => RSI_REGION_TELEC
  | NL80211_DFS_UNSET => RSI_REGION_WORLD
  | nl80211_dfs_other _ => RSI_REGION_WORLD
  end.

(** [struct ieee80211_sta_ht_cap], the fields the driver sets; the
    [memset] leaves the others at zero. *)
Record ieee80211_sta_ht_cap := {
  htc_ht_supported : bool;
  htc_cap : Z;                      (* u16 *)
  htc_ampdu_factor : Z;             (* u8 *)
  htc_ampdu_density : Z;            (* u8 *)
  htc_rx_mask_0 : Z;                (* u8 *)
  htc_tx_params : Z                 (* u8 *)
}.

(** [struct ieee80211_supported_band]: [n_channels] and [n_bitrates] are
    the lengths of the two lists. *)
Record ieee80211_supported_band := {
  sb_band : nl80211_band;
  sb_channels : list ieee80211_channel;
  sb_bitrates : list rsi_rate;
  sb_ht_cap : ieee80211_sta_ht_cap
}.

(** What the function leaves in [adapter->sbands[band]].  [allocated]
    tells whether [kmalloc] gave memory: its result goes to [memcpy]
    unchecked.  [&rsi_rates[4]] with [ARRAY_SIZE(rsi_rates) - 4] entries
    is the table without its first four entries. *)
Definition rsi_register_rates_channels (allocated : bool) (b : nl80211_band)
    : option ieee80211_supported_band :=
  if allocated then
    let ht :=
      {| htc_ht_supported := true;
         htc_cap := Z.lor (Z.lor IEEE80211_HT_CAP_SUP_WIDTH_20_40
                             IEEE80211_HT_CAP_SGI_20)
                      IEEE80211_HT_CAP_SGI_40;
         htc_ampdu_factor := IEEE80211_HT_MAX_AMPDU_16K;
         htc_ampdu_density := IEEE80211_HT_MPDU_DENSITY_NONE;
         htc_rx_mask_0 := 0xff;
         htc_tx_params := IEEE80211_HT_MCS_TX_DEFINED |} in
    match b with
    | NL80211_BAND_2GHZ =>
        Some {| sb_band := NL80211_BAND_2GHZ;
                sb_channels := rsi_2ghz_channels;
                sb_bitrates := rsi_rates;
                sb_ht_cap := ht |}
    | NL80211_BAND_5GHZ =>
        Some {| sb_band := NL80211_BAND_5GHZ;
                sb_channels := rsi_5ghz_channels;
                sb_bitrates := drop 4 rsi_rates;
                sb_ht_cap := ht |}
    end
  else None.

(** ** The wider state *)

Record rsi_more := {
  ant_in_use : Z;                           (* u8 *)
  fixedrate_mask : nl80211_band -> Z;       (* u32 *)
  band_in_use : nl80211_band;               (* common->band *)
  num_supp_bands : Z;
  region : rsi_dfs_regions;                 (* adapter->dfs_region *)
  country : Z * Z;
  (* wiphy->bands[NL80211_BAND_5GHZ]->channels *)
  channels_5ghz : list ieee80211_channel
}.

Inductive more_cmd :=
| FW_SET_ANTENNA (antenna : Z).

Inductive more_event :=
| MFw (c : more_cmd) (status : Z)
| RX_DELIVERED (bytes : list Z) (rxs : ieee80211_rx_status)
| RX_FREED (skb : sk_buff)
| START_TX_BA_SESSION (tid : Z) (timeout : Z).

Record driver := {
  core : machine;
  more : rsi_more;
  more_trace : list more_event
}.

Definition with_core (m : machine) (d : driver) : driver :=
  {| core := m; more := more d; more_trace := more_trace d |}.

Definition with_more (x : rsi_more) (d : driver) : driver :=
  {| core := core d; more := x; more_trace := more_trace d |}.

Definition set_ant_in_use (a : Z) (x : rsi_more) : rsi_more :=
  {| ant_in_use := a; fixedrate_mask := fixedrate_mask x;
     band_in_use := band_in_use x; num_supp_bands := num_supp_bands x;
     region := region x; country := country x;
     channels_5ghz := channels_5ghz x |}.

Definition set_fixedrate_mask (f : nl80211_band -> Z) (x : rsi_more)
    : rsi_more :=
  {| ant_in_use := ant_in_use x; fixedrate_mask := f;
     band_in_use := band_in_use x; num_supp_bands := num_supp_bands x;
     region := region x; country := country x;
     channels_5ghz := channels_5ghz x |}.

Definition set_regulatory (r : rsi_dfs_regions) (c : Z * Z)
    (l : list ieee80211_channel) (x : rsi_more) : rsi_more :=
  {| ant_in_use := ant_in_use x; fixedrate_mask := fixedrate_mask x;
     band_in_use := band_in_use x; num_supp_bands := num_supp_bands x;
     region := r; country := c; channels_5ghz := l |}.

Definition set_chan_flags (f : Z) (ch : ieee80211_channel)
    : ieee80211_channel :=
  {| band := band ch; center_freq := center_freq ch; hw_value := hw_value ch;
     chan_flags := f |}.

Definition set_is_ht (b : bool) (v : vif_priv) : vif_priv :=
  {| is_ht := b; sgi := sgi v; seq_start := seq_start v |}.

Definition set_sgi (b : bool) (v : vif_priv) : vif_priv :=
  {| is_ht := is_ht v; sgi := b; seq_start := seq_start v |}.

(** The handler monad over the wider state. *)
Definition D (A : Type) : Type := driver -> option (A * driver).

Definition dret {A} (a : A) : D A := fun d => Some (a, d).

Definition dbind {A B} (c : D A) (k : A -> D B) : D B :=
  fun d => match c d with
           | Some (a, d') => k a d'
           | None => None
           end.

Definition dfault {A} : D A := fun _ => None.

(** A handler of the machine, run on the machine inside. *)
Definition lift {A} (c : M A) : D A :=
  fun d => match c (core d) with
           | Some (a, m') => Some (a, with_core m' d)
           | None => None
           end.

Declare Scope more_scope.
Delimit Scope more_scope with more.
Notation "x <- c ;; k" := (dbind c (fun x => k))
  (at level 100, c at next level, right associativity) : more_scope.
Notation "c ;;; k" := (dbind c (fun _ => k))
  (at level 100, right associativity) : more_scope.
Local Open Scope more_scope.

Definition get_more : D rsi_more := fun d => Some (more d, d).
Definition put_more (x : rsi_more) : D unit :=
  fun d => Some (tt, with_more x d).

Definition dderef {A} (o : option A) : D A :=
  match o with Some a => dret a | None => dfault end.

Definition record (e : more_event) : D unit :=
  fun d => Some (tt, {| core := core d; more := more d;
                        more_trace := more_trace d ++ [e] |}).

(** The loop [for (ii = 0; ii < n; ii++) if (bitmap & BIT(ii)) break;]
    started at [ii]: the index it stops at, if it stops. *)
Fixpoint first_rate (bitmap : Z) (ii n : nat) : option nat :=
  match n with
  | O => None
  | S n' => if tstmask bitmap (BIT (Z.of_nat ii)) then Some ii
            else first_rate bitmap (S ii) n'
  end.

(** The frame-control field: the first two bytes of the header, little
    endian. *)
Definition frame_control (bytes : list Z) : option Z :=
  match bytes with
  | b0 :: b1 :: _ => Some (Z.lor b0 (Z.shiftl b1 8))
  | _ => None
  end.

(** [memmove(data + k, data, hdrlen)], for a frame that holds the header
    and [k] more bytes; shorter frames are outside the model. *)
Definition move_header (k hdrlen : nat) (bytes : list Z) : option (list Z) :=
  if decide (k + hdrlen <= length bytes)%nat
  then Some (take k bytes ++ take hdrlen bytes ++ drop (k + hdrlen) bytes)
  else None.

(** [hdr->addr2]: six bytes at offset 10. *)
Definition addr2 (bytes : list Z) : option (list Z) :=
  if decide (10 + ETH_ALEN <= length bytes)%nat
  then Some (take ETH_ALEN (drop 10 bytes))
  else None.

(** [&adapter->vifs[0]->bss_conf], read. *)
Definition vif0_bss_conf : M ieee80211_bss_conf :=
  (p <- read_vifs 0 ;;
   q <- deref p ;;
   v <- load_vif q ;;
   ret (bss_conf v))%drv.

Section DriverMore.

Variable command_channel : list event -> fw_cmd -> Z.

(** The status answered to the commands of this part. *)
Variable more_channel : list more_event -> more_cmd -> Z.

(** [ANTENNA_SEL_INT] and [ANTENNA_SEL_UFL] of [rsi_mgmt.h]. *)
Variables ANTENNA_SEL_INT ANTENNA_SEL_UFL : Z.

(** The numeric value of a rate code. *)
Variable rate_code : rsi_rate -> Z.

(** [ieee80211_hdrlen] and [ieee80211_channel_to_frequency] of the
    kernel. *)
Variable ieee80211_hdrlen : Z -> nat.
Variable ieee80211_channel_to_frequency : Z -> nl80211_band -> Z.

Definition more_send (c : more_cmd) : D Z :=
  fun d =>
    let status := more_channel (more_trace d) c in
    Some (status, {| core := core d; more := more d;
                     more_trace := more_trace d ++ [MFw c status] |}).

(** Modelled from the spec: the sender of the antenna-select frame of
    [rsi_91x_mgmt.c], one request on the command channel. *)
Definition rsi_set_antenna (antenna : Z) : D Z :=
  more_send (FW_SET_ANTENNA antenna).

Definition rsi_mac80211_set_antenna (tx_ant rx_ant : Z) : D Z :=
  if (tx_ant >? 1) || (rx_ant >? 1) then dret (- EINVAL)
  else
    let antenna :=
      if negb (tx_ant =? 0) then ANTENNA_SEL_UFL else ANTENNA_SEL_INT in
    x <- get_more ;;
    failed <- (if negb (ant_in_use x =? antenna)
               then st <- rsi_set_antenna antenna ;; dret (negb (st =? 0))
               else dret false) ;;
    if failed then dret (- EINVAL)
    else
      x <- get_more ;;
      put_more (set_ant_in_use antenna x) ;;;
      dret 0.

(** The handler writes through [tx_ant] and [rx_ant]; they are returned
    after the status. *)
Definition rsi_mac80211_get_antenna : D (Z * Z * Z) :=
  x <- get_more ;;
  dret (0, if ant_in_use x =? ANTENNA_SEL_UFL then 1 else 0, 0).

(** [hw->conf.chandef.chan->band]. *)
Definition conf_band : D nl80211_band :=
  cf <- lift get_conf ;;
  ch <- dderef (conf_chan cf) ;;
  dret (band ch).

Definition rsi_mac80211_set_rate_mask (vif : N)
    (mask : nl80211_band -> bitrate_mask_control) : D Z :=
  b <- conf_band ;;
  x <- get_more ;;
  put_more (set_fixedrate_mask (upd (fixedrate_mask x) b 0) x) ;;;
  x <- get_more ;;
  put_more
    (set_fixedrate_mask
       (upd (fixedrate_mask x) b
          (if legacy (mask b) =? 0xfff
           then to_u32 (Z.shiftl (ht_mcs_0 (mask b)) 12)
           else legacy (mask b))) x) ;;;
  dret 0.

Definition put_min_rate (r : Z) : D unit :=
  lift (common <- get_common ;; put_common (set_min_rate r common))%drv.

Definition rsi_set_min_rate (sta : ieee80211_sta) : D unit :=
  b <- conf_band ;;
  lift (common <- get_common ;;
        put_common
          (set_bitrate_mask (upd (bitrate_mask common) b (supp_rates sta b))
             common))%drv ;;;
  x <- get_more ;;
  let rate_bitmap := Z.land (fixedrate_mask x b) (supp_rates sta b) in
  matched <- (if tstmask rate_bitmap 0xfff then
                match first_rate rate_bitmap 0 (length rsi_rates) with
                | Some ii =>
                    r <- dderef (rsi_rates !! ii) ;;
                    put_min_rate (rate_code r) ;;;
                    dret true
                | None => dret false
                end
              else dret false) ;;
  lift (info <- read_vif_info 0 ;;
        store_vif_info 0 (set_is_ht (ht_supported sta) info))%drv ;;;
  info <- lift (read_vif_info 0) ;;
  matched <- (if is_ht info && negb (Z.shiftr rate_bitmap 12 =? 0) then
                match first_rate (Z.shiftr rate_bitmap 12) 0
                        (length rsi_mcsrates) with
                | Some ii =>
                    r <- dderef (rsi_mcsrates !! ii) ;;
                    put_min_rate (rate_code r) ;;;
                    dret true
                | None => dret matched
                end
              else dret matched) ;;
  if negb matched then put_min_rate 0xffff else dret tt.

Definition rsi_mac80211_sta_add (vif : N) (sta : ieee80211_sta) : D Z :=
  rsi_set_min_rate sta ;;;
  (if tstmask (ht_cap sta) IEEE80211_HT_CAP_SGI_20
      || tstmask (ht_cap sta) IEEE80211_HT_CAP_SGI_40
   then lift (info <- read_vif_info 0 ;;
              store_vif_info 0 (set_sgi true info))%drv
   else dret tt) ;;;
  (if ht_supported sta then record (START_TX_BA_SESSION 0 0) else dret tt) ;;;
  dret 0.

(** One turn of the loop of [rsi_reg_notify] over the 5 GHz channels. *)
Definition restrict_radar (ch : ieee80211_channel) : ieee80211_channel :=
  if tstmask (chan_flags ch) IEEE80211_CHAN_DISABLED then ch
  else if tstmask (chan_flags ch) IEEE80211_CHAN_RADAR
       then set_chan_flags (Z.lor (chan_flags ch) IEEE80211_CHAN_NO_IR) ch
       else ch.

Definition rsi_reg_notify (request : regulatory_request) : D unit :=
  x <- get_more ;;
  let chans := if num_supp_bands x >? 1
               then map restrict_radar (channels_5ghz x)
               else channels_5ghz x in
  put_more
    (set_regulatory (rsi_map_region_code (dfs_region request))
       (alpha2 request) chans x).

(** [skb->cb] holds both the side information and the receive status: the
    [memset] clears it, so the status starts from zeros.  The result is the
    frame from [skb->data] on, as the function leaves it, and the status.
    [hdr] keeps pointing where [skb->data] pointed at entry, so what is read
    through it after the [memmove] is read from the moved bytes. *)
Definition rsi_fill_rx_status (skb : sk_buff)
    : D (list Z * ieee80211_rx_status) :=
  let rssi := skb_rssi skb in
  let channel := to_u8 (skb_channel skb) in
  fc <- dderef (frame_control (skb_data skb)) ;;
  let hdrlen := ieee80211_hdrlen fc in
  x <- get_more ;;
  let signal := to_s8 (- rssi) in
  let freq := ieee80211_channel_to_frequency channel (band_in_use x) in
  let rxs_freq := if negb (freq =? 0) then freq else 0 in
  common <- lift get_common ;;
  r <-
    (if ieee80211_has_protected fc then
       if rsi_is_cipher_wep common then
         moved <- dderef (move_header 4 hdrlen (skb_data skb)) ;;
         dret (moved, 4%nat,
               Z.lor (Z.lor 0 RX_FLAG_DECRYPTED) RX_FLAG_IV_STRIPPED)
       else
         moved <- dderef (move_header 8 hdrlen (skb_data skb)) ;;
         dret (moved, 8%nat,
               Z.lor (Z.lor (Z.lor 0 RX_FLAG_MMIC_STRIPPED)
                        RX_FLAG_DECRYPTED) RX_FLAG_IV_STRIPPED)
     else dret (skb_data skb, 0%nat, 0)) ;;
  let '(bytes, pulled, flag) := r in
  bss <- lift vif0_bss_conf ;;
  (if assoc bss then
     peer <- dderef (addr2 bytes) ;;
     if decide (take ETH_ALEN (bssid bss) = peer) then
       fc' <- dderef (frame_control bytes) ;;
       if ieee80211_is_beacon fc' then lift (rsi_perform_cqm peer signal)
       else dret tt
     else dret tt
   else dret tt) ;;;
  dret (drop pulled bytes,
        {| rx_signal := signal; rx_band := band_in_use x; rx_freq := rxs_freq;
           rx_flag := flag |}).

Definition rsi_indicate_pkt_to_os (skb : sk_buff) : D unit :=
  common <- lift get_common ;;
  adapter <- lift get_adapter ;;
  if iface_down common || (sc_nvifs adapter =? 0)
  then record (RX_FREED skb)
  else
    r <- rsi_fill_rx_status skb ;;
    record (RX_DELIVERED (fst r) (snd r)).

End DriverMore.

Local Close Scope more_scope.

(** ** Notions for the statements *)

(** Among the [n] bits of [bitmap] from bit [lo] on, bit [lo + i] is the
    lowest one set. *)
Definition lowest_set (bitmap : Z) (lo n i : nat) : Prop :=
  (i < n)%nat
  /\ Z.testbit bitmap (Z.of_nat (lo + i)) = true
  /\ forall j, (j < i)%nat -> Z.testbit bitmap (Z.of_nat (lo + j)) = false.

(** None of the [n] bits of [bitmap] from bit [lo] on is set. *)
Definition none_set (bitmap : Z) (lo n : nat) : Prop :=
  forall j, (j < n)%nat -> Z.testbit bitmap (Z.of_nat (lo + j)) = false.

(** The rate [rsi_set_min_rate] settles on for the bitmap [bm] of rates
    that are both allowed and supported: the first modulation-and-coding
    rate of an HT peer, else the first legacy rate, else [0xffff]. *)
Definition chosen_rate (rc : rsi_rate -> Z) (bm : Z) (ht : bool) : option Z :=
  match (if ht then first_rate (Z.shiftr bm 12) 0 8 else None) with
  | Some i => rc <$> rsi_mcsrates !! i
  | None => match first_rate bm 0 12 with
            | Some i => rc <$> rsi_rates !! i
            | None => Some 0xffff
            end
  end.

(** The cached minimum rate and the flags of slot 0. *)
Definition cached_min_rate (d : driver) : Z := min_rate (common_of (core d)).
Definition slot0 (d : driver) : option vif_priv :=
  vif_info (common_of (core d)) !! 0%nat.

(** The receive status [rsi_fill_rx_status] leaves for a frame: signal,
    band and frequency from the side information of the frame and the band
    in use, and [flag] as the flags. *)
Definition expected_status (cf : Z -> nl80211_band -> Z) (skb : sk_buff)
    (d : driver) (flag : Z) : ieee80211_rx_status :=
  {| rx_signal := to_s8 (- skb_rssi skb);
     rx_band := band_in_use (more d);
     rx_freq := cf (to_u8 (skb_channel skb)) (band_in_use (more d));
     rx_flag := flag |}.

(** The three parts of [rsi_fill_rx_status] on their own: the buffer and
    the flags after the test of the protected bit, the number of bytes
    pulled, and the machine after the test for a beacon of the associated
    network. *)
Definition rx_strip (wep : bool) (fc : Z) (hdrlen : nat) (data : list Z)
    : option (list Z * Z) :=
  if ieee80211_has_protected fc then
    if wep then
      match move_header 4 hdrlen data with
      | Some moved =>
          Some (moved, Z.lor (Z.lor 0 RX_FLAG_DECRYPTED) RX_FLAG_IV_STRIPPED)
      | None => None
      end
    else
      match move_header 8 hdrlen data with
      | Some moved =>
          Some (moved, Z.lor (Z.lor (Z.lor 0 RX_FLAG_MMIC_STRIPPED)
                                RX_FLAG_DECRYPTED) RX_FLAG_IV_STRIPPED)
      | None => None
      end
  else Some (data, 0).

Definition rx_pulled (wep : bool) (fc : Z) : nat :=
  if ieee80211_has_protected fc then if wep then 4%nat else 8%nat else 0%nat.

Definition rx_monitor (bss : ieee80211_bss_conf) (bytes : list Z)
    (signal : Z) (m : machine) : option machine :=
  if assoc bss then
    match addr2 bytes with
    | Some peer =>
        if decide (take ETH_ALEN (bssid bss) = peer) then
          match frame_control bytes with
          | Some fc' =>
              if ieee80211_is_beacon fc'
              then match rsi_perform_cqm peer signal m with
                   | Some (_, m') => Some m'
                   | None => None
                   end
              else Some m
          | None => None
          end
        else Some m
    | None => None
    end
  else Some m.

(** ** More concrete machines *)

Module Cases.

(** A command channel that refuses the band check and accepts the rest. *)
Definition band_refused : list event -> fw_cmd -> Z :=
  fun _ c => match c with FW_BAND_CHECK => -22 | _ => 0 end.

(** A command channel that refuses the queue block and unblock commands
    and accepts the rest. *)
Definition queues_refused : list event -> fw_cmd -> Z :=
  fun _ c => match c with FW_BLOCK_UNBLOCK _ => -5 | _ => 0 end.

Definition wep_group_key : ieee80211_key_conf :=
  {| cipher := WLAN_CIPHER_SUITE_WEP40; hw_key_idx := 0; key_flags := 0;
     keyidx := 2; keylen := 5; key := [1; 2; 3; 4; 5] |}.

(** The wider state right after attach, over a machine. *)
Definition more_at_attach : rsi_more :=
  {| ant_in_use := 2; fixedrate_mask := fun _ => 0;
     band_in_use := NL80211_BAND_2GHZ; num_supp_bands := 2;
     region := RSI_REGION_WORLD; country := (0, 0);
     channels_5ghz := rsi_5ghz_channels |}.

Definition driver_of (m : machine) : driver :=
  {| core := m; more := more_at_attach; more_trace := [] |}.

(** Station 1 is up, with [mask] as the fixed-rate mask of both bands. *)
Definition with_fixed_rates (mask : Z) : driver :=
  {| core := Scenario.with_station;
     more := set_fixedrate_mask (fun _ => mask) more_at_attach;
     more_trace := [] |}.

Definition more_answers (status : Z) : list more_event -> more_cmd -> Z :=
  fun _ _ => status.

(** The rate codes of the firmware, as the vendor header gives them. *)
Definition rate_codes (r : rsi_rate) : Z :=
  match r with
  | RSI_RATE_1 => 0x0 | RSI_RATE_2 => 0x2 | RSI_RATE_5_5 => 0x4
  | RSI_RATE_11 => 0x6 | RSI_RATE_6 => 0x8b | RSI_RATE_9 => 0x8f
  | RSI_RATE_12 => 0x8a | RSI_RATE_18 => 0x8e | RSI_RATE_24 => 0x89
  | RSI_RATE_36 => 0x8d | RSI_RATE_48 => 0x88 | RSI_RATE_54 => 0x8c
  | RSI_RATE_MCS0 => 0x100 | RSI_RATE_MCS1 => 0x101 | RSI_RATE_MCS2 => 0x102
  | RSI_RATE_MCS3 => 0x103 | RSI_RATE_MCS4 => 0x104 | RSI_RATE_MCS5 => 0x105
  | RSI_RATE_MCS6 => 0x106 | RSI_RATE_MCS7 => 0x107
  end.

(** A peer: its supported rates on both bands, and its HT capability. *)
Definition peer (rates : Z) (ht : bool) (cap : Z) : ieee80211_sta :=
  {| supp_rates := fun _ => rates; ht_supported := ht; ht_cap := cap |}.

Definition rate_mask (l mcs : Z) : nl80211_band -> bitrate_mask_control :=
  fun _ => {| legacy := l; ht_mcs_0 := mcs |}.

(** Header lengths: 24 bytes for every frame, which is right for
    management frames and for data frames without QoS or a fourth
    address. *)
Definition hdrlen_24 : Z -> nat := fun _ => 24%nat.

Definition channel_to_frequency (ch : Z) (b : nl80211_band) : Z :=
  match b with
  | NL80211_BAND_2GHZ => if ch =? 14 then 2484 else 2407 + 5 * ch
  | NL80211_BAND_5GHZ => 5000 + 5 * ch
  end.

(** A frame of 24 header bytes, [fc0] and [fc1] first and [a2] at offset
    10, followed by [body]. *)
Definition frame (fc0 fc1 : Z) (a2 : list Z) (body : list Z) : list Z :=
  [fc0; fc1; 0; 0] ++ [255; 255; 255; 255; 255; 255] ++ a2
  ++ [9; 9; 9; 9; 9; 9; 0; 0] ++ body.

Definition ap : list Z := [2; 0; 0; 0; 0; 7].

(** Station 1 is up and associated with [ap]; the monitor watches a
    threshold of -70 with hysteresis 5. *)
Definition listening (down : bool) : machine :=
  Scenario.machine_of
    {| sc_nvifs := 1; vifs := [Some 1%N];
       priv := set_iface_down down
                 (set_cqm_info {| last_cqm_event_rssi := 0;
                                  rssi_thold := -70; rssi_hyst := 5 |}
                    Scenario.common_at_attach) |}
    Scenario.conf_at_attach
    (<[1%N := {| vif_type := NL80211_IFTYPE_STATION;
                 bss_conf := {| assoc := true; bssid := ap; qos := false;
                                aid := 1;
                                chandef_chan := Some Scenario.channel_1;
                                cqm_rssi_thold := -70; cqm_rssi_hyst := 5 |};
                 vif_rest := [1] |}]> ∅).

(** A frame as the bus hands it over: the bytes, the signal strength the
    device measured, as a positive number, and channel 1. *)
Definition received (bytes : list Z) (rssi : Z) : sk_buff :=
  {| skb_data := bytes; skb_rssi := rssi; skb_channel := 1 |}.

(** A beacon of [ap], and a protected data frame that [ap] sent: eight
    bytes of cipher header after the 24 bytes of the frame header. *)
Definition beacon : list Z := frame 0x80 0 ap [1; 2; 3; 4].
Definition protected_data : list Z :=
  frame 0x08 0x42 ap [21; 22; 23; 24; 25; 26; 27; 28; 1; 2; 3; 4].

(** Station 1 is up on channel 36 of the 5 GHz band, with [mask] as the
    fixed-rate mask of both bands. *)
Definition on_5ghz (mask : Z) : driver :=
  {| core := Scenario.machine_of
               (set_vifs [Some 1%N]
                  (set_sc_nvifs 1 Scenario.adapter_at_attach))
               {| power_level := 0;
                  conf_chan := Some {| band := NL80211_BAND_5GHZ;
                                       center_freq := 5180; hw_value := 36;
                                       chan_flags := 0 |} |}
               Scenario.interfaces;
     more := set_fixedrate_mask (fun _ => mask) more_at_attach;
     more_trace := [] |}.

End Cases.

(** * Proofs *)

Ltac unfold_m :=
  unfold bind, ret, fault, deref, get_adapter, put_adapter, get_common,
    put_common, get_conf, load_vif, notify, read_vifs, store_vifs,
    read_vif_info, store_vif_info, send in *.

(** ** Arrays *)

Lemma arrays_ok_vifs m : arrays_ok m -> exists p, vifs (adapter_of m) = [p].
Proof.
  intros [H _]. destruct (vifs (adapter_of m)) as [|p [|]]; try discriminate.
  eauto.
Qed.

Lemma arrays_ok_vif_info m :
  arrays_ok m -> exists i, vif_info (common_of m) = [i].
Proof.
  intros [_ H]. destruct (vif_info (common_of m)) as [|p [|]]; try discriminate.
  eauto.
Qed.

(** ** Interfaces *)

Lemma add_station_fresh cc m vif v :
  arrays_ok m -> vif_mem m !! vif = Some v ->
  vif_type v = NL80211_IFTYPE_STATION -> nvifs m = 0 ->
  exists m',
    rsi_mac80211_add_interface cc vif m
    = Some (cc (trace m) (FW_VAP_CAPABILITIES STA_OPMODE VAP_ADD), m')
    /\ nvifs m' = 1 /\ vif0 m' = Some (Some vif) /\ arrays_ok m'.
Proof.
  intros Hok Hmem Hty Hn.
  destruct (arrays_ok_vifs m Hok) as [p Hp].
  destruct (arrays_ok_vif_info m Hok) as [i Hi].
  unfold rsi_mac80211_add_interface, rsi_set_vap_capabilities. unfold_m.
  rewrite Hmem. cbn. rewrite Hty. unfold nvifs in Hn. rewrite Hn. cbn.
  rewrite Hp. cbn.
  eexists. split; [reflexivity|]. repeat split; try reflexivity.
  unfold common_of in *. cbn. rewrite Hi. reflexivity.
Qed.

Lemma add_station_busy cc m vif v :
  vif_mem m !! vif = Some v ->
  vif_type v = NL80211_IFTYPE_STATION -> nvifs m <> 0 ->
  rsi_mac80211_add_interface cc vif m = Some (- EOPNOTSUPP, m).
Proof.
  intros Hmem Hty Hn.
  unfold rsi_mac80211_add_interface. unfold_m.
  rewrite Hmem. cbn. rewrite Hty.
  unfold nvifs in Hn. apply Z.eqb_neq in Hn. rewrite Hn. reflexivity.
Qed.

Lemma add_other_type cc m vif v :
  vif_mem m !! vif = Some v ->
  vif_type v <> NL80211_IFTYPE_STATION ->
  rsi_mac80211_add_interface cc vif m = Some (- EOPNOTSUPP, m).
Proof.
  intros Hmem Hty.
  unfold rsi_mac80211_add_interface. unfold_m.
  rewrite Hmem. cbn. destruct (vif_type v); try reflexivity. congruence.
Qed.

(** C5, amended.  [add_interface] answers the generic "unsupported" error
    for every interface type but station, and the same error, leaving the
    machine as it was, when the type is station and the interface count is
    not zero; when the type is station and the count is zero it stores the
    interface in slot 0, whatever the slot held, makes the count one and
    returns the status of the capability-add command.  It returns success
    only in that last case.  What it tests is the count, not the slot. *)
Theorem add_interface_only_first_station cc m vif v :
  arrays_ok m ->
  vif_mem m !! vif = Some v ->
  (vif_type v <> NL80211_IFTYPE_STATION ->
   rsi_mac80211_add_interface cc vif m = Some (- EOPNOTSUPP, m))
  /\ (vif_type v = NL80211_IFTYPE_STATION -> nvifs m <> 0 ->
      rsi_mac80211_add_interface cc vif m = Some (- EOPNOTSUPP, m))
  /\ (vif_type v = NL80211_IFTYPE_STATION -> nvifs m = 0 ->
      exists m',
        rsi_mac80211_add_interface cc vif m
        = Some (cc (trace m) (FW_VAP_CAPABILITIES STA_OPMODE VAP_ADD), m')
        /\ nvifs m' = 1 /\ vif0 m' = Some (Some vif))
  /\ (forall m',
        rsi_mac80211_add_interface cc vif m = Some (0, m') ->
        vif_type v = NL80211_IFTYPE_STATION /\ nvifs m = 0
        /\ nvifs m' = 1 /\ vif0 m' = Some (Some vif)).
Proof.
  intros Hok Hmem. repeat split.
  - intros Hty. eapply add_other_type; eauto.
  - intros Hty Hn. eapply add_station_busy; eauto.
  - intros Hty Hn.
    destruct (add_station_fresh cc m vif v Hok Hmem Hty Hn)
      as (m' & Hrun & H1 & H0 & _).
    exists m'. auto.
  - destruct (decide (vif_type v = NL80211_IFTYPE_STATION)) as [Hty|Hty];
      [assumption|].
    rewrite (add_other_type cc m vif v Hmem Hty) in H. discriminate.
  - destruct (decide (vif_type v = NL80211_IFTYPE_STATION)) as [Hty|Hty].
    + destruct (decide (nvifs m = 0)) as [Hn|Hn]; [assumption|].
      rewrite (add_station_busy cc m vif v Hmem Hty Hn) in H. discriminate.
    + rewrite (add_other_type cc m vif v Hmem Hty) in H. discriminate.
  - destruct (decide (vif_type v = NL80211_IFTYPE_STATION)) as [Hty|Hty].
    + destruct (decide (nvifs m = 0)) as [Hn|Hn].
      * destruct (add_station_fresh cc m vif v Hok Hmem Hty Hn)
          as (m1 & Hrun & H1 & _).
        rewrite Hrun in H. congruence.
      * rewrite (add_station_busy cc m vif v Hmem Hty Hn) in H. discriminate.
    + rewrite (add_other_type cc m vif v Hmem Hty) in H. discriminate.
  - destruct (decide (vif_type v = NL80211_IFTYPE_STATION)) as [Hty|Hty].
    + destruct (decide (nvifs m = 0)) as [Hn|Hn].
      * destruct (add_station_fresh cc m vif v Hok Hmem Hty Hn)
          as (m1 & Hrun & _ & H0 & _).
        rewrite Hrun in H. congruence.
      * rewrite (add_station_busy cc m vif v Hmem Hty Hn) in H. discriminate.
    + rewrite (add_other_type cc m vif v Hmem Hty) in H. discriminate.
Qed.

(** The three cases at concrete machines: a monitor interface, a second
    station interface, and the first station interface. *)
Lemma add_interface_only_first_station_witness :
  rsi_mac80211_add_interface (Scenario.answers 0) 3 Scenario.at_attach
  = Some (- EOPNOTSUPP, Scenario.at_attach)
  /\ rsi_mac80211_add_interface (Scenario.answers 0) 2 Scenario.with_station
     = Some (- EOPNOTSUPP, Scenario.with_station)
  /\ exists m',
       rsi_mac80211_add_interface (Scenario.answers 0) 1 Scenario.at_attach
       = Some (0, m')
       /\ nvifs m' = 1 /\ vif0 m' = Some (Some 1%N).
Proof.
  split; [|split].
  - refine (proj1 (add_interface_only_first_station (Scenario.answers 0)
                     Scenario.at_attach 3 _ _ _) _).
    + split; reflexivity.
    + reflexivity.
    + discriminate.
  - refine (proj1 (proj2 (add_interface_only_first_station (Scenario.answers 0)
                     Scenario.with_station 2 _ _ _)) _ _).
    + split; reflexivity.
    + reflexivity.
    + reflexivity.
    + discriminate.
  - refine (proj1 (proj2 (proj2 (add_interface_only_first_station
                     (Scenario.answers 0) Scenario.at_attach 1 _ _ _))) _ _).
    + split; reflexivity.
    + reflexivity.
    + reflexivity.
    + reflexivity.
Defined.

(** C5 as stated fails: station 1 is added, and a removal is asked for
    station 2, which is not the stored one: station 1 stays stored while
    the count drops to zero.  Adding station 2 then succeeds and takes the
    slot of station 1. *)
Lemma second_station_counterexample :
  exists m,
    run_iface_ops (Scenario.answers 0) [OP_ADD 1; OP_REMOVE 2]
      Scenario.at_attach = Some (tt, m)
    /\ removals_expected (Scenario.answers 0) [OP_ADD 1; OP_REMOVE 2]
         Scenario.at_attach = true
    /\ vif0 m = Some (Some 1%N)
    /\ (exists m',
          rsi_mac80211_add_interface (Scenario.answers 0) 2 m = Some (0, m')
          /\ vif0 m' = Some (Some 2%N))
    /\ ~ add_interface_as_stated (Scenario.answers 0) 2 m.
Proof.
  destruct (run_iface_ops (Scenario.answers 0) [OP_ADD 1; OP_REMOVE 2]
              Scenario.at_attach) as [[[] m]|] eqn:E;
    [|vm_compute in E; discriminate].
  exists m. split; [reflexivity|].
  vm_compute in E. injection E as <-.
  split; [reflexivity|]. split; [reflexivity|]. split.
  - eexists. split; [vm_compute; reflexivity|reflexivity].
  - intros H.
    destruct (H (Scenario.iface NL80211_IFTYPE_STATION false None [2]) 1%N
                (Scenario.iface NL80211_IFTYPE_STATION false None [1])
                eq_refl eq_refl eq_refl eq_refl eq_refl) as (m' & Hrun & _).
    vm_compute in Hrun. discriminate.
Qed.

Lemma add_interface_count cc m vif r m' :
  rsi_mac80211_add_interface cc vif m = Some (r, m') ->
  nvifs_ok m -> nvifs_ok m'.
Proof.
  unfold rsi_mac80211_add_interface, rsi_set_vap_capabilities. unfold_m.
  intros H Hok.
  destruct (vif_mem m !! vif) as [v|]; [|discriminate]. cbn in H.
  destruct (vif_type v); cbn in H; try (injection H as _ <-; exact Hok).
  destruct (sc_nvifs (adapter_of m) =? 0) eqn:E; cbn in H;
    [|injection H as _ <-; exact Hok].
  apply Z.eqb_eq in E.
  destruct (decide _) as [Hlen|Hlen]; [|discriminate].
  cbn in H. injection H as _ <-. right. unfold nvifs. cbn. rewrite E.
  reflexivity.
Qed.

Lemma remove_interface_count cc m vif v m' :
  vif_mem m !! vif = Some v ->
  rsi_mac80211_remove_interface cc vif m = Some (tt, m') ->
  nvifs m' = if decide (vif_type v = NL80211_IFTYPE_STATION)
             then to_u8 (nvifs m - 1) else nvifs m.
Proof.
  unfold rsi_mac80211_remove_interface, rsi_set_vap_capabilities. unfold_m.
  intros Hmem H. rewrite Hmem in H. cbn in H.
  destruct (decide (vif_type v = NL80211_IFTYPE_STATION)) as [Hty|Hty];
    cbn in H.
  - destruct (vifs (adapter_of m) !! 0%nat) as [[q|]|]; cbn in H;
      try discriminate.
    destruct (vif_mem m !! q) as [v0|]; cbn in H; [|discriminate].
    rewrite Hmem in H. cbn in H.
    destruct (decide (vif_bytes v0 = vif_bytes v)); cbn in H.
    + destruct (decide _); [|discriminate]. injection H as <-. reflexivity.
    + injection H as <-. reflexivity.
  - destruct (vifs (adapter_of m) !! 0%nat) as [[q|]|]; cbn in H;
      try discriminate.
    destruct (vif_mem m !! q) as [v0|]; cbn in H; [|discriminate].
    rewrite Hmem in H. cbn in H.
    destruct (decide (vif_bytes v0 = vif_bytes v)); cbn in H.
    + destruct (decide _); [|discriminate]. injection H as <-. reflexivity.
    + injection H as <-. reflexivity.
Qed.

Lemma remove_interface_reads cc m vif m' :
  rsi_mac80211_remove_interface cc vif m = Some (tt, m') ->
  exists v, vif_mem m !! vif = Some v.
Proof.
  unfold rsi_mac80211_remove_interface. unfold_m. intros H.
  destruct (vif_mem m !! vif) as [v|]; [eauto|discriminate].
Qed.

Lemma run_iface_op_count cc op m m' :
  nvifs_ok m -> removal_expected op m = true ->
  run_iface_op cc op m = Some (tt, m') -> nvifs_ok m'.
Proof.
  intros Hok Hexp Hrun. destruct op as [vif|vif]; cbn in Hrun.
  - unfold bind, ret in Hrun.
    destruct (rsi_mac80211_add_interface cc vif m) as [[r m1]|] eqn:E;
      [|discriminate].
    injection Hrun as <-. eapply add_interface_count; eauto.
  - destruct (remove_interface_reads _ _ _ _ Hrun) as [v Hmem].
    pose proof (remove_interface_count _ _ _ _ _ Hmem Hrun) as Hn.
    unfold removal_expected in Hexp. rewrite Hmem in Hexp.
    unfold nvifs_ok. rewrite Hn.
    destruct (decide (vif_type v = NL80211_IFTYPE_STATION)); [|exact Hok].
    apply Z.eqb_eq in Hexp. unfold nvifs. rewrite Hexp. left. reflexivity.
Qed.

(** C4, amended.  Over every run of [add_interface] and [remove_interface]
    calls, with any interface arguments, in which [remove_interface] is
    called for a station interface only while the interface count is one,
    the count stays in {0,1}.  ([add_interface] keeps the property by its
    own test of the count; [remove_interface] decrements the count of a
    station interface without a test.) *)
Theorem interface_count_in_expected_runs cc ops :
  forall m m',
    nvifs_ok m ->
    removals_expected cc ops m = true ->
    run_iface_ops cc ops m = Some (tt, m') ->
    nvifs_ok m'.
Proof.
  induction ops as [|op rest IH]; intros m m' Hok Hexp Hrun.
  - cbn in Hrun. injection Hrun as <-. exact Hok.
  - cbn in Hexp, Hrun. unfold bind in Hrun.
    apply andb_true_iff in Hexp as [Hop Hrest].
    destruct (run_iface_op cc op m) as [[[] m1]|] eqn:E; [|discriminate].
    eapply IH; [|exact Hrest|exact Hrun].
    eapply run_iface_op_count; eauto.
Qed.

Lemma interface_count_in_expected_runs_witness :
  exists m',
    run_iface_ops (Scenario.answers 0)
      [OP_ADD 1; OP_ADD 2; OP_REMOVE 3; OP_REMOVE 1; OP_ADD 2; OP_REMOVE 2]
      Scenario.at_attach = Some (tt, m')
    /\ nvifs_ok m'.
Proof.
  eexists. split.
  - vm_compute. reflexivity.
  - eapply (interface_count_in_expected_runs (Scenario.answers 0)
              [OP_ADD 1; OP_ADD 2; OP_REMOVE 3; OP_REMOVE 1; OP_ADD 2;
               OP_REMOVE 2] Scenario.at_attach).
    + left. reflexivity.
    + vm_compute. reflexivity.
    + vm_compute. reflexivity.
Defined.

(** C4 as stated fails: the first station interface is added, then
    [remove_interface] is called twice for another station interface; the
    stored interface does not match, stays, and the count wraps to 255. *)
Lemma interface_count_counterexample :
  ~ interface_count_as_stated (Scenario.answers 0)
      [OP_ADD 1; OP_REMOVE 2; OP_REMOVE 2] Scenario.at_attach.
Proof.
  intros H.
  assert (Hok : nvifs_ok Scenario.at_attach) by (left; reflexivity).
  destruct (run_iface_ops (Scenario.answers 0)
              [OP_ADD 1; OP_REMOVE 2; OP_REMOVE 2] Scenario.at_attach)
    as [[[] m']|] eqn:E; [|vm_compute in E; discriminate].
  specialize (H Hok m' E).
  vm_compute in E. injection E as <-.
  destruct H as [H|H]; vm_compute in H; discriminate.
Qed.

(** ** Transmit power *)

(** C2, amended.  [rsi_config_power] fails with [-EINVAL] and does nothing
    when there is no interface; it returns 0 and does nothing when the
    requested level is the cached one; otherwise it caches the requested
    level, issues one radio-parameter update carrying it, and returns the
    status of that command: when the command fails, the failure is returned
    and the cached level is the requested one. *)
Theorem config_power_caches_then_sends cc m :
  let level := power_level (conf (hw m)) in
  let st := cc (trace m) (FW_RADIO_PARAMS_UPDATE level) in
  (nvifs m <= 0 -> rsi_config_power cc m = Some (- EINVAL, m))
  /\ (0 < nvifs m -> level = cached_power m ->
      rsi_config_power cc m = Some (0, m))
  /\ (0 < nvifs m -> level <> cached_power m ->
      exists m',
        rsi_config_power cc m = Some (st, m')
        /\ trace m' = trace m ++ [Fw (FW_RADIO_PARAMS_UPDATE level) st]
        /\ cached_power m' = level).
Proof.
  cbn zeta. unfold rsi_config_power, rsi_send_radio_params_update, nvifs,
    cached_power. unfold_m.
  split; [|split].
  - intros H. apply Z.leb_le in H. rewrite H. reflexivity.
  - intros H E. apply Z.leb_gt in H. rewrite H. cbn.
    apply Z.eqb_eq in E. rewrite E. reflexivity.
  - intros H E. apply Z.leb_gt in H. rewrite H. cbn.
    apply Z.eqb_neq in E. rewrite E. cbn.
    eexists. split; [reflexivity|]. split; reflexivity.
Qed.

(** A configure call that flags a power change alone is
    [rsi_config_power]. *)
Lemma config_power_change_only cc changed m :
  tstmask changed IEEE80211_CONF_CHANGE_CHANNEL = false ->
  tstmask changed IEEE80211_CONF_CHANGE_POWER = true ->
  rsi_mac80211_config cc changed m = rsi_config_power cc m.
Proof.
  intros Hch Hpw. unfold rsi_mac80211_config. rewrite Hch, Hpw. reflexivity.
Qed.

(** A failing update after a request for 20 dBm: the failure comes back and
    20 is cached. *)
Lemma config_power_caches_then_sends_witness :
  exists m',
    rsi_config_power (Scenario.answers (-1)) (Scenario.requesting_power 20)
    = Some (-1, m')
    /\ trace m' = [Fw (FW_RADIO_PARAMS_UPDATE 20) (-1)]
    /\ cached_power m' = 20.
Proof.
  refine (proj2 (proj2 (config_power_caches_then_sends (Scenario.answers (-1))
                          (Scenario.requesting_power 20))) _ _).
  - reflexivity.
  - discriminate.
Defined.

(** C2 as stated fails: with one interface up and nothing cached, a request
    for 20 dBm whose update the firmware refuses leaves 20 cached. *)
Lemma power_change_counterexample :
  ~ power_change_as_stated (Scenario.answers (-1))
      (Scenario.requesting_power 20).
Proof.
  intros (_ & _ & H).
  destruct (rsi_config_power (Scenario.answers (-1))
              (Scenario.requesting_power 20)) as [[st m']|] eqn:E;
    [|vm_compute in E; discriminate].
  specialize (H st m' (FW_RADIO_PARAMS_UPDATE 20) eq_refl).
  vm_compute in E. injection E as <- <-.
  specialize (H eq_refl). vm_compute in H.
  assert (20 = 0) by (apply H; discriminate). discriminate.
Qed.

(** ** Keys *)

(** The key push always returns: it sends one or two load-key commands,
    returns the status answered to the last one, and touches the trace
    only. *)
Lemma rsi_hal_key_config_returns cc vif k m :
  exists st t,
    rsi_hal_key_config cc vif k m = Some (st, with_trace t m)
    /\ exists pre e, t = trace m ++ pre ++ [e] /\ is_load_key e st.
Proof.
  unfold rsi_hal_key_config, rsi_hal_load_key. unfold_m.
  destruct ((cipher k =? WLAN_CIPHER_SUITE_WEP104)
            || (cipher k =? WLAN_CIPHER_SUITE_WEP40)).
  - cbn.
    destruct (cc (trace m) _ =? 0) eqn:E; cbn.
    + eexists _, _. split; [reflexivity|].
      eexists [_], _. split.
      * rewrite <- app_assoc. reflexivity.
      * unfold is_load_key. eauto 10.
    + eexists _, _. split; [reflexivity|].
      exists [], (Fw (FW_LOAD_KEY (key k) (keylen k) RSI_PAIRWISE_KEY
                       (keyidx k) (cipher k))
                    (cc (trace m)
                       (FW_LOAD_KEY (key k) (keylen k) RSI_PAIRWISE_KEY
                          (keyidx k) (cipher k)))).
      split; [reflexivity|]. unfold is_load_key. eauto 10.
  - eexists _, _. split; [reflexivity|].
    eexists [], _. split; [reflexivity|]. unfold is_load_key. eauto 10.
Qed.

Lemma set_key_SET cc vif k m :
  exists st k' m',
    rsi_mac80211_set_key cc SET_KEY vif k m = Some (st, k', m')
    /\ security_enabled m' = true
    /\ (exists pre e, trace m' = trace m ++ pre ++ [e] /\ is_load_key e st)
    /\ (st = 0 ->
        (pairwise_flag k = true ->
         pairwise_cipher m' = cipher k /\ group_cipher m' = group_cipher m)
        /\ (pairwise_flag k = false ->
            group_cipher m' = cipher k
            /\ pairwise_cipher m' = pairwise_cipher m))
    /\ (st <> 0 ->
        k' = k /\ pairwise_cipher m' = pairwise_cipher m
        /\ group_cipher m' = group_cipher m).
Proof.
  unfold rsi_mac80211_set_key, set_security. unfold_m.
  match goal with
  | |- context [rsi_hal_key_config cc vif k ?m1] =>
      destruct (rsi_hal_key_config_returns cc vif k m1)
        as (st & t & Hrun & pre & e & Ht & He)
  end.
  rewrite Hrun. cbn in Ht. subst t.
  destruct (st =? 0) eqn:E; cbn.
  - apply Z.eqb_eq in E.
    eexists _, _, _. split; [reflexivity|].
    split; [|split; [|split]].
    + unfold security_enabled, pairwise_flag.
      destruct (tstmask _ _); reflexivity.
    + cbn. eauto.
    + intros _. unfold pairwise_flag, pairwise_cipher, group_cipher.
      split; intros ->; split; reflexivity.
    + intros Hne. congruence.
  - apply Z.eqb_neq in E.
    eexists _, _, _. split; [reflexivity|].
    split; [|split; [|split]].
    + reflexivity.
    + cbn. eauto.
    + intros ->. congruence.
    + intros _. repeat split.
Qed.

Lemma set_key_DISABLE cc vif k m :
  exists st k' m',
    rsi_mac80211_set_key cc DISABLE_KEY vif k m = Some (st, k', m')
    /\ security_enabled m' = false
    /\ pairwise_cipher m' = pairwise_cipher m
    /\ group_cipher m' = group_cipher m.
Proof.
  unfold rsi_mac80211_set_key, set_security. unfold_m.
  match goal with
  | |- context [rsi_hal_key_config cc vif ?k0 ?m1] =>
      destruct (rsi_hal_key_config_returns cc vif k0 m1)
        as (st & t & Hrun & _)
  end.
  rewrite Hrun. cbn.
  eexists _, _, _. split; [reflexivity|]. repeat split.
Qed.

Lemma sta_remove_clears cc vif m :
  arrays_ok m ->
  exists m',
    rsi_mac80211_sta_remove cc vif m = Some (0, m')
    /\ pairwise_cipher m' = 0 /\ group_cipher m' = 0
    /\ security_enabled m' = security_enabled m.
Proof.
  intros Hok. destruct (arrays_ok_vif_info m Hok) as [i Hi].
  unfold rsi_mac80211_sta_remove, rsi_send_rx_filter_frame. unfold_m.
  unfold common_of in *. cbn. rewrite Hi. cbn. rewrite Hi. cbn.
  eexists. split; [reflexivity|]. repeat split.
Qed.

(** C1, amended.  After a successful [set_key(SET)] with the pairwise flag
    and cipher C, the cached pairwise cipher is C and [security_enable] is
    true.  After [set_key(DISABLE)], whatever the status of its push,
    [security_enable] is false and both cached ciphers keep the values they
    had.  The cached ciphers are cleared by [sta_remove]. *)
Theorem key_life_cycle cc vif k m :
  arrays_ok m ->
  (exists st k' m',
     rsi_mac80211_set_key cc SET_KEY vif k m = Some (st, k', m')
     /\ (st = 0 -> pairwise_flag k = true ->
         pairwise_cipher m' = cipher k /\ security_enabled m' = true))
  /\ (exists st k' m',
        rsi_mac80211_set_key cc DISABLE_KEY vif k m = Some (st, k', m')
        /\ security_enabled m' = false
        /\ pairwise_cipher m' = pairwise_cipher m
        /\ group_cipher m' = group_cipher m)
  /\ (exists m',
        rsi_mac80211_sta_remove cc vif m = Some (0, m')
        /\ pairwise_cipher m' = 0 /\ group_cipher m' = 0).
Proof.
  intros Hok. split; [|split].
  - destruct (set_key_SET cc vif k m) as (st & k' & m' & Hrun & Hen & _ & H0 & _).
    exists st, k', m'. split; [exact Hrun|].
    intros Hst Hpw. split; [|exact Hen]. apply (H0 Hst); exact Hpw.
  - apply set_key_DISABLE.
  - destruct (sta_remove_clears cc vif m Hok) as (m' & Hrun & Hp & Hg & _).
    exists m'. auto.
Qed.

(** On the keyed machine a DISABLE whose push succeeds leaves the CCMP and
    TKIP suites cached; [sta_remove] then clears them. *)
Lemma key_life_cycle_witness :
  (exists k' m',
     rsi_mac80211_set_key (Scenario.answers 0) DISABLE_KEY 1
       Scenario.ccmp_pairwise_key Scenario.keyed = Some (0, k', m')
     /\ security_enabled m' = false
     /\ pairwise_cipher m' = 0x000FAC04 /\ group_cipher m' = 0x000FAC02)
  /\ (exists m',
        rsi_mac80211_sta_remove (Scenario.answers 0) 1 Scenario.keyed
        = Some (0, m')
        /\ pairwise_cipher m' = 0 /\ group_cipher m' = 0).
Proof.
  assert (Hok : arrays_ok Scenario.keyed) by (split; reflexivity).
  destruct (key_life_cycle (Scenario.answers 0) 1 Scenario.ccmp_pairwise_key
              Scenario.keyed Hok) as (_ & Hdis & Hrem).
  split; [|exact Hrem].
  destruct Hdis as (st & k' & m' & Hrun & Hen & Hp & Hg).
  assert (Hst : st = 0).
  { vm_compute in Hrun. injection Hrun as <- _ _. reflexivity. }
  subst st. exists k', m'. repeat split; assumption.
Defined.

(** C1 as stated fails: on the keyed machine a DISABLE whose push succeeds
    leaves both cipher suites cached. *)
Lemma key_life_cycle_counterexample :
  ~ key_life_cycle_as_stated (Scenario.answers 0) 1
      Scenario.ccmp_pairwise_key Scenario.keyed.
Proof.
  intros (_ & H).
  destruct (rsi_mac80211_set_key (Scenario.answers 0) DISABLE_KEY 1
              Scenario.ccmp_pairwise_key Scenario.keyed)
    as [[[st k'] m']|] eqn:E; [|vm_compute in E; discriminate].
  specialize (H st k' m' eq_refl).
  vm_compute in E. injection E as <- _ <-.
  destruct (H eq_refl) as (_ & Hp & _). vm_compute in Hp. discriminate.
Qed.

(** C7, amended.  [set_key(SET)] always returns the status answered to its
    last key push; when that status is a failure, the key record is handed
    back untouched and both cached ciphers keep their values, while
    [security_enable] is true, having been set before the push. *)
Theorem failed_set_key_keeps_ciphers cc vif k m :
  exists st k' m',
    rsi_mac80211_set_key cc SET_KEY vif k m = Some (st, k', m')
    /\ (exists pre e, trace m' = trace m ++ pre ++ [e] /\ is_load_key e st)
    /\ (st <> 0 ->
        k' = k
        /\ pairwise_cipher m' = pairwise_cipher m
        /\ group_cipher m' = group_cipher m
        /\ security_enabled m' = true).
Proof.
  destruct (set_key_SET cc vif k m)
    as (st & k' & m' & Hrun & Hen & Htr & _ & Hfail).
  exists st, k', m'. split; [exact Hrun|]. split; [exact Htr|].
  intros Hne. destruct (Hfail Hne) as (Hk & Hp & Hg). auto.
Qed.

(** Right after attach, a SET whose push the firmware refuses. *)
Lemma failed_set_key_keeps_ciphers_witness :
  exists k' m',
    rsi_mac80211_set_key (Scenario.answers (-1)) SET_KEY 1
      Scenario.ccmp_pairwise_key Scenario.at_attach = Some (-1, k', m')
    /\ k' = Scenario.ccmp_pairwise_key
    /\ pairwise_cipher m' = 0 /\ group_cipher m' = 0
    /\ security_enabled m' = true.
Proof.
  destruct (failed_set_key_keeps_ciphers (Scenario.answers (-1)) 1
              Scenario.ccmp_pairwise_key Scenario.at_attach)
    as (st & k' & m' & Hrun & _ & H).
  assert (Hst : st = -1).
  { vm_compute in Hrun. injection Hrun as <- _ _. reflexivity. }
  subst st. exists k', m'. split; [exact Hrun|].
  destruct H as (Hk & Hp & Hg & Hen); [discriminate|]. auto.
Defined.

(** C7 as stated fails: right after attach security is disabled; a SET
    whose push the firmware refuses leaves it enabled. *)
Lemma failed_set_key_counterexample :
  ~ failed_set_key_as_stated (Scenario.answers (-1)) 1
      Scenario.ccmp_pairwise_key Scenario.at_attach.
Proof.
  intros H.
  destruct (rsi_mac80211_set_key (Scenario.answers (-1)) SET_KEY 1
              Scenario.ccmp_pairwise_key Scenario.at_attach)
    as [[[st k'] m']|] eqn:E; [|vm_compute in E; discriminate].
  specialize (H st k' m' E).
  vm_compute in E. injection E as <- _ <-.
  destruct H as (Hen & _); [discriminate|]. vm_compute in Hen. discriminate.
Qed.

(** ** Queue parameters *)

Lemma conf_tx_stores vif queue p m slot :
  queue < IEEE80211_NUM_ACS ->
  (if queue =? IEEE80211_AC_VO then VO_Q
   else if queue =? IEEE80211_AC_VI then VI_Q
   else if queue =? IEEE80211_AC_BE then BE_Q
   else if queue =? IEEE80211_AC_BK then BK_Q
   else BE_Q) = slot ->
  exists m',
    rsi_mac80211_conf_tx vif queue p m = Some (0, m')
    /\ stored_at m m' slot p.
Proof.
  intros Hq Hslot. unfold rsi_mac80211_conf_tx. unfold_m.
  apply Z.leb_gt in Hq. rewrite Hq. rewrite Hslot.
  eexists. split; [reflexivity|].
  unfold stored_at, edca, upd. cbn. split; [|split].
  - destruct (decide (slot = slot)); congruence.
  - intros j Hj. destruct (decide (j = slot)); congruence.
  - reflexivity.
Qed.

(** C6, amended.  [conf_tx] for a queue index of four or more returns
    success and leaves the machine as it was.  For each of the four
    recognized queues it returns success and stores the supplied EDCA
    parameter set, as it is, in the slot of that access category, leaving
    the other slots alone: voice in [VO_Q], video in [VI_Q], best-effort in
    [BE_Q], and background in its own slot [BK_Q]. *)
Theorem conf_tx_slots vif p m :
  (forall queue,
     IEEE80211_NUM_ACS <= queue ->
     rsi_mac80211_conf_tx vif queue p m = Some (0, m))
  /\ (exists m', rsi_mac80211_conf_tx vif IEEE80211_AC_VO p m = Some (0, m')
                 /\ stored_at m m' VO_Q p)
  /\ (exists m', rsi_mac80211_conf_tx vif IEEE80211_AC_VI p m = Some (0, m')
                 /\ stored_at m m' VI_Q p)
  /\ (exists m', rsi_mac80211_conf_tx vif IEEE80211_AC_BE p m = Some (0, m')
                 /\ stored_at m m' BE_Q p)
  /\ (exists m', rsi_mac80211_conf_tx vif IEEE80211_AC_BK p m = Some (0, m')
                 /\ stored_at m m' BK_Q p).
Proof.
  split; [|repeat split].
  - intros queue Hq. unfold rsi_mac80211_conf_tx.
    apply Z.leb_le in Hq. rewrite Hq. reflexivity.
  - apply conf_tx_stores; reflexivity.
  - apply conf_tx_stores; reflexivity.
  - apply conf_tx_stores; reflexivity.
  - apply conf_tx_stores; reflexivity.
Qed.

(** Queue 7 right after attach, and the background queue, whose parameters
    do not reach the best-effort slot. *)
Lemma conf_tx_slots_witness :
  rsi_mac80211_conf_tx 1 7 Scenario.best_effort_like Scenario.at_attach
  = Some (0, Scenario.at_attach)
  /\ exists m',
       rsi_mac80211_conf_tx 1 IEEE80211_AC_BK Scenario.best_effort_like
         Scenario.at_attach = Some (0, m')
       /\ edca m' BK_Q = Scenario.best_effort_like
       /\ edca m' BE_Q = Scenario.no_params.
Proof.
  destruct (conf_tx_slots 1 Scenario.best_effort_like Scenario.at_attach)
    as (Hout & _ & _ & _ & m' & Hrun & Hbk & Hothers & _).
  split.
  - apply Hout. discriminate.
  - exists m'. split; [exact Hrun|]. split; [exact Hbk|].
    rewrite Hothers; [reflexivity|discriminate].
Defined.

(** C6 as stated fails: right after attach every slot holds zeros; a
    [conf_tx] for the background queue leaves the best-effort slot so. *)
Lemma conf_tx_counterexample :
  ~ conf_tx_as_stated 1 IEEE80211_AC_BK Scenario.best_effort_like
      Scenario.at_attach.
Proof.
  intros (_ & H).
  destruct H as (m' & Hrun & _ & _ & _ & Hbk);
    [unfold IEEE80211_AC_BK, IEEE80211_NUM_ACS; lia|].
  specialize (Hbk eq_refl).
  vm_compute in Hrun. injection Hrun as <-.
  vm_compute in Hbk. discriminate.
Qed.

(** ** Channel change *)

(** *** One step of a handler *)

Lemma bind_ret {A B} (a : A) (k : A -> M B) m : bind (ret a) k m = k a m.
Proof. reflexivity. Qed.

Lemma bind_bind {A B C} (c : M A) (f : A -> M B) (k : B -> M C) m :
  bind (bind c f) k m = bind c (fun a => bind (f a) k) m.
Proof. unfold bind. destruct (c m) as [[a m1]|]; reflexivity. Qed.

Lemma bind_get_conf {B} (k : ieee80211_conf -> M B) m :
  bind get_conf k m = k (conf (hw m)) m.
Proof. reflexivity. Qed.

Lemma bind_get_common {B} (k : rsi_common -> M B) m :
  bind get_common k m = k (common_of m) m.
Proof. reflexivity. Qed.

Lemma bind_get_adapter {B} (k : rsi_hw -> M B) m :
  bind get_adapter k m = k (adapter_of m) m.
Proof. reflexivity. Qed.

Lemma bind_send {B} cc c (k : Z -> M B) m :
  bind (send cc c) k m
  = k (cc (trace m) c) (with_trace (trace m ++ [Fw c (cc (trace m) c)]) m).
Proof. reflexivity. Qed.

Lemma bind_set_blocked {B} b (k : unit -> M B) m :
  bind (set_blocked b) k m
  = k tt (with_common (set_hw_data_qs_blocked b (common_of m)) m).
Proof. reflexivity. Qed.

Lemma bind_bss_assoc {B} (k : bool -> M B) m q v :
  vif0 m = Some (Some q) -> vif_mem m !! q = Some v ->
  bind bss_assoc k m = k (assoc (bss_conf v)) m.
Proof.
  unfold vif0, bss_assoc. unfold_m. intros H1 H2. cbn. rewrite H1. cbn.
  rewrite H2. reflexivity.
Qed.

Lemma bind_connected {B} (k : Z -> M B) m q v bch :
  vif0 m = Some (Some q) -> vif_mem m !! q = Some v ->
  chandef_chan (bss_conf v) = Some bch ->
  bind rsi_get_connected_channel k m = k (hw_value bch) m.
Proof.
  unfold vif0, rsi_get_connected_channel. unfold_m. intros H1 H2 H3. cbn.
  rewrite H1. cbn. rewrite H2. cbn. rewrite H3. reflexivity.
Qed.

(** *** Reading a machine after a step *)

Lemma common_of_with_trace t m : common_of (with_trace t m) = common_of m.
Proof. reflexivity. Qed.

Lemma common_of_with_common c m : common_of (with_common c m) = c.
Proof. reflexivity. Qed.

Lemma trace_with_trace t m : trace (with_trace t m) = t.
Proof. reflexivity. Qed.

Lemma trace_with_common c m : trace (with_common c m) = trace m.
Proof. reflexivity. Qed.

Lemma blocked_set b c : hw_data_qs_blocked (set_hw_data_qs_blocked b c) = b.
Proof. reflexivity. Qed.

Lemma programming_ok cur s c :
  (s =? 0) = true ->
  channel_programming cur ([Fw FW_BAND_CHECK s] ++ [Fw (FW_SET_CHANNEL cur) c]).
Proof. intros H. apply Z.eqb_eq in H. subst. right. eexists. reflexivity. Qed.

Lemma programming_failed cur s :
  (s =? 0) = false -> channel_programming cur [Fw FW_BAND_CHECK s].
Proof. intros H. apply Z.eqb_neq in H. left. eauto. Qed.

Ltac programming :=
  first [ eapply programming_ok; eassumption
        | eapply programming_failed; eassumption ].

Ltac flag :=
  rewrite ?common_of_with_common, ?common_of_with_trace, ?blocked_set;
  repeat match goal with
         | H : (?x =? 0) = _ |- context [?x =? 0] => rewrite H
         end;
  first [ reflexivity | assumption ].

(** C3, amended.  A channel change, with an interface in slot 0 and a
    requested channel, always returns, and:
    - if associated, the queues not blocked and the connected channel
      different from the target, the queue-block command is the first
      thing issued, before the channel programming, and the queues end
      blocked exactly when that command succeeded;
    - if associated, the queues blocked and the connected channel equal to
      the target, a queue-unblock is issued last, after the channel
      programming, and the queues end unblocked exactly when it succeeded;
    - if not associated and the queues blocked, likewise;
    - if associated, the queues already blocked and the connected channel
      different from the target, only the channel programming is issued
      and the queues stay blocked. *)
Theorem channel_change_queues cc m q v cur bch :
  vif0 m = Some (Some q) ->
  vif_mem m !! q = Some v ->
  conf_chan (conf (hw m)) = Some cur ->
  (assoc (bss_conf v) = true -> chandef_chan (bss_conf v) = Some bch) ->
  exists st m' new,
    rsi_channel_change cc m = Some (st, m')
    /\ trace m' = trace m ++ new
    /\ (assoc (bss_conf v) = true -> blocked m = false ->
        hw_value bch <> hw_value cur ->
        exists s prog,
          new = Fw (FW_BLOCK_UNBLOCK true) s :: prog
          /\ channel_programming cur prog
          /\ blocked m' = (s =? 0))
    /\ (assoc (bss_conf v) = true -> blocked m = true ->
        hw_value bch = hw_value cur ->
        exists s prog,
          new = prog ++ [Fw (FW_BLOCK_UNBLOCK false) s]
          /\ channel_programming cur prog
          /\ blocked m' = negb (s =? 0))
    /\ (assoc (bss_conf v) = false -> blocked m = true ->
        exists s prog,
          new = prog ++ [Fw (FW_BLOCK_UNBLOCK false) s]
          /\ channel_programming cur prog
          /\ blocked m' = negb (s =? 0))
    /\ (assoc (bss_conf v) = true -> blocked m = true ->
        hw_value bch <> hw_value cur ->
        channel_programming cur new /\ blocked m' = true).
Proof.
  intros Hv0 Hmem Hcur Hbch.
  unfold rsi_channel_change, rsi_band_check, rsi_set_channel,
    rsi_send_block_unblock_frame, blocked.
  rewrite bind_get_conf, Hcur. cbn [deref]. rewrite bind_ret.
  destruct (assoc (bss_conf v)) eqn:Ha;
    [specialize (Hbch eq_refl)|clear Hbch];
    destruct (hw_data_qs_blocked (common_of m)) eqn:Hb;
    try destruct (hw_value bch =? hw_value cur) eqn:Hsame;
    repeat
      (first
         [ rewrite bind_ret | rewrite bind_bind | rewrite bind_get_common
         | rewrite bind_send | rewrite bind_set_blocked
         | rewrite common_of_with_trace | rewrite common_of_with_common
         | rewrite trace_with_trace | rewrite trace_with_common
         | rewrite blocked_set
         | rewrite Hb | rewrite Hsame
         | progress cbn [negb]
         | match goal with
           | |- context [bind bss_assoc ?k ?mm] =>
               rewrite (bind_bss_assoc k mm q v Hv0 Hmem), Ha
           | |- context [bind rsi_get_connected_channel ?k ?mm] =>
               rewrite (bind_connected k mm q v bch Hv0 Hmem Hbch)
           | |- context [cc ?t ?c =? 0] =>
               let s := fresh "s" in
               let Hs := fresh "Hs" in
               remember (cc t c) as s eqn:Hs; clear Hs;
               destruct (s =? 0) eqn:?
           end ]).
  all: unfold ret.
  all: eexists _, _, _; split; [reflexivity|]; split;
    [rewrite ?trace_with_common, ?trace_with_trace, <- ?app_assoc;
     reflexivity|].
  all: try match type of Hsame with
          | _ = true => apply Z.eqb_eq in Hsame
          | _ = false => apply Z.eqb_neq in Hsame
          end.
  all: repeat split; intros; try discriminate; try contradiction.
  all: try (eexists _, _; split;
            [first [reflexivity | apply app_assoc]|]; split).
  all: try programming.
  all: try flag.
Qed.

(** Associated on channel 1, a change to channel 6 with a willing firmware:
    the block command goes first and the queues end blocked.  Then, still
    blocked, a change back to the connected channel: the unblock goes last
    and the queues end unblocked. *)
Lemma channel_change_queues_witness :
  (exists m',
     rsi_channel_change (Scenario.answers 0)
       (Scenario.associated_on Scenario.channel_1 Scenario.channel_6
          true false) = Some (0, m')
     /\ fw_cmds (trace m')
        = [FW_BLOCK_UNBLOCK true; FW_BAND_CHECK;
           FW_SET_CHANNEL Scenario.channel_6]
     /\ blocked m' = true)
  /\ (exists m',
        rsi_channel_change (Scenario.answers 0)
          (Scenario.associated_on Scenario.channel_1 Scenario.channel_1
             true true) = Some (0, m')
        /\ fw_cmds (trace m')
           = [FW_BAND_CHECK; FW_SET_CHANNEL Scenario.channel_1;
              FW_BLOCK_UNBLOCK false]
        /\ blocked m' = false).
Proof.
  split.
  - destruct (channel_change_queues (Scenario.answers 0)
                (Scenario.associated_on Scenario.channel_1 Scenario.channel_6
                   true false)
                1 (Scenario.iface NL80211_IFTYPE_STATION true
                     (Some Scenario.channel_1) [1])
                Scenario.channel_6 Scenario.channel_1
                eq_refl eq_refl eq_refl (fun _ => eq_refl))
      as (st & m' & new & Hrun & _).
    vm_compute in Hrun. injection Hrun as <- <-.
    eexists. split; [vm_compute; reflexivity|]. split; reflexivity.
  - destruct (channel_change_queues (Scenario.answers 0)
                (Scenario.associated_on Scenario.channel_1 Scenario.channel_1
                   true true)
                1 (Scenario.iface NL80211_IFTYPE_STATION true
                     (Some Scenario.channel_1) [1])
                Scenario.channel_1 Scenario.channel_1
                eq_refl eq_refl eq_refl (fun _ => eq_refl))
      as (st & m' & new & Hrun & _).
    vm_compute in Hrun. injection Hrun as <- <-.
    eexists. split; [vm_compute; reflexivity|]. split; reflexivity.
Defined.

(** C3 as stated fails twice.  Associated on channel 1 with the queues not
    blocked, a change to channel 6 during which the firmware refuses every
    command ends with the queues not blocked.  And associated on channel 6
    with the queues not blocked, a change to channel 6 issues no
    queue-unblock. *)
Lemma channel_change_counterexample :
  ~ channel_change_as_stated (Scenario.answers (-1))
      (Scenario.associated_on Scenario.channel_1 Scenario.channel_6
         true false)
  /\ ~ channel_change_as_stated (Scenario.answers 0)
         (Scenario.associated_on Scenario.channel_6 Scenario.channel_6
            true false).
Proof.
  split; intros H.
  - destruct (rsi_channel_change (Scenario.answers (-1))
                (Scenario.associated_on Scenario.channel_1 Scenario.channel_6
                   true false)) as [[st m']|] eqn:E;
      [|vm_compute in E; discriminate].
    destruct (H 1%N (Scenario.iface NL80211_IFTYPE_STATION true
                       (Some Scenario.channel_1) [1])
                Scenario.channel_6 Scenario.channel_1 st m'
                eq_refl eq_refl eq_refl eq_refl E)
      as (new & _ & _ & _ & _ & Hc).
    vm_compute in E. injection E as <- <-.
    assert (Hb : false = true) by (apply Hc; [reflexivity|discriminate]).
    discriminate.
  - destruct (rsi_channel_change (Scenario.answers 0)
                (Scenario.associated_on Scenario.channel_6 Scenario.channel_6
                   true false)) as [[st m']|] eqn:E;
      [|vm_compute in E; discriminate].
    destruct (H 1%N (Scenario.iface NL80211_IFTYPE_STATION true
                       (Some Scenario.channel_6) [1])
                Scenario.channel_6 Scenario.channel_6 st m'
                eq_refl eq_refl eq_refl eq_refl E)
      as (new & Htr & _ & Hb & _).
    vm_compute in E. injection E as <- <-.
    destruct (Hb eq_refl eq_refl) as (s & pre & Hnew & _).
    cbn in Htr. subst new.
    destruct pre as [|a [|b pre]]; cbn in Hnew.
    + discriminate.
    + injection Hnew as _ Hlast. discriminate.
    + injection Hnew as _ _ Hnil. destruct pre; discriminate.
Qed.

(** ** Aggregation *)

Lemma vif_slot_stored vif l :
  l !! 0%nat = Some (Some vif) -> vif_slot vif l 0 RSI_MAX_VIFS = 0%nat.
Proof.
  intros H. cbn. destruct (decide _) as [_|Hne]; [reflexivity|].
  contradiction.
Qed.

Lemma ampdu_tx_start cc vif p m :
  ampdu_ready vif m -> action p = IEEE80211_AMPDU_TX_START ->
  exists m',
    rsi_mac80211_ampdu_action cc vif p m = Some (0, m')
    /\ fw_cmds (trace m') = fw_cmds (trace m)
    /\ recorded_ssn m' 0 = Some (to_u16 (ssn p))
    /\ ampdu_ready vif m'.
Proof.
  intros [Hv0 Hok] Hact.
  destruct (arrays_ok_vif_info m Hok) as [i Hi].
  destruct (arrays_ok_vifs m Hok) as [p0 Hp0].
  unfold rsi_mac80211_ampdu_action. rewrite bind_get_adapter.
  rewrite (vif_slot_stored vif _ Hv0), Hact.
  unfold_m. cbn. rewrite Hi. cbn. rewrite Hi. cbn.
  eexists. split; [reflexivity|]. split; [|split; [|split]].
  - cbn. unfold fw_cmds. rewrite omap_app. cbn. apply app_nil_r.
  - reflexivity.
  - exact Hv0.
  - split; [exact (proj1 Hok)|reflexivity].
Qed.

Lemma ampdu_keeps_ssn cc vif p m :
  ampdu_ready vif m -> action p <> IEEE80211_AMPDU_TX_START ->
  exists st m',
    rsi_mac80211_ampdu_action cc vif p m = Some (st, m')
    /\ recorded_ssn m' 0 = recorded_ssn m 0
    /\ ampdu_ready vif m'.
Proof.
  intros [Hv0 Hok] Hact.
  destruct (arrays_ok_vif_info m Hok) as [i Hi].
  unfold rsi_mac80211_ampdu_action. rewrite bind_get_adapter.
  rewrite (vif_slot_stored vif _ Hv0).
  unfold rsi_send_aggregation_params_frame.
  destruct (action p); try contradiction; unfold_m; cbn; rewrite ?Hi; cbn;
    try destruct (cc _ _ =? 0); cbn;
    (eexists _, _; split; [reflexivity|]; split; [reflexivity|];
     split; [exact Hv0|exact Hok]).
Qed.

Lemma ampdu_tx_operational cc vif p m s :
  ampdu_ready vif m -> action p = IEEE80211_AMPDU_TX_OPERATIONAL ->
  recorded_ssn m 0 = Some s ->
  exists st m',
    rsi_mac80211_ampdu_action cc vif p m = Some (st, m')
    /\ trace m'
       = trace m ++ [Fw (FW_AGGREGATION_PARAMS (tid p) s (to_u8 (buf_size p))
                           STA_TX_ADDBA_DONE) st].
Proof.
  intros [Hv0 Hok] Hact Hs.
  destruct (arrays_ok_vif_info m Hok) as [i Hi].
  unfold recorded_ssn in Hs. rewrite Hi in Hs. cbn in Hs. injection Hs as <-.
  unfold rsi_mac80211_ampdu_action. rewrite bind_get_adapter.
  rewrite (vif_slot_stored vif _ Hv0), Hact.
  unfold rsi_send_aggregation_params_frame. unfold_m. cbn. rewrite Hi. cbn.
  eexists _, _. split; reflexivity.
Qed.

Lemma run_ampdu_keeps_ssn cc vif ps :
  forall m,
    ampdu_ready vif m ->
    Forall (fun p => action p <> IEEE80211_AMPDU_TX_START) ps ->
    exists m',
      run_ampdu cc vif ps m = Some (tt, m')
      /\ recorded_ssn m' 0 = recorded_ssn m 0
      /\ ampdu_ready vif m'.
Proof.
  induction ps as [|p ps IH]; intros m Hready Hall.
  - exists m. repeat split; try reflexivity; apply Hready.
  - apply Forall_cons in Hall as [Hp Hps].
    destruct (ampdu_keeps_ssn cc vif p m Hready Hp)
      as (st & m1 & Hrun & Hssn & Hready1).
    destruct (IH m1 Hready1 Hps) as (m2 & Hrun2 & Hssn2 & Hready2).
    exists m2. cbn. unfold bind. rewrite Hrun. split; [exact Hrun2|].
    split; [congruence|exact Hready2].
Qed.

(** C9.  [ampdu_action(TX_START)] on the stored interface records the
    supplied starting sequence number in the slot of that interface,
    issues no firmware command and returns success.  After any further
    aggregation calls none of which is a TX_START (stops included),
    [ampdu_action(TX_OPERATIONAL)] issues one add-block-ack command, TX
    direction, done, that carries the recorded number. *)
Theorem tx_operational_carries_recorded_ssn cc vif m p_start ps p_op :
  vif0 m = Some (Some vif) ->
  arrays_ok m ->
  action p_start = IEEE80211_AMPDU_TX_START ->
  Forall (fun p => action p <> IEEE80211_AMPDU_TX_START) ps ->
  action p_op = IEEE80211_AMPDU_TX_OPERATIONAL ->
  exists m1 m2 st m3,
    rsi_mac80211_ampdu_action cc vif p_start m = Some (0, m1)
    /\ fw_cmds (trace m1) = fw_cmds (trace m)
    /\ recorded_ssn m1 0 = Some (to_u16 (ssn p_start))
    /\ run_ampdu cc vif ps m1 = Some (tt, m2)
    /\ rsi_mac80211_ampdu_action cc vif p_op m2 = Some (st, m3)
    /\ trace m3
       = trace m2
         ++ [Fw (FW_AGGREGATION_PARAMS (tid p_op) (to_u16 (ssn p_start))
                   (to_u8 (buf_size p_op)) STA_TX_ADDBA_DONE) st].
Proof.
  intros Hv0 Hok Hstart Hps Hop.
  destruct (ampdu_tx_start cc vif p_start m (conj Hv0 Hok) Hstart)
    as (m1 & Hrun1 & Hcmds & Hssn1 & Hready1).
  destruct (run_ampdu_keeps_ssn cc vif ps m1 Hready1 Hps)
    as (m2 & Hrun2 & Hssn2 & Hready2).
  rewrite Hssn1 in Hssn2.
  destruct (ampdu_tx_operational cc vif p_op m2 _ Hready2 Hop Hssn2)
    as (st & m3 & Hrun3 & Htr).
  exists m1, m2, st, m3. auto 10.
Qed.

(** TX_START(tid 5, ssn 100), then a stop and an earlier-numbered
    operational call, then TX_OPERATIONAL(tid 5): the command carries 100. *)
Lemma tx_operational_carries_recorded_ssn_witness :
  exists m2 m3,
    run_ampdu (Scenario.answers 0) 1
      [Scenario.ampdu IEEE80211_AMPDU_TX_START 5 100;
       Scenario.ampdu IEEE80211_AMPDU_TX_STOP_CONT 5 7]
      Scenario.with_station = Some (tt, m2)
    /\ rsi_mac80211_ampdu_action (Scenario.answers 0) 1
         (Scenario.ampdu IEEE80211_AMPDU_TX_OPERATIONAL 5 9) m2
       = Some (0, m3)
    /\ trace m3
       = trace m2 ++ [Fw (FW_AGGREGATION_PARAMS 5 100 64 STA_TX_ADDBA_DONE) 0].
Proof.
  destruct (tx_operational_carries_recorded_ssn (Scenario.answers 0) 1
              Scenario.with_station
              (Scenario.ampdu IEEE80211_AMPDU_TX_START 5 100)
              [Scenario.ampdu IEEE80211_AMPDU_TX_STOP_CONT 5 7]
              (Scenario.ampdu IEEE80211_AMPDU_TX_OPERATIONAL 5 9))
    as (m1 & m2 & st & m3 & Hrun1 & _ & _ & Hrun2 & Hrun3 & Htr).
  - reflexivity.
  - split; reflexivity.
  - reflexivity.
  - repeat constructor; discriminate.
  - reflexivity.
  - exists m2, m3.
    assert (Hst : st = 0).
    { vm_compute in Hrun1. injection Hrun1 as <-.
      vm_compute in Hrun2. injection Hrun2 as <-.
      vm_compute in Hrun3. injection Hrun3 as <- _. reflexivity. }
    subst st. split; [|split; [exact Hrun3|exact Htr]].
    cbn. unfold bind. rewrite Hrun1. exact Hrun2.
Defined.

(** ** Connection-quality monitor *)

Lemma to_u32_negative x : - 2 ^ 32 <= x < 0 -> to_u32 x = x + 2 ^ 32.
Proof.
  intros H. unfold to_u32. symmetry.
  apply (Z.mod_unique_pos x (2 ^ 32) (-1) (x + 2 ^ 32)); lia.
Qed.

(** Where every signal is a negative [s8] and the hysteresis margin keeps
    [last_event + hyst] below zero, the 32-bit comparisons agree with the
    comparisons over the integers. *)
Lemma cqm_event_in_range rssi last_event thold hyst :
  -128 <= rssi < 0 -> -128 <= last_event <= 0 -> 0 <= hyst ->
  last_event + hyst < 0 \/ last_event = 0 ->
  cqm_event rssi last_event thold hyst
  = cqm_event_as_stated rssi last_event thold hyst.
Proof.
  intros Hr Hl Hh Hsum. unfold cqm_event, cqm_event_as_stated.
  destruct (Z.eqb_spec last_event 0) as [->|Hne]; [reflexivity|].
  assert (Hlt : last_event + hyst < 0) by lia.
  rewrite (to_u32_negative rssi) by lia.
  rewrite (to_u32_negative (last_event - hyst)) by lia.
  rewrite (to_u32_negative (last_event + hyst)) by lia.
  replace (rssi + 2 ^ 32 <? last_event - hyst + 2 ^ 32)
    with (rssi <? last_event - hyst)
    by (apply eq_true_iff_eq; rewrite !Z.ltb_lt; lia).
  replace (rssi + 2 ^ 32 >? last_event + hyst + 2 ^ 32)
    with (rssi >? last_event + hyst)
    by (apply eq_true_iff_eq; rewrite !Z.gtb_gt; lia).
  reflexivity.
Qed.

(** The readings of the specification's example: threshold -70, hysteresis
    5, readings -60, -75, -72, -80 from no prior report.  Two events fire,
    "high" at -60 and "low" at -75; -72 and -80 fire nothing. *)
Lemma cqm_example_sequence :
  exists m',
    run_cqm [] [-60; -75; -72; -80] (Scenario.monitoring (-70) 5)
    = Some (tt, m')
    /\ cqm_events (trace m')
       = [(NL80211_CQM_RSSI_THRESHOLD_EVENT_HIGH, -60);
          (NL80211_CQM_RSSI_THRESHOLD_EVENT_LOW, -75)].
Proof. eexists. split; vm_compute; reflexivity. Qed.

(** C8, where the code leaves the claim.  With threshold -70 and hysteresis
    5, after a report at -3 a reading of -1 is not more than 5 above -3, so
    the test over the integers reports nothing; the test of the code adds
    -3 and 5 as [u32], compares the result, 2, with -1 converted to [u32],
    and reports "high".  Run from no prior report, the readings -3, -1 fire
    "high" twice.  The same happens with readings -60, -58 and a
    hysteresis of 70. *)
Theorem cqm_hysteresis_compared_unsigned :
  cqm_event_as_stated (-1) (-3) (-70) 5 = None
  /\ cqm_event (-1) (-3) (-70) 5 = Some NL80211_CQM_RSSI_THRESHOLD_EVENT_HIGH
  /\ (exists m',
        run_cqm [] [-3; -1] (Scenario.monitoring (-70) 5) = Some (tt, m')
        /\ cqm_events (trace m')
           = [(NL80211_CQM_RSSI_THRESHOLD_EVENT_HIGH, -3);
              (NL80211_CQM_RSSI_THRESHOLD_EVENT_HIGH, -1)])
  /\ cqm_event_as_stated (-58) (-60) (-70) 70 = None
  /\ cqm_event (-58) (-60) (-70) 70
     = Some NL80211_CQM_RSSI_THRESHOLD_EVENT_HIGH.
Proof.
  split; [reflexivity|]. split; [reflexivity|]. split.
  - eexists. split; vm_compute; reflexivity.
  - split; reflexivity.
Qed.

Lemma bss_info_changed_cqm cc allow_data allow_ctrl allow_mgmt vif bss
    changed m :
  tstmask changed BSS_CHANGED_CQM = true ->
  exists m',
    rsi_mac80211_bss_info_changed cc allow_data allow_ctrl allow_mgmt vif bss
      changed m = Some (tt, m')
    /\ cqm_info (common_of m')
       = {| last_cqm_event_rssi := 0; rssi_thold := cqm_rssi_thold bss;
            rssi_hyst := cqm_rssi_hyst bss |}.
Proof.
  intros Hcqm.
  unfold rsi_mac80211_bss_info_changed, rsi_inform_bss_status,
    rsi_send_rx_filter_frame.
  rewrite Hcqm. unfold_m.
  destruct (tstmask changed BSS_CHANGED_ASSOC); [destruct (assoc bss)|];
    cbn; eexists; split; reflexivity.
Qed.

Lemma cqm_event_no_prior rssi thold hyst :
  (rssi < thold ->
   cqm_event rssi 0 thold hyst = Some NL80211_CQM_RSSI_THRESHOLD_EVENT_LOW)
  /\ (thold < rssi ->
      cqm_event rssi 0 thold hyst = Some NL80211_CQM_RSSI_THRESHOLD_EVENT_HIGH).
Proof.
  unfold cqm_event. cbn [Z.eqb orb]. rewrite !andb_true_r. split; intros H.
  - apply Z.ltb_lt in H. rewrite H. reflexivity.
  - assert (Hn : (rssi <? thold) = false) by (apply Z.ltb_ge; lia).
    rewrite Hn. apply Z.lt_gt, Z.gtb_gt in H. rewrite H. reflexivity.
Qed.

(** C10.  The monitor keeps "no prior report" as a last-reported value of
    zero: a change of the monitoring parameters writes zero there.  While
    the last-reported value is zero, whatever the hysteresis margin, every
    reading below the threshold is reported as "low" and every reading
    above it as "high", and the reading becomes the last-reported value: a
    reported reading of zero itself leaves the monitor in that state. *)
Theorem cqm_zero_is_no_prior_report :
  (forall cc allow_data allow_ctrl allow_mgmt vif bss changed m,
     tstmask changed BSS_CHANGED_CQM = true ->
     exists m',
       rsi_mac80211_bss_info_changed cc allow_data allow_ctrl allow_mgmt vif
         bss changed m = Some (tt, m')
       /\ last_reported m' = 0)
  /\ (forall peer rssi m p0,
        last_reported m = 0 -> vif0 m = Some p0 ->
        rssi <> rssi_thold (cqm_info (common_of m)) ->
        exists m',
          rsi_perform_cqm peer rssi m = Some (tt, m')
          /\ trace m'
             = trace m
               ++ [Up (UP_CQM_RSSI_NOTIFY p0
                         (if rssi <? rssi_thold (cqm_info (common_of m))
                          then NL80211_CQM_RSSI_THRESHOLD_EVENT_LOW
                          else NL80211_CQM_RSSI_THRESHOLD_EVENT_HIGH) rssi)]
          /\ last_reported m' = rssi).
Proof.
  split.
  - intros cc a b c vif bss changed m Hcqm.
    destruct (bss_info_changed_cqm cc a b c vif bss changed m Hcqm)
      as (m' & Hrun & Hinfo).
    exists m'. split; [exact Hrun|]. unfold last_reported. rewrite Hinfo.
    reflexivity.
  - intros peer rssi m p0 Hlast Hv0 Hne.
    unfold last_reported in Hlast. unfold vif0 in Hv0.
    unfold rsi_perform_cqm. rewrite bind_get_common. rewrite Hlast.
    destruct (cqm_event_no_prior rssi (rssi_thold (cqm_info (common_of m)))
                (rssi_hyst (cqm_info (common_of m)))) as [Hlow Hhigh].
    destruct (Z.ltb_spec rssi (rssi_thold (cqm_info (common_of m))))
      as [Hlt|Hge].
    + rewrite (Hlow Hlt). unfold_m. cbn. rewrite Hv0. cbn.
      eexists. split; [reflexivity|]. split; reflexivity.
    + rewrite Hhigh by lia. unfold_m. cbn. rewrite Hv0. cbn.
      eexists. split; [reflexivity|]. split; reflexivity.
Qed.

(** With threshold -70 and a hysteresis of 1000, a reading of -71 right
    after the parameters were set is reported as "low", and after a report
    at zero a reading of -69 is reported as "high". *)
Lemma cqm_zero_is_no_prior_report_witness :
  (exists m',
     rsi_perform_cqm [] (-71) (Scenario.monitoring (-70) 1000) = Some (tt, m')
     /\ cqm_events (trace m') = [(NL80211_CQM_RSSI_THRESHOLD_EVENT_LOW, -71)])
  /\ (exists m1 m2,
        rsi_perform_cqm [] 0 (Scenario.monitoring (-70) 1000) = Some (tt, m1)
        /\ last_reported m1 = 0
        /\ rsi_perform_cqm [] (-69) m1 = Some (tt, m2)
        /\ cqm_events (trace m2)
           = [(NL80211_CQM_RSSI_THRESHOLD_EVENT_HIGH, 0);
              (NL80211_CQM_RSSI_THRESHOLD_EVENT_HIGH, -69)]).
Proof.
  destruct cqm_zero_is_no_prior_report as [_ H].
  split.
  - destruct (H [] (-71) (Scenario.monitoring (-70) 1000) (Some 1%N))
      as (m' & Hrun & Htr & _); [reflexivity|reflexivity|discriminate|].
    exists m'. split; [exact Hrun|]. rewrite Htr. reflexivity.
  - destruct (H [] 0 (Scenario.monitoring (-70) 1000) (Some 1%N))
      as (m1 & Hrun1 & Htr1 & Hlast1); [reflexivity|reflexivity|discriminate|].
    assert (Hm1 : vif0 m1 = Some (Some 1%N)
                  /\ rssi_thold (cqm_info (common_of m1)) = -70).
    { vm_compute in Hrun1. injection Hrun1 as <-. split; reflexivity. }
    destruct Hm1 as [Hv1 Hth1].
    destruct (H [] (-69) m1 (Some 1%N) Hlast1 Hv1)
      as (m2 & Hrun2 & Htr2 & _); [rewrite Hth1; discriminate|].
    exists m1, m2. repeat split; try assumption.
    rewrite Htr2, Htr1, Hth1. reflexivity.
Defined.

(** * Further properties of the handlers *)

(** ** Configuration *)

(** X1.  A configure call that flags neither a channel nor a power change
    answers "unsupported" and does nothing.  One that flags both runs the
    channel change and then the power change, and returns the status of the
    power change: the status of the channel change is dropped. *)
Theorem config_returns_last_status cc changed m :
  (tstmask changed IEEE80211_CONF_CHANGE_CHANNEL = false ->
   tstmask changed IEEE80211_CONF_CHANGE_POWER = false ->
   rsi_mac80211_config cc changed m = Some (- EOPNOTSUPP, m))
  /\ (tstmask changed IEEE80211_CONF_CHANGE_CHANNEL = true ->
      tstmask changed IEEE80211_CONF_CHANGE_POWER = true ->
      forall st m1,
        rsi_channel_change cc m = Some (st, m1) ->
        rsi_mac80211_config cc changed m = rsi_config_power cc m1).
Proof.
  unfold rsi_mac80211_config. split.
  - intros -> ->. reflexivity.
  - intros -> -> st m1 H. unfold bind. rewrite H. reflexivity.
Qed.

(** Both flags, a band check that is refused, and a requested power level
    that is the cached one: the call reports success. *)
Lemma config_returns_last_status_witness :
  exists m1 m2,
    rsi_channel_change Cases.band_refused
      (Scenario.associated_on Scenario.channel_1 Scenario.channel_6
         false false) = Some (-22, m1)
    /\ rsi_mac80211_config Cases.band_refused
         (Z.lor IEEE80211_CONF_CHANGE_CHANNEL IEEE80211_CONF_CHANGE_POWER)
         (Scenario.associated_on Scenario.channel_1 Scenario.channel_6
            false false) = Some (0, m2).
Proof.
  destruct (rsi_channel_change Cases.band_refused
              (Scenario.associated_on Scenario.channel_1 Scenario.channel_6
                 false false)) as [[st m1]|] eqn:E;
    [|vm_compute in E; discriminate].
  pose proof (proj2 (config_returns_last_status Cases.band_refused
                       (Z.lor IEEE80211_CONF_CHANGE_CHANNEL
                          IEEE80211_CONF_CHANGE_POWER)
                       (Scenario.associated_on Scenario.channel_1
                          Scenario.channel_6 false false))
                eq_refl eq_refl st m1 E) as H.
  vm_compute in E. injection E as <- <-.
  eexists _, _. split; [reflexivity|]. rewrite H. vm_compute. reflexivity.
Defined.

(** X2.  The status a channel change returns is that of the channel
    programming alone: the failure of the band check, after which no
    channel-set command is issued, or else the status of the channel-set
    command.  What the queue block and unblock commands answer does not
    enter it. *)
Theorem channel_change_status cc m q v cur bch :
  vif0 m = Some (Some q) ->
  vif_mem m !! q = Some v ->
  conf_chan (conf (hw m)) = Some cur ->
  (assoc (bss_conf v) = true -> chandef_chan (bss_conf v) = Some bch) ->
  exists st m' new b,
    rsi_channel_change cc m = Some (st, m')
    /\ trace m' = trace m ++ new
    /\ In (Fw FW_BAND_CHECK b) new
    /\ (b <> 0 -> st = b /\ forall c, ~ In (Fw (FW_SET_CHANNEL cur) c) new)
    /\ (b = 0 -> In (Fw (FW_SET_CHANNEL cur) st) new).
Proof.
  intros Hv0 Hmem Hcur Hbch.
  unfold rsi_channel_change, rsi_band_check, rsi_set_channel,
    rsi_send_block_unblock_frame.
  rewrite bind_get_conf, Hcur. cbn [deref]. rewrite bind_ret.
  destruct (assoc (bss_conf v)) eqn:Ha;
    [specialize (Hbch eq_refl)|clear Hbch];
    destruct (hw_data_qs_blocked (common_of m)) eqn:Hb;
    try destruct (hw_value bch =? hw_value cur) eqn:Hsame;
    repeat
      (first
         [ rewrite bind_ret | rewrite bind_bind | rewrite bind_get_common
         | rewrite bind_send | rewrite bind_set_blocked
         | rewrite common_of_with_trace | rewrite common_of_with_common
         | rewrite trace_with_trace | rewrite trace_with_common
         | rewrite blocked_set
         | rewrite Hb | rewrite Hsame
         | progress cbn [negb]
         | match goal with
           | |- context [bind bss_assoc ?k ?mm] =>
               rewrite (bind_bss_assoc k mm q v Hv0 Hmem), Ha
           | |- context [bind rsi_get_connected_channel ?k ?mm] =>
               rewrite (bind_connected k mm q v bch Hv0 Hmem Hbch)
           | |- context [cc ?t ?c =? 0] =>
               let s := fresh "s" in
               let Hs := fresh "Hs" in
               remember (cc t c) as s eqn:Hs; clear Hs;
               destruct (s =? 0) eqn:?
           end ]).
  all: unfold ret.
  all: eexists _, _, _, _; split; [reflexivity|]; split;
    [rewrite ?trace_with_common, ?trace_with_trace, <- ?app_assoc;
     reflexivity|].
  all: repeat match goal with
         | H : (_ =? 0) = true |- _ => apply Z.eqb_eq in H
         | H : (_ =? 0) = false |- _ => apply Z.eqb_neq in H
         end.
  all: split; [cbn; eauto 6|].
  all: split;
    [intros Hne;
     first [contradiction
           |split; [reflexivity|]; intros c; cbn; intuition discriminate]
    |intros He;
     first [contradiction|subst; cbn; rewrite <- ?app_assoc; cbn; eauto 6]].
Qed.

(** Associated on channel 1, a change to channel 6 during which the block
    command is refused and the programming accepted: the call reports
    success. *)
Lemma channel_change_status_witness :
  exists m',
    rsi_channel_change Cases.queues_refused
      (Scenario.associated_on Scenario.channel_1 Scenario.channel_6
         true false) = Some (0, m')
    /\ fw_cmds (trace m')
       = [FW_BLOCK_UNBLOCK true; FW_BAND_CHECK;
          FW_SET_CHANNEL Scenario.channel_6].
Proof.
  destruct (channel_change_status Cases.queues_refused
              (Scenario.associated_on Scenario.channel_1 Scenario.channel_6
                 true false)
              1 (Scenario.iface NL80211_IFTYPE_STATION true
                   (Some Scenario.channel_1) [1])
              Scenario.channel_6 Scenario.channel_1
              eq_refl eq_refl eq_refl (fun _ => eq_refl))
    as (st & m' & new & b & Hrun & _).
  vm_compute in Hrun. injection Hrun as <- <-.
  eexists. split; [vm_compute; reflexivity|]. reflexivity.
Defined.

(** X3.  With no interface stored in slot 0, [rsi_get_connected_channel]
    answers 0 and leaves the machine alone, while a channel change reads
    [bss->assoc] through the empty slot: it faults, and so does a configure
    call that flags a channel change. *)
Theorem channel_change_needs_interface cc changed m :
  vif0 m = Some None ->
  tstmask changed IEEE80211_CONF_CHANGE_CHANNEL = true ->
  rsi_get_connected_channel m = Some (0, m)
  /\ rsi_channel_change cc m = None
  /\ rsi_mac80211_config cc changed m = None.
Proof.
  intros Hv0 Hch. unfold vif0 in Hv0.
  assert (Hcc : rsi_channel_change cc m = None).
  { unfold rsi_channel_change, bss_assoc. unfold_m. cbn.
    destruct (conf_chan (conf (hw m))); [|reflexivity]. cbn.
    rewrite Hv0. reflexivity. }
  split; [|split].
  - unfold rsi_get_connected_channel. unfold_m. cbn. rewrite Hv0. reflexivity.
  - exact Hcc.
  - unfold rsi_mac80211_config, bind. rewrite Hch, Hcc. reflexivity.
Qed.

Lemma channel_change_needs_interface_witness :
  rsi_get_connected_channel Scenario.at_attach = Some (0, Scenario.at_attach)
  /\ rsi_channel_change (Scenario.answers 0) Scenario.at_attach = None
  /\ rsi_mac80211_config (Scenario.answers 0) IEEE80211_CONF_CHANGE_CHANNEL
       Scenario.at_attach = None.
Proof.
  apply (channel_change_needs_interface (Scenario.answers 0)
           IEEE80211_CONF_CHANGE_CHANNEL Scenario.at_attach); reflexivity.
Defined.

(** ** Interfaces *)

Lemma remove_interface_slot cc m vif q v0 v1 :
  vif0 m = Some (Some q) ->
  vif_mem m !! q = Some v0 ->
  vif_mem m !! vif = Some v1 ->
  exists m',
    rsi_mac80211_remove_interface cc vif m = Some (tt, m')
    /\ vif0 m' = Some (if decide (vif_bytes v0 = vif_bytes v1)
                       then None else Some q)
    /\ vif_mem m' = vif_mem m
    /\ nvifs m' = (if decide (vif_type v1 = NL80211_IFTYPE_STATION)
                   then to_u8 (nvifs m - 1) else nvifs m)
    /\ priv (adapter_of m') = priv (adapter_of m)
    /\ conf (hw m') = conf (hw m)
    /\ length (vifs (adapter_of m')) = length (vifs (adapter_of m))
    /\ trace m'
       = trace m
         ++ (if decide (vif_type v1 = NL80211_IFTYPE_STATION)
             then [Fw (FW_VAP_CAPABILITIES STA_OPMODE VAP_DELETE)
                     (cc (trace m)
                        (FW_VAP_CAPABILITIES STA_OPMODE VAP_DELETE))]
             else []).
Proof.
  intros Hv0 Hq Hvif. unfold vif0 in Hv0.
  assert (Hlen : (0 < length (vifs (adapter_of m)))%nat).
  { destruct (vifs (adapter_of m)); [discriminate|cbn; lia]. }
  unfold rsi_mac80211_remove_interface, rsi_set_vap_capabilities, nvifs, vif0.
  unfold_m. rewrite Hvif. cbn.
  destruct (decide (vif_type v1 = NL80211_IFTYPE_STATION)); cbn;
    rewrite Hv0; cbn; rewrite Hq; cbn; rewrite Hvif; cbn;
    destruct (decide (vif_bytes v0 = vif_bytes v1)); cbn;
    try (destruct (decide _) as [_|Hn]; [|contradiction]);
    (eexists; split; [reflexivity|]);
    cbn; rewrite ?app_nil_r;
    repeat split; try reflexivity; try assumption;
    try apply length_insert;
    destruct (vifs (adapter_of m)); try discriminate; reflexivity.
Qed.

Lemma add_station_result cc m vif v :
  arrays_ok m -> vif_mem m !! vif = Some v ->
  vif_type v = NL80211_IFTYPE_STATION -> nvifs m = 0 ->
  exists m1,
    rsi_mac80211_add_interface cc vif m
    = Some (cc (trace m) (FW_VAP_CAPABILITIES STA_OPMODE VAP_ADD), m1)
    /\ m1 = with_trace
              (trace m
               ++ [Fw (FW_VAP_CAPABILITIES STA_OPMODE VAP_ADD)
                     (cc (trace m) (FW_VAP_CAPABILITIES STA_OPMODE VAP_ADD))])
              (with_adapter
                 (set_vifs [Some vif] (set_sc_nvifs 1 (adapter_of m))) m).
Proof.
  intros Hok Hmem Hty Hn.
  destruct (arrays_ok_vifs m Hok) as [p Hp].
  unfold rsi_mac80211_add_interface, rsi_set_vap_capabilities. unfold_m.
  rewrite Hmem. cbn. rewrite Hty. unfold nvifs in Hn. rewrite Hn. cbn.
  rewrite Hp. cbn.
  eexists. split; reflexivity.
Qed.

(** X4.  [remove_interface] clears slot 0 exactly when the bytes of the
    stored interface structure equal those of the structure it is called
    with.  So it clears the slot when it is called with the stored
    structure itself, and it leaves the stored interface in place when the
    two structures differ in a byte, be they equal in all that the driver
    reads through them; what the bssid and channel pointers point to does
    not enter the comparison.  The interface memory is never written. *)
Theorem remove_interface_clears_on_match cc m vif q v0 v1 :
  vif0 m = Some (Some q) ->
  vif_mem m !! q = Some v0 ->
  vif_mem m !! vif = Some v1 ->
  exists m',
    rsi_mac80211_remove_interface cc vif m = Some (tt, m')
    /\ vif_mem m' = vif_mem m
    /\ (vif_bytes v0 = vif_bytes v1 -> vif0 m' = Some None)
    /\ (vif_bytes v0 <> vif_bytes v1 -> vif0 m' = Some (Some q))
    /\ (vif = q -> vif0 m' = Some None)
    /\ (vif_rest v0 <> vif_rest v1 -> vif0 m' = Some (Some q)).
Proof.
  intros Hv0 Hq Hvif.
  destruct (remove_interface_slot cc m vif q v0 v1 Hv0 Hq Hvif)
    as (m' & Hrun & Hslot & Hmem & _).
  exists m'. split; [exact Hrun|]. split; [exact Hmem|].
  destruct (decide (vif_bytes v0 = vif_bytes v1)) as [He|Hne].
  - split; [intros _; exact Hslot|]. split; [intros Hd; contradiction|].
    split; [intros _; exact Hslot|].
    intros Hd. exfalso. apply Hd. unfold vif_bytes in He. congruence.
  - split; [intros He; contradiction|]. split; [intros _; exact Hslot|].
    split; [|intros _; exact Hslot].
    intros ->. exfalso. apply Hne. congruence.
Qed.

(** Station 1 is stored.  Removing station 2, which is equal to it in
    type and in all of [bss_conf] and differs in another byte, leaves
    station 1 stored; removing station 1 clears the slot. *)
Lemma remove_interface_clears_on_match_witness :
  (exists m',
     rsi_mac80211_remove_interface (Scenario.answers 0) 2
       Scenario.with_station = Some (tt, m')
     /\ vif0 m' = Some (Some 1%N))
  /\ (exists m',
        rsi_mac80211_remove_interface (Scenario.answers 0) 1
          Scenario.with_station = Some (tt, m')
        /\ vif0 m' = Some None).
Proof.
  split.
  - destruct (remove_interface_clears_on_match (Scenario.answers 0)
                Scenario.with_station 2 1
                (Scenario.iface NL80211_IFTYPE_STATION false None [1])
                (Scenario.iface NL80211_IFTYPE_STATION false None [2])
                eq_refl eq_refl eq_refl)
      as (m' & Hrun & _ & _ & _ & _ & Hkeep).
    exists m'. split; [exact Hrun|]. apply Hkeep. discriminate.
  - destruct (remove_interface_clears_on_match (Scenario.answers 0)
                Scenario.with_station 1 1
                (Scenario.iface NL80211_IFTYPE_STATION false None [1])
                (Scenario.iface NL80211_IFTYPE_STATION false None [1])
                eq_refl eq_refl eq_refl)
      as (m' & Hrun & _ & _ & _ & Hclear & _).
    exists m'. split; [exact Hrun|]. apply Hclear. reflexivity.
Defined.

(** X5.  With slot 0 empty, [remove_interface] compares through the null
    slot and faults, whatever interface it is called with: a second removal
    of an interface that was removed does not return. *)
Theorem remove_interface_empty_slot cc m vif :
  vif0 m = Some None ->
  rsi_mac80211_remove_interface cc vif m = None.
Proof.
  intros Hv0. unfold vif0 in Hv0.
  unfold rsi_mac80211_remove_interface, rsi_set_vap_capabilities. unfold_m.
  destruct (vif_mem m !! vif) as [v|]; [|reflexivity]. cbn.
  destruct (decide _); cbn; rewrite Hv0; reflexivity.
Qed.

(** Add station 1, remove it, remove it again. *)
Lemma remove_interface_empty_slot_witness :
  (exists m',
     run_iface_ops (Scenario.answers 0) [OP_ADD 1; OP_REMOVE 1]
       Scenario.at_attach = Some (tt, m')
     /\ rsi_mac80211_remove_interface (Scenario.answers 0) 1 m' = None).
Proof.
  destruct (run_iface_ops (Scenario.answers 0) [OP_ADD 1; OP_REMOVE 1]
              Scenario.at_attach) as [[[] m']|] eqn:E;
    [|vm_compute in E; discriminate].
  exists m'. split; [reflexivity|].
  apply remove_interface_empty_slot.
  vm_compute in E. injection E as <-. reflexivity.
Defined.

(** X6.  Round trip: on a machine without interface, adding a station
    interface and removing it again restores the driver state, the
    configuration and the interface memory; what is left is the two
    capability commands in the trace. *)
Theorem add_then_remove_restores cc m vif v :
  arrays_ok m ->
  vif0 m = Some None ->
  nvifs m = 0 ->
  vif_mem m !! vif = Some v ->
  vif_type v = NL80211_IFTYPE_STATION ->
  exists st1 st2 m',
    run_iface_ops cc [OP_ADD vif; OP_REMOVE vif] m = Some (tt, m')
    /\ hw m' = hw m
    /\ vif_mem m' = vif_mem m
    /\ trace m'
       = trace m ++ [Fw (FW_VAP_CAPABILITIES STA_OPMODE VAP_ADD) st1;
                     Fw (FW_VAP_CAPABILITIES STA_OPMODE VAP_DELETE) st2].
Proof.
  intros Hok Hv0 Hn Hmem Hty.
  destruct (add_station_result cc m vif v Hok Hmem Hty Hn) as (m1 & Hadd & Hm1).
  subst m1.
  match type of Hadd with
  | _ = Some (?st, ?m1) =>
      destruct (remove_interface_slot cc m1 vif vif v v) as
        (m' & Hrem & Hslot & Hmem' & Hcount & Hpriv & Hconf & Hlen & Htr);
      [reflexivity|exact Hmem|exact Hmem|]
  end.
  eexists _, _, m'. split.
  - cbn [run_iface_ops run_iface_op]. unfold bind, ret. rewrite Hadd, Hrem.
    reflexivity.
  - destruct (decide (vif_bytes v = vif_bytes v)); [|contradiction].
    destruct (decide (vif_type v = NL80211_IFTYPE_STATION)); [|contradiction].
    split; [|split; [exact Hmem'|]].
    + destruct (arrays_ok_vifs m Hok) as [p Hp].
      unfold vif0 in Hv0, Hslot. rewrite Hp in Hv0. injection Hv0 as ->.
      unfold nvifs in Hcount, Hn. cbn in Hcount, Hpriv, Hconf, Hlen.
      destruct m as [[cf [n vs pr]] mem tr].
      destruct m' as [[cf' [n' vs' pr']] mem' tr'].
      unfold adapter_of in *. cbn in Hp, Hn, Hcount, Hpriv, Hconf, Hlen, Hslot.
      subst. destruct vs' as [|x [|]]; try discriminate.
      injection Hslot as ->. reflexivity.
    + rewrite Htr. cbn. rewrite <- app_assoc. reflexivity.
Qed.

Lemma add_then_remove_restores_witness :
  exists m',
    run_iface_ops (Scenario.answers 0) [OP_ADD 1; OP_REMOVE 1]
      Scenario.at_attach = Some (tt, m')
    /\ hw m' = hw Scenario.at_attach.
Proof.
  destruct (add_then_remove_restores (Scenario.answers 0) Scenario.at_attach 1
              (Scenario.iface NL80211_IFTYPE_STATION false None [1]))
    as (st1 & st2 & m' & Hrun & Hhw & _).
  - split; reflexivity.
  - reflexivity.
  - reflexivity.
  - reflexivity.
  - reflexivity.
  - exists m'. split; assumption.
Defined.

(** ** Aggregation, continued *)

(** X7.  A TX stop, graceful or flushing, for any interface: one
    delete-block-ack command, TX direction, is issued with the supplied
    sequence number; its status is returned; mac80211 is told that the
    session stopped exactly when the command succeeded; the driver state is
    not touched. *)
Theorem ampdu_tx_stop_reports_on_success cc vif p m :
  action p = IEEE80211_AMPDU_TX_STOP_CONT
  \/ action p = IEEE80211_AMPDU_TX_STOP_FLUSH
  \/ action p = IEEE80211_AMPDU_TX_STOP_FLUSH_CONT ->
  let c := FW_AGGREGATION_PARAMS (tid p) (to_u16 (ssn p))
             (to_u8 (buf_size p)) STA_TX_DELBA in
  let st := cc (trace m) c in
  exists m',
    rsi_mac80211_ampdu_action cc vif p m = Some (st, m')
    /\ hw m' = hw m
    /\ trace m'
       = trace m
         ++ Fw c st
            :: (if st =? 0
                then [Up (UP_STOP_TX_BA_CB vif (sta_addr p) (tid p))]
                else []).
Proof.
  intros Hact. cbn zeta.
  unfold rsi_mac80211_ampdu_action, rsi_send_aggregation_params_frame.
  rewrite bind_get_adapter.
  destruct Hact as [-> | [-> | ->]]; unfold_m; cbn;
    destruct (cc (trace m) _ =? 0); cbn;
    (eexists; split; [reflexivity|]; split; [reflexivity|]);
    cbn; rewrite <- ?app_assoc; reflexivity.
Qed.

Lemma ampdu_tx_stop_reports_on_success_witness :
  (exists m',
     rsi_mac80211_ampdu_action (Scenario.answers 0) 9
       (Scenario.ampdu IEEE80211_AMPDU_TX_STOP_FLUSH 5 7) Scenario.at_attach
     = Some (0, m')
     /\ trace m'
        = [Fw (FW_AGGREGATION_PARAMS 5 7 64 STA_TX_DELBA) 0;
           Up (UP_STOP_TX_BA_CB 9 [0; 0; 0; 0; 0; 1] 5)])
  /\ (exists m',
        rsi_mac80211_ampdu_action (Scenario.answers (-1)) 9
          (Scenario.ampdu IEEE80211_AMPDU_TX_STOP_FLUSH 5 7)
          Scenario.at_attach = Some (-1, m')
        /\ trace m' = [Fw (FW_AGGREGATION_PARAMS 5 7 64 STA_TX_DELBA) (-1)]).
Proof.
  split.
  - destruct (ampdu_tx_stop_reports_on_success (Scenario.answers 0) 9
                (Scenario.ampdu IEEE80211_AMPDU_TX_STOP_FLUSH 5 7)
                Scenario.at_attach) as (m' & Hrun & _ & Htr).
    + right. left. reflexivity.
    + exists m'. split; [exact Hrun|exact Htr].
  - destruct (ampdu_tx_stop_reports_on_success (Scenario.answers (-1)) 9
                (Scenario.ampdu IEEE80211_AMPDU_TX_STOP_FLUSH 5 7)
                Scenario.at_attach) as (m' & Hrun & _ & Htr).
    + right. left. reflexivity.
    + exists m'. split; [exact Hrun|exact Htr].
Defined.

Lemma sta_remove_resets_slot cc vif vif' m :
  ampdu_ready vif m ->
  exists m',
    rsi_mac80211_sta_remove cc vif' m = Some (0, m')
    /\ recorded_ssn m' 0 = Some 0
    /\ ampdu_ready vif m'.
Proof.
  intros [Hv0 Hok]. destruct (arrays_ok_vif_info m Hok) as [i Hi].
  unfold rsi_mac80211_sta_remove, rsi_send_rx_filter_frame. unfold_m.
  unfold common_of in *. cbn. rewrite Hi. cbn. rewrite Hi. cbn.
  eexists. split; [reflexivity|]. split; [reflexivity|].
  split; [exact Hv0|]. split; [exact (proj1 Hok)|reflexivity].
Qed.

(** X8.  [sta_remove] forgets the recorded starting sequence number: after
    a TX_START and a [sta_remove], a TX_OPERATIONAL on the stored interface
    issues its add-block-ack command with sequence number 0. *)
Theorem sta_remove_resets_recorded_ssn cc vif m p_start p_op :
  vif0 m = Some (Some vif) ->
  arrays_ok m ->
  action p_start = IEEE80211_AMPDU_TX_START ->
  action p_op = IEEE80211_AMPDU_TX_OPERATIONAL ->
  exists m1 m2 st m3,
    rsi_mac80211_ampdu_action cc vif p_start m = Some (0, m1)
    /\ rsi_mac80211_sta_remove cc vif m1 = Some (0, m2)
    /\ rsi_mac80211_ampdu_action cc vif p_op m2 = Some (st, m3)
    /\ trace m3
       = trace m2
         ++ [Fw (FW_AGGREGATION_PARAMS (tid p_op) 0 (to_u8 (buf_size p_op))
                   STA_TX_ADDBA_DONE) st].
Proof.
  intros Hv0 Hok Hstart Hop.
  destruct (ampdu_tx_start cc vif p_start m (conj Hv0 Hok) Hstart)
    as (m1 & Hrun1 & _ & _ & Hready1).
  destruct (sta_remove_resets_slot cc vif vif m1 Hready1)
    as (m2 & Hrun2 & Hssn & Hready2).
  destruct (ampdu_tx_operational cc vif p_op m2 0 Hready2 Hop Hssn)
    as (st & m3 & Hrun3 & Htr).
  exists m1, m2, st, m3. auto.
Qed.

Lemma sta_remove_resets_recorded_ssn_witness :
  exists m1 m2 m3,
    rsi_mac80211_ampdu_action (Scenario.answers 0) 1
      (Scenario.ampdu IEEE80211_AMPDU_TX_START 5 100) Scenario.with_station
    = Some (0, m1)
    /\ rsi_mac80211_sta_remove (Scenario.answers 0) 1 m1 = Some (0, m2)
    /\ rsi_mac80211_ampdu_action (Scenario.answers 0) 1
         (Scenario.ampdu IEEE80211_AMPDU_TX_OPERATIONAL 5 100) m2
       = Some (0, m3)
    /\ trace m3
       = trace m2 ++ [Fw (FW_AGGREGATION_PARAMS 5 0 64 STA_TX_ADDBA_DONE) 0].
Proof.
  destruct (sta_remove_resets_recorded_ssn (Scenario.answers 0) 1
              Scenario.with_station
              (Scenario.ampdu IEEE80211_AMPDU_TX_START 5 100)
              (Scenario.ampdu IEEE80211_AMPDU_TX_OPERATIONAL 5 100))
    as (m1 & m2 & st & m3 & Hrun1 & Hrun2 & Hrun3 & Htr).
  - reflexivity.
  - split; reflexivity.
  - reflexivity.
  - reflexivity.
  - assert (Hst : st = 0).
    { vm_compute in Hrun1. injection Hrun1 as <-.
      vm_compute in Hrun2. injection Hrun2 as <-.
      vm_compute in Hrun3. injection Hrun3 as <- _. reflexivity. }
    subst st. exists m1, m2, m3. auto.
Defined.

(** ** Keys, continued *)

(** X9.  A SET of a WEP key (WEP40 or WEP104) pushes the key twice: first
    under the pairwise key type whatever the key's own flag, then under
    the type its flag gives.  If the first push fails its status is
    returned and there is no second push. *)
Theorem set_key_wep_pushes_twice cc vif k m :
  cipher k = WLAN_CIPHER_SUITE_WEP40 \/ cipher k = WLAN_CIPHER_SUITE_WEP104 ->
  let kt := if pairwise_flag k then RSI_PAIRWISE_KEY else RSI_GROUP_KEY in
  let c1 := FW_LOAD_KEY (key k) (keylen k) RSI_PAIRWISE_KEY (keyidx k)
              (cipher k) in
  let c2 := FW_LOAD_KEY (key k) (keylen k) kt (keyidx k) (cipher k) in
  let s1 := cc (trace m) c1 in
  exists st k' m',
    rsi_mac80211_set_key cc SET_KEY vif k m = Some (st, k', m')
    /\ (s1 <> 0 -> st = s1 /\ trace m' = trace m ++ [Fw c1 s1])
    /\ (s1 = 0 -> trace m' = trace m ++ [Fw c1 0; Fw c2 st]).
Proof.
  intros Hwep. cbn zeta.
  assert (Hc : (cipher k =? WLAN_CIPHER_SUITE_WEP104)
               || (cipher k =? WLAN_CIPHER_SUITE_WEP40) = true).
  { destruct Hwep as [-> | ->]; reflexivity. }
  unfold rsi_mac80211_set_key, set_security, rsi_hal_key_config,
    rsi_hal_load_key, pairwise_flag.
  unfold_m. cbn. rewrite Hc. cbn.
  destruct (cc (trace m) _ =? 0) eqn:E1; cbn.
  - apply Z.eqb_eq in E1. rewrite E1.
    destruct (cc _ _ =? 0) eqn:E2; cbn;
      (eexists _, _, _; split; [reflexivity|]; split;
       [intros Hne; contradiction
       |intros _; cbn; rewrite <- app_assoc; reflexivity]).
  - rewrite ?E1. cbn. apply Z.eqb_neq in E1.
    eexists _, _, _. split; [reflexivity|]. split.
    + intros _. split; reflexivity.
    + intros He. contradiction.
Qed.

Lemma set_key_wep_pushes_twice_witness :
  exists k' m',
    rsi_mac80211_set_key (Scenario.answers 0) SET_KEY 1 Cases.wep_group_key
      Scenario.with_station = Some (0, k', m')
    /\ trace m'
       = [Fw (FW_LOAD_KEY [1; 2; 3; 4; 5] 5 RSI_PAIRWISE_KEY 2
                WLAN_CIPHER_SUITE_WEP40) 0;
          Fw (FW_LOAD_KEY [1; 2; 3; 4; 5] 5 RSI_GROUP_KEY 2
                WLAN_CIPHER_SUITE_WEP40) 0].
Proof.
  destruct (set_key_wep_pushes_twice (Scenario.answers 0) 1
              Cases.wep_group_key Scenario.with_station)
    as (st & k' & m' & Hrun & _ & Htwo).
  - left. reflexivity.
  - assert (Hst : st = 0).
    { vm_compute in Hrun. injection Hrun as <- _ _. reflexivity. }
    subst st. exists k', m'. split; [exact Hrun|]. apply Htwo. reflexivity.
Defined.

Lemma zero_prefix_length n l : length (zero_prefix n l) = length l.
Proof.
  unfold zero_prefix. rewrite length_app, length_replicate, length_drop. lia.
Qed.

Lemma zero_prefix_lookup n l i b :
  zero_prefix n l !! i = Some b ->
  if decide (i < n)%nat then b = 0 else l !! i = Some b.
Proof.
  unfold zero_prefix. intros Hb.
  assert (Hlt : (i < length l)%nat).
  { apply lookup_lt_Some in Hb.
    rewrite length_app, length_replicate, length_drop in Hb. lia. }
  destruct (decide (i < n)%nat) as [Hi|Hi].
  - rewrite lookup_app_l in Hb by (rewrite length_replicate; lia).
    apply lookup_replicate in Hb. tauto.
  - rewrite lookup_app_r in Hb by (rewrite length_replicate; lia).
    rewrite length_replicate, lookup_drop in Hb.
    rewrite <- Hb. f_equal. lia.
Qed.

(** X10.  A DISABLE zeroes the key record before the push, over the size
    of the structure: the named fields, and with them the key bytes that
    lie before the end of the structure, the first six; the key bytes
    behind them are kept.  Whatever key it is called with, WEP or not,
    pairwise or group, with any index, it issues a single load-key command
    that carries those bytes, length 0, index 0, cipher 0 and the group
    key type, hands the record back zeroed in that way, and returns the
    status of that command. *)
Theorem set_key_disable_pushes_zeroed_key cc vif k m :
  let c := FW_LOAD_KEY (key (zeroed_key k)) 0 RSI_GROUP_KEY 0 0 in
  exists m',
    rsi_mac80211_set_key cc DISABLE_KEY vif k m
    = Some (cc (trace m) c, zeroed_key k, m')
    /\ trace m' = trace m ++ [Fw c (cc (trace m) c)]
    /\ cipher (zeroed_key k) = 0 /\ keyidx (zeroed_key k) = 0
    /\ key_flags (zeroed_key k) = 0 /\ keylen (zeroed_key k) = 0
    /\ hw_key_idx (zeroed_key k) = 0
    /\ length (key (zeroed_key k)) = length (key k)
    /\ (forall i b,
          key (zeroed_key k) !! i = Some b ->
          if decide (i < 6)%nat then b = 0 else key k !! i = Some b).
Proof.
  cbn zeta. unfold rsi_mac80211_set_key, set_security, rsi_hal_key_config,
    rsi_hal_load_key. unfold_m. cbn -[zero_prefix Nat.sub].
  eexists. split; [reflexivity|]. split; [reflexivity|].
  do 5 (split; [reflexivity|]).
  split; [apply zero_prefix_length|].
  intros i b Hb. apply (zero_prefix_lookup 6 (key k) i b Hb).
Qed.

(** A CCMP key of sixteen bytes [0xaa]: the command and the record handed
    back carry six zero bytes followed by the last ten bytes of the key. *)
Lemma set_key_disable_pushes_zeroed_key_witness :
  exists m',
    rsi_mac80211_set_key (Scenario.answers 0) DISABLE_KEY 1
      Scenario.ccmp_pairwise_key Scenario.keyed
    = Some (0,
            {| cipher := 0; hw_key_idx := 0; key_flags := 0; keyidx := 0;
               keylen := 0; key := repeat 0 6 ++ repeat 0xaa 10 |}, m')
    /\ trace m'
       = [Fw (FW_LOAD_KEY (repeat 0 6 ++ repeat 0xaa 10) 0 RSI_GROUP_KEY 0 0)
            0].
Proof.
  destruct (set_key_disable_pushes_zeroed_key (Scenario.answers 0) 1
              Scenario.ccmp_pairwise_key Scenario.keyed)
    as (m' & Hrun & Htr & _).
  exists m'. split; [exact Hrun|exact Htr].
Defined.

(** ** The monitor, continued *)

Lemma cqm_event_sides rssi last_event thold hyst :
  (cqm_event rssi last_event thold hyst
   = Some NL80211_CQM_RSSI_THRESHOLD_EVENT_LOW -> rssi < thold)
  /\ (cqm_event rssi last_event thold hyst
      = Some NL80211_CQM_RSSI_THRESHOLD_EVENT_HIGH -> thold < rssi)
  /\ (rssi = thold -> cqm_event rssi last_event thold hyst = None).
Proof.
  unfold cqm_event.
  destruct (Z.ltb_spec rssi thold) as [Hlt|Hge];
    destruct (Z.gtb_spec rssi thold) as [Hgt|Hle]; cbn [andb];
    repeat match goal with
           | |- context [if ?b then _ else _] => destruct b
           end;
    repeat split; intros; try discriminate; try lia; try reflexivity.
Qed.

(** X11.  Whatever the last report and the hysteresis, the monitor reports
    "low" only for a reading below the threshold and "high" only for one
    above it, and a reading equal to the threshold is never reported.  A
    call either reports one event, for the interface in slot 0, and caches
    the reading, or leaves the machine exactly as it was. *)
Theorem cqm_reports_the_side_of_the_threshold peer rssi m p0 :
  vif0 m = Some p0 ->
  exists m',
    rsi_perform_cqm peer rssi m = Some (tt, m')
    /\ (m' = m
        \/ exists ev,
             trace m' = trace m ++ [Up (UP_CQM_RSSI_NOTIFY p0 ev rssi)]
             /\ last_reported m' = rssi
             /\ (ev = NL80211_CQM_RSSI_THRESHOLD_EVENT_LOW ->
                 rssi < rssi_thold (cqm_info (common_of m)))
             /\ (ev = NL80211_CQM_RSSI_THRESHOLD_EVENT_HIGH ->
                 rssi_thold (cqm_info (common_of m)) < rssi))
    /\ (rssi = rssi_thold (cqm_info (common_of m)) -> m' = m).
Proof.
  intros Hv0. unfold vif0 in Hv0.
  unfold rsi_perform_cqm. rewrite bind_get_common.
  destruct (cqm_event_sides rssi (last_cqm_event_rssi (cqm_info (common_of m)))
              (rssi_thold (cqm_info (common_of m)))
              (rssi_hyst (cqm_info (common_of m)))) as (Hlow & Hhigh & Heq).
  destruct (cqm_event _ _ _ _) as [ev|] eqn:E.
  - unfold_m. cbn. rewrite Hv0. cbn.
    eexists. split; [reflexivity|]. split.
    + right. exists ev. split; [reflexivity|]. split; [reflexivity|].
      split; intros ->; auto.
    + intros Hr. specialize (Heq Hr). discriminate.
  - exists m. split; [reflexivity|]. split; [left; reflexivity|reflexivity].
Qed.

Lemma cqm_reports_the_side_of_the_threshold_witness :
  rsi_perform_cqm [] (-70) (Scenario.monitoring (-70) 5)
  = Some (tt, Scenario.monitoring (-70) 5).
Proof.
  destruct (cqm_reports_the_side_of_the_threshold [] (-70)
              (Scenario.monitoring (-70) 5) (Some 1%N) eq_refl)
    as (m' & Hrun & _ & Heq).
  rewrite Hrun. rewrite (Heq eq_refl). reflexivity.
Defined.

(** ** The WEP test *)

(** X12.  [rsi_is_cipher_wep] follows the key life cycle: it is false
    right after [sta_remove]; after [sta_remove], a successful SET of a
    WEP group key makes it true; and any successful SET of a pairwise key
    with a cipher other than 0 makes it false. *)
Theorem cipher_wep_follows_keys cc vif k m :
  arrays_ok m ->
  exists m0,
    rsi_mac80211_sta_remove cc vif m = Some (0, m0)
    /\ rsi_is_cipher_wep (common_of m0) = false
    /\ (forall k' m1,
          rsi_mac80211_set_key cc SET_KEY vif k m0 = Some (0, k', m1) ->
          pairwise_flag k = false ->
          cipher k = WLAN_CIPHER_SUITE_WEP40
          \/ cipher k = WLAN_CIPHER_SUITE_WEP104 ->
          rsi_is_cipher_wep (common_of m1) = true)
    /\ (forall k' m1,
          rsi_mac80211_set_key cc SET_KEY vif k m = Some (0, k', m1) ->
          pairwise_flag k = true -> cipher k <> 0 ->
          rsi_is_cipher_wep (common_of m1) = false).
Proof.
  intros Hok.
  destruct (sta_remove_clears cc vif m Hok) as (m0 & Hrun & Hp & Hg & _).
  exists m0. split; [exact Hrun|].
  unfold pairwise_cipher, group_cipher in Hp, Hg.
  split; [|split].
  - unfold rsi_is_cipher_wep. rewrite Hg. reflexivity.
  - intros k' m1 Hset Hpw Hwep.
    destruct (set_key_SET cc vif k m0)
      as (st & k2 & m2 & Hrun2 & _ & _ & Hok2 & _).
    rewrite Hset in Hrun2. injection Hrun2 as <- <- <-.
    destruct (proj2 (Hok2 eq_refl) Hpw) as [Hg1 Hp1].
    unfold pairwise_cipher, group_cipher in Hg1, Hp1.
    unfold rsi_is_cipher_wep. rewrite Hg1, Hp1, Hp.
    destruct Hwep as [-> | ->]; reflexivity.
  - intros k' m1 Hset Hpw Hne.
    destruct (set_key_SET cc vif k m)
      as (st & k2 & m2 & Hrun2 & _ & _ & Hok2 & _).
    rewrite Hset in Hrun2. injection Hrun2 as <- <- <-.
    destruct (proj1 (Hok2 eq_refl) Hpw) as [Hp1 _].
    unfold pairwise_cipher in Hp1.
    unfold rsi_is_cipher_wep. rewrite Hp1.
    apply Z.eqb_neq in Hne. rewrite Hne. apply andb_false_r.
Qed.

Lemma cipher_wep_follows_keys_witness :
  exists m0 k' m1,
    rsi_mac80211_sta_remove (Scenario.answers 0) 1 Scenario.keyed
    = Some (0, m0)
    /\ rsi_is_cipher_wep (common_of m0) = false
    /\ rsi_mac80211_set_key (Scenario.answers 0) SET_KEY 1
         Cases.wep_group_key m0 = Some (0, k', m1)
    /\ rsi_is_cipher_wep (common_of m1) = true.
Proof.
  destruct (cipher_wep_follows_keys (Scenario.answers 0) 1
              Cases.wep_group_key Scenario.keyed)
    as (m0 & Hrun & Hfalse & Hwep & _).
  - split; reflexivity.
  - destruct (rsi_mac80211_set_key (Scenario.answers 0) SET_KEY 1
                Cases.wep_group_key m0) as [[[st k'] m1]|] eqn:E.
    + assert (Hst : st = 0).
      { vm_compute in Hrun. injection Hrun as <-.
        vm_compute in E. injection E as <- _ _. reflexivity. }
      subst st. exists m0, k', m1. repeat split; try assumption.
      apply (Hwep k' m1 eq_refl); [reflexivity|left; reflexivity].
    + vm_compute in Hrun. injection Hrun as <-. vm_compute in E.
      discriminate.
Defined.

(** ** Antenna *)

Ltac unfold_d :=
  unfold dbind, dret, dfault, dderef, get_more, put_more, record, lift,
    more_send in *.

(** X13.  [set_antenna] rejects any selector above 1 with [-EINVAL] and
    does nothing.  Otherwise, when the antenna asked for is the one in use
    it sends nothing and returns 0; when it differs it sends one
    antenna-select command: on success the new antenna becomes the one in
    use and 0 is returned, on failure [-EINVAL] is returned, not the status
    of the command, and the antenna in use stays. *)
Theorem set_antenna_outcomes mc sel_int sel_ufl tx_ant rx_ant d :
  let antenna := if negb (tx_ant =? 0) then sel_ufl else sel_int in
  let st := mc (more_trace d) (FW_SET_ANTENNA antenna) in
  (1 < tx_ant \/ 1 < rx_ant ->
   rsi_mac80211_set_antenna mc sel_int sel_ufl tx_ant rx_ant d
   = Some (- EINVAL, d))
  /\ (tx_ant <= 1 -> rx_ant <= 1 -> ant_in_use (more d) = antenna ->
      exists d',
        rsi_mac80211_set_antenna mc sel_int sel_ufl tx_ant rx_ant d
        = Some (0, d')
        /\ more_trace d' = more_trace d
        /\ ant_in_use (more d') = antenna
        /\ core d' = core d)
  /\ (tx_ant <= 1 -> rx_ant <= 1 -> ant_in_use (more d) <> antenna ->
      exists d',
        rsi_mac80211_set_antenna mc sel_int sel_ufl tx_ant rx_ant d
        = Some (if st =? 0 then 0 else - EINVAL, d')
        /\ more_trace d' = more_trace d ++ [MFw (FW_SET_ANTENNA antenna) st]
        /\ ant_in_use (more d')
           = (if st =? 0 then antenna else ant_in_use (more d))
        /\ core d' = core d).
Proof.
  cbn zeta. unfold rsi_mac80211_set_antenna, rsi_set_antenna.
  split; [|split].
  - intros H.
    assert (Hb : (tx_ant >? 1) || (rx_ant >? 1) = true).
    { apply orb_true_iff. rewrite !Z.gtb_gt. lia. }
    rewrite Hb. reflexivity.
  - intros Ht Hr Hsame.
    assert (Hb : (tx_ant >? 1) || (rx_ant >? 1) = false).
    { apply orb_false_iff. rewrite !Z.gtb_ltb, !Z.ltb_ge. lia. }
    rewrite Hb. unfold_d. rewrite Hsame, Z.eqb_refl. cbn.
    eexists. split; [reflexivity|]. repeat split.
  - intros Ht Hr Hdiff.
    assert (Hb : (tx_ant >? 1) || (rx_ant >? 1) = false).
    { apply orb_false_iff. rewrite !Z.gtb_ltb, !Z.ltb_ge. lia. }
    rewrite Hb. unfold_d. apply Z.eqb_neq in Hdiff. rewrite Hdiff. cbn.
    destruct (mc (more_trace d) _ =? 0); cbn;
      (eexists; split; [reflexivity|]; repeat split).
Qed.

Lemma set_antenna_outcomes_witness :
  rsi_mac80211_set_antenna (Cases.more_answers 0) 2 3 2 0
    (Cases.driver_of Scenario.with_station)
  = Some (- EINVAL, Cases.driver_of Scenario.with_station)
  /\ exists d',
       rsi_mac80211_set_antenna (Cases.more_answers (-5)) 2 3 1 0
         (Cases.driver_of Scenario.with_station) = Some (- EINVAL, d')
       /\ more_trace d' = [MFw (FW_SET_ANTENNA 3) (-5)]
       /\ ant_in_use (more d') = 2.
Proof.
  destruct (set_antenna_outcomes (Cases.more_answers (-5)) 2 3 1 0
              (Cases.driver_of Scenario.with_station))
    as (_ & _ & Hfail).
  destruct (set_antenna_outcomes (Cases.more_answers 0) 2 3 2 0
              (Cases.driver_of Scenario.with_station))
    as (Hbad & _).
  split.
  - apply Hbad. left. reflexivity.
  - destruct Hfail as (d' & Hrun & Htr & Hant & _);
      [discriminate|discriminate|discriminate|].
    exists d'. auto.
Defined.

Lemma set_antenna_success mc sel_int sel_ufl tx_ant rx_ant d d' :
  rsi_mac80211_set_antenna mc sel_int sel_ufl tx_ant rx_ant d = Some (0, d') ->
  tx_ant <= 1
  /\ ant_in_use (more d')
     = (if negb (tx_ant =? 0) then sel_ufl else sel_int).
Proof.
  unfold rsi_mac80211_set_antenna, rsi_set_antenna.
  destruct ((tx_ant >? 1) || (rx_ant >? 1)) eqn:Hb;
    [intros H; discriminate H|].
  apply orb_false_iff in Hb. rewrite !Z.gtb_ltb, !Z.ltb_ge in Hb.
  unfold_d.
  destruct (ant_in_use (more d)
            =? (if negb (tx_ant =? 0) then sel_ufl else sel_int)) eqn:E.
  - cbn. intros H. injection H as <-. split; [lia|reflexivity].
  - cbn. destruct (mc (more_trace d) _ =? 0); cbn; intros H;
      [|discriminate H].
    injection H as <-. split; [lia|reflexivity].
Qed.

(** X14.  Round trip of the antenna selector: provided the two antenna
    codes differ, after a [set_antenna] that returned success
    [get_antenna] answers the transmit selector that was set, and 0 for
    the receive selector whatever was set. *)
Theorem get_antenna_after_set mc sel_int sel_ufl tx_ant rx_ant d d' :
  sel_ufl <> sel_int ->
  0 <= tx_ant ->
  rsi_mac80211_set_antenna mc sel_int sel_ufl tx_ant rx_ant d = Some (0, d') ->
  rsi_mac80211_get_antenna sel_ufl d' = Some ((0, tx_ant, 0), d').
Proof.
  intros Hne Hpos Hset.
  destruct (set_antenna_success _ _ _ _ _ _ _ Hset) as [Ht Hant].
  unfold rsi_mac80211_get_antenna. unfold_d. rewrite Hant.
  destruct (Z.eqb_spec tx_ant 0) as [->|Hnz]; cbn.
  - apply Z.eqb_neq in Hne. rewrite Z.eqb_sym, Hne. reflexivity.
  - rewrite Z.eqb_refl. replace tx_ant with 1 by lia. reflexivity.
Qed.

Lemma get_antenna_after_set_witness :
  exists d',
    rsi_mac80211_set_antenna (Cases.more_answers 0) 2 3 1 1
      (Cases.driver_of Scenario.with_station) = Some (0, d')
    /\ rsi_mac80211_get_antenna 3 d' = Some ((0, 1, 0), d').
Proof.
  destruct (rsi_mac80211_set_antenna (Cases.more_answers 0) 2 3 1 1
              (Cases.driver_of Scenario.with_station)) as [[st d']|] eqn:E;
    [|vm_compute in E; discriminate].
  assert (Hst : st = 0).
  { vm_compute in E. injection E as <- _. reflexivity. }
  subst st. exists d'. split; [reflexivity|].
  apply (get_antenna_after_set (Cases.more_answers 0) 2 3 1 1
           (Cases.driver_of Scenario.with_station) d');
    [discriminate|discriminate|exact E].
Defined.

(** ** Rates *)

Lemma tstmask_bit x i : 0 <= i -> tstmask x (BIT i) = Z.testbit x i.
Proof.
  intros Hi. unfold tstmask, BIT. rewrite Z.shiftl_1_l.
  destruct (Z.testbit x i) eqn:E.
  - apply negb_true_iff, Z.eqb_neq. intros H.
    assert (Z.testbit (Z.land x (2 ^ i)) i = false) by (rewrite H; apply Z.bits_0).
    rewrite Z.land_spec, E, Z.pow2_bits_true in H0 by lia. discriminate.
  - apply negb_false_iff, Z.eqb_eq. apply Z.bits_inj'. intros n Hn.
    rewrite Z.land_spec, Z.bits_0.
    destruct (Z.eq_dec n i) as [->|Hne].
    + rewrite E. reflexivity.
    + rewrite Z.pow2_bits_false by lia. apply andb_false_r.
Qed.

Lemma first_rate_some x : forall n ii i,
  first_rate x ii n = Some i ->
  (ii <= i < ii + n)%nat
  /\ Z.testbit x (Z.of_nat i) = true
  /\ forall j, (ii <= j < i)%nat -> Z.testbit x (Z.of_nat j) = false.
Proof.
  induction n as [|n IH]; intros ii i H; cbn in H; [discriminate|].
  rewrite tstmask_bit in H by lia.
  destruct (Z.testbit x (Z.of_nat ii)) eqn:E.
  - injection H as <-. repeat split; try lia. exact E.
  - destruct (IH _ _ H) as (Hr & Hb & Hlow).
    repeat split; try lia; [exact Hb|].
    intros j Hj. destruct (Nat.eq_dec j ii) as [->|Hne]; [exact E|].
    apply Hlow. lia.
Qed.

Lemma first_rate_none x : forall n ii,
  first_rate x ii n = None <->
  forall j, (ii <= j < ii + n)%nat -> Z.testbit x (Z.of_nat j) = false.
Proof.
  induction n as [|n IH]; intros ii; cbn.
  - split; [intros _ j Hj; lia|reflexivity].
  - rewrite tstmask_bit by lia.
    destruct (Z.testbit x (Z.of_nat ii)) eqn:E.
    + split; [discriminate|]. intros H. rewrite H in E by lia. discriminate.
    + rewrite IH. split; intros H j Hj.
      * destruct (Nat.eq_dec j ii) as [->|Hne]; [exact E|]. apply H. lia.
      * apply H. lia.
Qed.

Lemma first_rate_lowest x n i :
  lowest_set x 0 n i -> first_rate x 0 n = Some i.
Proof.
  intros (Hi & Hb & Hlow). cbn [Nat.add] in Hb, Hlow.
  destruct (first_rate x 0 n) as [k|] eqn:E.
  - destruct (first_rate_some x n 0 k E) as (Hr & Hkb & Hklow).
    f_equal. destruct (Nat.lt_trichotomy k i) as [Hlt|[->|Hgt]];
      [|reflexivity|].
    + rewrite (Hlow k Hlt) in Hkb. discriminate.
    + rewrite Hklow in Hb by lia. discriminate.
  - rewrite first_rate_none in E. rewrite E in Hb by lia. discriminate.
Qed.

Lemma lowest_set_shift x i :
  lowest_set x 12 8 i -> lowest_set (Z.shiftr x 12) 0 8 i.
Proof.
  intros (Hi & Hb & Hlow). split; [exact Hi|]. split.
  - rewrite Z.shiftr_spec by lia. rewrite <- Hb. f_equal. lia.
  - intros j Hj. rewrite Z.shiftr_spec by lia. rewrite <- (Hlow j Hj).
    f_equal. lia.
Qed.

Lemma none_set_first_rate x n : none_set x 0 n -> first_rate x 0 n = None.
Proof. intros H. apply first_rate_none. intros j Hj. apply H. lia. Qed.

Lemma none_set_shift x : none_set x 12 8 -> none_set (Z.shiftr x 12) 0 8.
Proof.
  intros H j Hj. rewrite Z.shiftr_spec by lia. rewrite <- (H j Hj).
  f_equal. lia.
Qed.

Lemma mask_fff_clear x :
  tstmask x 0xfff = false -> first_rate x 0 12 = None.
Proof.
  intros H. apply first_rate_none. intros j Hj.
  unfold tstmask in H. apply negb_false_iff, Z.eqb_eq in H.
  assert (Hb : Z.testbit (Z.land x 0xfff) (Z.of_nat j) = false)
    by (rewrite H; apply Z.bits_0).
  rewrite Z.land_spec in Hb.
  assert (Hm : Z.testbit 0xfff (Z.of_nat j) = true).
  { do 12 (destruct j as [|j]; [reflexivity|]). lia. }
  rewrite Hm, andb_true_r in Hb. exact Hb.
Qed.

Lemma shift_zero_clear x n :
  (Z.shiftr x 12 =? 0) = true -> first_rate (Z.shiftr x 12) 0 n = None.
Proof.
  intros H. apply Z.eqb_eq in H. rewrite H. apply first_rate_none.
  intros j _. apply Z.bits_0.
Qed.

Lemma core_with_core m d : core (with_core m d) = m.
Proof. reflexivity. Qed.

Lemma more_with_core m d : more (with_core m d) = more d.
Proof. reflexivity. Qed.

Lemma more_trace_with_core m d : more_trace (with_core m d) = more_trace d.
Proof. reflexivity. Qed.

Lemma with_core_with_core m m' d :
  with_core m (with_core m' d) = with_core m d.
Proof. reflexivity. Qed.

Lemma vif_info_set_min_rate r c : vif_info (set_min_rate r c) = vif_info c.
Proof. reflexivity. Qed.

Lemma vif_info_set_bitrate_mask f c :
  vif_info (set_bitrate_mask f c) = vif_info c.
Proof. reflexivity. Qed.

Ltac simp_d :=
  repeat
    (first
       [ rewrite core_with_core | rewrite more_with_core
       | rewrite more_trace_with_core | rewrite with_core_with_core
       | rewrite common_of_with_common | rewrite common_of_with_trace
       | rewrite vif_info_set_min_rate | rewrite vif_info_set_bitrate_mask
       | match goal with
         | |- context [[?x] !! 0%nat] => change ([x] !! 0%nat) with (Some x)
         end
       | progress cbn -[first_rate lookup Z.land Z.shiftr tstmask rsi_rates
                          rsi_mcsrates] ]).

Lemma set_min_rate_run rc sta d ch i0 :
  conf_chan (conf (hw (core d))) = Some ch ->
  vif_info (common_of (core d)) = [i0] ->
  exists d' r,
    rsi_set_min_rate rc sta d = Some (tt, d')
    /\ chosen_rate rc (Z.land (fixedrate_mask (more d) (band ch))
                         (supp_rates sta (band ch))) (ht_supported sta)
       = Some r
    /\ min_rate (common_of (core d')) = r
    /\ vif_info (common_of (core d')) = [set_is_ht (ht_supported sta) i0]
    /\ bitrate_mask (common_of (core d')) (band ch) = supp_rates sta (band ch)
    /\ more d' = more d
    /\ more_trace d' = more_trace d
    /\ trace (core d') = trace (core d).
Proof.
  intros Hch Hi.
  unfold rsi_set_min_rate, conf_band, put_min_rate, chosen_rate.
  unfold_d. unfold_m.
  cbn -[first_rate lookup Z.land Z.shiftr tstmask rsi_rates rsi_mcsrates].
  rewrite Hch.
  cbn -[first_rate lookup Z.land Z.shiftr tstmask rsi_rates rsi_mcsrates].
  set (bm := Z.land (fixedrate_mask (more d) (band ch))
               (supp_rates sta (band ch))).
  change (length rsi_rates) with 12%nat.
  change (length rsi_mcsrates) with 8%nat.
  assert (Hupd : forall (f : nl80211_band -> Z) b x, upd f b x b = x).
  { intros f b x. unfold upd. destruct (decide (b = b)); congruence. }
  (* the legacy scan *)
  assert (Hleg :
    (tstmask bm 4095 = true /\ exists ii r,
        first_rate bm 0 12 = Some ii /\ rsi_rates !! ii = Some r)
    \/ first_rate bm 0 12 = None).
  { destruct (first_rate bm 0 12) as [ii|] eqn:Hf; [|right; reflexivity].
    left. split.
    - destruct (tstmask bm 4095) eqn:Hg; [reflexivity|].
      rewrite (mask_fff_clear bm Hg) in Hf. discriminate.
    - destruct (first_rate_some bm 12 0 ii Hf) as (Hr & _).
      destruct (lookup_lt_is_Some_2 rsi_rates ii) as [r Hr'];
        [cbn; lia|]. eauto. }
  assert (Hmcs :
    (exists ii r, first_rate (Z.shiftr bm 12) 0 8 = Some ii
                  /\ negb (Z.shiftr bm 12 =? 0) = true
                  /\ rsi_mcsrates !! ii = Some r)
    \/ first_rate (Z.shiftr bm 12) 0 8 = None).
  { destruct (first_rate (Z.shiftr bm 12) 0 8) as [ii|] eqn:Hf;
      [|right; reflexivity].
    left. exists ii.
    destruct (first_rate_some _ 8 0 ii Hf) as (Hr & _).
    destruct (lookup_lt_is_Some_2 rsi_mcsrates ii) as [r Hr'];
      [cbn; lia|].
    exists r. repeat split; [|exact Hr'].
    destruct (Z.shiftr bm 12 =? 0) eqn:Hz; [|reflexivity].
    rewrite (shift_zero_clear bm 8 Hz) in Hf. discriminate. }
  destruct Hleg as [(Hg & ii & r & Hf & Hr) | Hf];
    destruct Hmcs as [(jj & r2 & Hf2 & Hnz & Hr2) | Hf2];
    rewrite ?Hg, ?Hf, ?Hf2;
    try (destruct (tstmask bm 4095));
    simp_d; rewrite ?Hr; simp_d; rewrite ?Hi; simp_d;
    rewrite ?Hnz; rewrite ?Hf2;
    destruct (ht_supported sta); simp_d;
    try (destruct (negb (Z.shiftr bm 12 =? 0))); simp_d;
    rewrite ?Hr2; simp_d; rewrite ?Hi; simp_d;
    (eexists _, _; split; [reflexivity|]; split; [reflexivity|]);
    simp_d; rewrite ?Hupd; repeat split.
Qed.

Lemma sta_add_run rc vif sta d ch i0 :
  conf_chan (conf (hw (core d))) = Some ch ->
  vif_info (common_of (core d)) = [i0] ->
  exists d' r,
    rsi_mac80211_sta_add rc vif sta d = Some (0, d')
    /\ chosen_rate rc (Z.land (fixedrate_mask (more d) (band ch))
                         (supp_rates sta (band ch))) (ht_supported sta)
       = Some r
    /\ cached_min_rate d' = r
    /\ slot0 d'
       = Some {| is_ht := ht_supported sta;
                 sgi := sgi i0
                        || (tstmask (ht_cap sta) IEEE80211_HT_CAP_SGI_20
                            || tstmask (ht_cap sta) IEEE80211_HT_CAP_SGI_40);
                 seq_start := seq_start i0 |}
    /\ more d' = more d
    /\ more_trace d'
       = more_trace d
         ++ (if ht_supported sta then [START_TX_BA_SESSION 0 0] else [])
    /\ trace (core d') = trace (core d).
Proof.
  intros Hch Hi.
  destruct (set_min_rate_run rc sta d ch i0 Hch Hi)
    as (d1 & r & Hrun & Hchosen & Hmin & Hinfo & _ & Hmore & Hmt & Htr).
  unfold rsi_mac80211_sta_add, cached_min_rate, slot0.
  unfold dbind at 1. rewrite Hrun.
  unfold_d. unfold_m.
  destruct (tstmask (ht_cap sta) IEEE80211_HT_CAP_SGI_20
            || tstmask (ht_cap sta) IEEE80211_HT_CAP_SGI_40);
    destruct (ht_supported sta) eqn:Hht;
    simp_d; rewrite ?Hinfo; simp_d; rewrite ?Hinfo; simp_d;
    (eexists _, _; split; [reflexivity|]; split; [exact Hchosen|]);
    simp_d; rewrite ?Hinfo, ?app_nil_r, ?orb_true_r, ?orb_false_r;
    repeat split;
    first [assumption | exact Hmin | exact Hmore | exact Htr
          | rewrite Hmt; reflexivity | reflexivity].
Qed.

(** X15.  The minimum rate cached for a new peer is the code of the lowest
    rate that is both in the fixed-rate mask of the current band and among
    the peer's supported rates: for an HT peer the lowest such
    modulation-and-coding rate (bits 12 to 19), which takes precedence;
    otherwise the lowest such legacy rate (bits 0 to 11); and [0xffff] when
    there is none. *)
Theorem min_rate_is_lowest_common_rate rc sta d ch :
  conf_chan (conf (hw (core d))) = Some ch ->
  arrays_ok (core d) ->
  let bm := Z.land (fixedrate_mask (more d) (band ch))
              (supp_rates sta (band ch)) in
  exists d',
    rsi_set_min_rate rc sta d = Some (tt, d')
    /\ (forall i,
          ht_supported sta = true -> lowest_set bm 12 8 i ->
          Some (cached_min_rate d') = rc <$> rsi_mcsrates !! i)
    /\ (forall i,
          ht_supported sta = false \/ none_set bm 12 8 ->
          lowest_set bm 0 12 i ->
          Some (cached_min_rate d') = rc <$> rsi_rates !! i)
    /\ (ht_supported sta = false \/ none_set bm 12 8 ->
        none_set bm 0 12 ->
        cached_min_rate d' = 0xffff).
Proof.
  intros Hch Hok bm.
  destruct (arrays_ok_vif_info (core d) Hok) as [i0 Hi].
  destruct (set_min_rate_run rc sta d ch i0 Hch Hi)
    as (d' & r & Hrun & Hchosen & Hmin & _).
  fold bm in Hchosen. unfold chosen_rate in Hchosen.
  exists d'. split; [exact Hrun|]. unfold cached_min_rate. rewrite Hmin.
  assert (Hnone :
    ht_supported sta = false \/ none_set bm 12 8 ->
    (if ht_supported sta then first_rate (Z.shiftr bm 12) 0 8 else None)
    = None).
  { intros [-> | Hn]; [reflexivity|].
    destruct (ht_supported sta); [|reflexivity].
    apply none_set_first_rate, none_set_shift, Hn. }
  split; [|split].
  - intros i Hht Hlow. rewrite Hht in Hchosen.
    rewrite (first_rate_lowest _ 8 i (lowest_set_shift bm i Hlow)) in Hchosen.
    congruence.
  - intros i Hno Hlow. rewrite (Hnone Hno) in Hchosen.
    rewrite (first_rate_lowest bm 12 i Hlow) in Hchosen. congruence.
  - intros Hno Hleg. rewrite (Hnone Hno) in Hchosen.
    rewrite (none_set_first_rate bm 12 Hleg) in Hchosen. congruence.
Qed.

(** A mask of the four rates 6 to 18 Mb/s and a peer without HT that
    supports every rate: the rate of 6 Mb/s is cached. *)
Lemma min_rate_is_lowest_common_rate_witness :
  exists d',
    rsi_set_min_rate Cases.rate_codes (Cases.peer 0xfffff false 0)
      (Cases.with_fixed_rates 0x0f0) = Some (tt, d')
    /\ cached_min_rate d' = Cases.rate_codes RSI_RATE_6.
Proof.
  destruct (min_rate_is_lowest_common_rate Cases.rate_codes
              (Cases.peer 0xfffff false 0) (Cases.with_fixed_rates 0x0f0)
              Scenario.channel_1 eq_refl)
    as (d' & Hrun & _ & Hleg & _).
  - split; reflexivity.
  - exists d'. split; [exact Hrun|].
    assert (H : Some (cached_min_rate d')
                = Cases.rate_codes <$> rsi_rates !! 4%nat).
    { apply Hleg; [left; reflexivity|].
      split; [lia|]. split; [reflexivity|].
      intros j Hj. do 4 (destruct j as [|j]; [reflexivity|]). lia. }
    injection H as ->. reflexivity.
Defined.

Lemma set_rate_mask_run vif mask d ch :
  conf_chan (conf (hw (core d))) = Some ch ->
  exists d',
    rsi_mac80211_set_rate_mask vif mask d = Some (0, d')
    /\ fixedrate_mask (more d') (band ch)
       = (if legacy (mask (band ch)) =? 0xfff
          then to_u32 (Z.shiftl (ht_mcs_0 (mask (band ch))) 12)
          else legacy (mask (band ch)))
    /\ (forall b, b <> band ch ->
                  fixedrate_mask (more d') b = fixedrate_mask (more d) b)
    /\ core d' = core d
    /\ more_trace d' = more_trace d.
Proof.
  intros Hch. unfold rsi_mac80211_set_rate_mask, conf_band.
  unfold_d. unfold_m. cbn -[Z.shiftl to_u32]. rewrite Hch. cbn -[Z.shiftl to_u32].
  eexists. split; [reflexivity|]. cbn -[Z.shiftl to_u32]. unfold upd.
  split; [|split; [|split]].
  - destruct (decide (band ch = band ch)); congruence.
  - intros b Hb. destruct (decide (b = band ch)); congruence.
  - destruct d; reflexivity.
  - reflexivity.
Qed.

Lemma shifted_mask_has_no_legacy_bit x y :
  tstmask (Z.land (to_u32 (Z.shiftl x 12)) y) 0xfff = false.
Proof.
  unfold tstmask. apply negb_false_iff, Z.eqb_eq.
  apply Z.bits_inj'. intros n Hn. rewrite !Z.land_spec, Z.bits_0.
  destruct (Z_lt_le_dec n 12) as [Hlt|Hge].
  - unfold to_u32. rewrite Z.mod_pow2_bits_low by lia.
    rewrite Z.shiftl_spec_low by lia. reflexivity.
  - replace (Z.testbit 4095 n) with false; [apply andb_false_r|].
    symmetry. change 4095 with (Z.ones 12). apply Z.ones_spec_high. lia.
Qed.

(** X16.  [set_rate_mask] keeps, for the current band, the legacy rates
    asked for, unless all twelve are asked for ([0xfff]): then it keeps the
    first byte of the MCS mask, moved to bits 12 to 19, and no legacy rate.
    A peer without HT that is added after such a call gets no minimum rate
    ([0xffff]), whatever rates it supports. *)
Theorem full_legacy_mask_drops_legacy_rates rc vif mask sta d ch :
  conf_chan (conf (hw (core d))) = Some ch ->
  arrays_ok (core d) ->
  exists d1,
    rsi_mac80211_set_rate_mask vif mask d = Some (0, d1)
    /\ (legacy (mask (band ch)) <> 0xfff ->
        fixedrate_mask (more d1) (band ch) = legacy (mask (band ch)))
    /\ (legacy (mask (band ch)) = 0xfff ->
        fixedrate_mask (more d1) (band ch)
        = to_u32 (Z.shiftl (ht_mcs_0 (mask (band ch))) 12)
        /\ (ht_supported sta = false ->
            exists d2,
              rsi_mac80211_sta_add rc vif sta d1 = Some (0, d2)
              /\ cached_min_rate d2 = 0xffff)).
Proof.
  intros Hch Hok.
  destruct (set_rate_mask_run vif mask d ch Hch)
    as (d1 & Hrun & Hmask & _ & Hcore & _).
  exists d1. split; [exact Hrun|]. split.
  - intros Hne. apply Z.eqb_neq in Hne. rewrite Hne in Hmask. exact Hmask.
  - intros Hfull. rewrite Hfull in Hmask. cbn [Z.eqb Pos.eqb] in Hmask.
    split; [exact Hmask|]. intros Hht.
    destruct (arrays_ok_vif_info (core d) Hok) as [i0 Hi].
    rewrite <- Hcore in Hch, Hi.
    destruct (sta_add_run rc vif sta d1 ch i0 Hch Hi)
      as (d2 & r & Hadd & Hchosen & Hmin & _).
    exists d2. split; [exact Hadd|]. rewrite Hmin.
    unfold chosen_rate in Hchosen. rewrite Hht, Hmask in Hchosen.
    rewrite (mask_fff_clear _ (shifted_mask_has_no_legacy_bit _ _)) in Hchosen.
    congruence.
Qed.

Lemma full_legacy_mask_drops_legacy_rates_witness :
  exists d1 d2,
    rsi_mac80211_set_rate_mask 1 (Cases.rate_mask 0xfff 0xff)
      (Cases.driver_of Scenario.with_station) = Some (0, d1)
    /\ fixedrate_mask (more d1) NL80211_BAND_2GHZ = 0xff000
    /\ rsi_mac80211_sta_add Cases.rate_codes 1 (Cases.peer 0xfff false 0) d1
       = Some (0, d2)
    /\ cached_min_rate d2 = 0xffff.
Proof.
  destruct (full_legacy_mask_drops_legacy_rates Cases.rate_codes 1
              (Cases.rate_mask 0xfff 0xff) (Cases.peer 0xfff false 0)
              (Cases.driver_of Scenario.with_station) Scenario.channel_1
              eq_refl) as (d1 & Hrun & _ & Hfull).
  - split; reflexivity.
  - destruct (Hfull eq_refl) as (Hmask & Hadd).
    destruct (Hadd eq_refl) as (d2 & Hrun2 & Hmin).
    exists d1, d2. auto.
Defined.

(** X17.  [sta_add] always returns 0.  It sets the HT flag of slot 0 to the
    peer's, raises the short-guard-interval flag when the peer has it for
    20 or for 40 MHz and never lowers it, keeps the recorded starting
    sequence number, and asks mac80211 to start a TX block-ack session for
    TID 0 exactly when the peer supports HT.  It sends nothing to the
    firmware. *)
Theorem sta_add_flags rc vif sta d ch i0 :
  conf_chan (conf (hw (core d))) = Some ch ->
  arrays_ok (core d) ->
  slot0 d = Some i0 ->
  exists d',
    rsi_mac80211_sta_add rc vif sta d = Some (0, d')
    /\ slot0 d'
       = Some {| is_ht := ht_supported sta;
                 sgi := sgi i0
                        || (tstmask (ht_cap sta) IEEE80211_HT_CAP_SGI_20
                            || tstmask (ht_cap sta) IEEE80211_HT_CAP_SGI_40);
                 seq_start := seq_start i0 |}
    /\ more_trace d'
       = more_trace d
         ++ (if ht_supported sta then [START_TX_BA_SESSION 0 0] else [])
    /\ trace (core d') = trace (core d).
Proof.
  intros Hch Hok Hslot.
  destruct (arrays_ok_vif_info (core d) Hok) as [i Hi].
  unfold slot0 in Hslot. rewrite Hi in Hslot. injection Hslot as ->.
  destruct (sta_add_run rc vif sta d ch i0 Hch Hi)
    as (d' & r & Hadd & _ & _ & Hs & _ & Hmt & Htr).
  exists d'. auto.
Qed.

Lemma sta_add_flags_witness :
  exists d',
    rsi_mac80211_sta_add Cases.rate_codes 1 (Cases.peer 0xfff true 0x40)
      (Cases.driver_of Scenario.with_station) = Some (0, d')
    /\ slot0 d' = Some {| is_ht := true; sgi := true; seq_start := 0 |}
    /\ more_trace d' = [START_TX_BA_SESSION 0 0].
Proof.
  destruct (sta_add_flags Cases.rate_codes 1 (Cases.peer 0xfff true 0x40)
              (Cases.driver_of Scenario.with_station) Scenario.channel_1
              {| is_ht := false; sgi := false; seq_start := 0 |} eq_refl)
    as (d' & Hrun & Hslot & Hmt & _).
  - split; reflexivity.
  - reflexivity.
  - exists d'. auto.
Defined.

(** ** Regulatory notification *)

Lemma tstmask_lor_other x i j :
  0 <= i -> 0 <= j -> i <> j ->
  tstmask (Z.lor x (BIT j)) (BIT i) = tstmask x (BIT i).
Proof.
  intros Hi Hj Hne. rewrite !tstmask_bit by lia.
  rewrite Z.lor_spec. unfold BIT. rewrite Z.shiftl_1_l.
  rewrite Z.pow2_bits_false by lia. apply orb_false_r.
Qed.

Lemma restrict_radar_cases ch :
  band (restrict_radar ch) = band ch
  /\ center_freq (restrict_radar ch) = center_freq ch
  /\ hw_value (restrict_radar ch) = hw_value ch
  /\ (tstmask (chan_flags ch) IEEE80211_CHAN_DISABLED = true ->
      restrict_radar ch = ch)
  /\ (tstmask (chan_flags ch) IEEE80211_CHAN_RADAR = false ->
      restrict_radar ch = ch)
  /\ (tstmask (chan_flags ch) IEEE80211_CHAN_DISABLED = false ->
      tstmask (chan_flags ch) IEEE80211_CHAN_RADAR = true ->
      chan_flags (restrict_radar ch)
      = Z.lor (chan_flags ch) IEEE80211_CHAN_NO_IR
      /\ tstmask (chan_flags (restrict_radar ch)) IEEE80211_CHAN_NO_IR = true).
Proof.
  unfold restrict_radar.
  destruct (tstmask (chan_flags ch) IEEE80211_CHAN_DISABLED) eqn:Hd;
    destruct (tstmask (chan_flags ch) IEEE80211_CHAN_RADAR) eqn:Hr;
    repeat split; intros; try discriminate; try reflexivity.
  cbn [chan_flags set_chan_flags]. unfold IEEE80211_CHAN_NO_IR.
  rewrite tstmask_bit by lia. rewrite Z.lor_spec. apply orb_true_r.
Qed.

Lemma restrict_radar_idempotent ch :
  restrict_radar (restrict_radar ch) = restrict_radar ch.
Proof.
  unfold restrict_radar at 2 3.
  destruct (tstmask (chan_flags ch) IEEE80211_CHAN_DISABLED) eqn:Hd.
  - unfold restrict_radar. rewrite Hd. reflexivity.
  - destruct (tstmask (chan_flags ch) IEEE80211_CHAN_RADAR) eqn:Hr.
    + unfold restrict_radar. cbn [chan_flags set_chan_flags].
      unfold IEEE80211_CHAN_DISABLED, IEEE80211_CHAN_RADAR,
        IEEE80211_CHAN_NO_IR in *.
      rewrite !tstmask_lor_other by lia. rewrite Hd, Hr.
      unfold set_chan_flags. cbn. f_equal.
      rewrite <- Z.lor_assoc, Z.lor_diag. reflexivity.
    + unfold restrict_radar. rewrite Hd, Hr. reflexivity.
Qed.

(** X18.  A regulatory notification caches the two letters of the country
    and the region, which is the world region for every domain other than
    FCC, ETSI and JP.  When more than one band is supported it goes through
    the 5 GHz channels: a channel that is disabled or bears no radar is
    left as it is, any other radar channel gets the no-initiate-radiation
    flag and keeps its other flags, its number and its frequency.  With one
    band the channels are not touched.  A second notification with the same
    request changes nothing more. *)
Theorem reg_notify_restricts_radar_channels request d :
  exists d',
    rsi_reg_notify request d = Some (tt, d')
    /\ core d' = core d /\ more_trace d' = more_trace d
    /\ country (more d') = alpha2 request
    /\ region (more d') = rsi_map_region_code (dfs_region request)
    /\ (dfs_region request <> NL80211_DFS_FCC ->
        dfs_region request <> NL80211_DFS_ETSI ->
        dfs_region request <> NL80211_DFS_JP ->
        region (more d') = RSI_REGION_WORLD)
    /\ (num_supp_bands (more d) <= 1 ->
        channels_5ghz (more d') = channels_5ghz (more d))
    /\ (1 < num_supp_bands (more d) ->
        forall i ch,
          channels_5ghz (more d) !! i = Some ch ->
          exists ch',
            channels_5ghz (more d') !! i = Some ch'
            /\ hw_value ch' = hw_value ch
            /\ center_freq ch' = center_freq ch
            /\ (tstmask (chan_flags ch) IEEE80211_CHAN_DISABLED = true
                \/ tstmask (chan_flags ch) IEEE80211_CHAN_RADAR = false ->
                ch' = ch)
            /\ (tstmask (chan_flags ch) IEEE80211_CHAN_DISABLED = false ->
                tstmask (chan_flags ch) IEEE80211_CHAN_RADAR = true ->
                chan_flags ch'
                = Z.lor (chan_flags ch) IEEE80211_CHAN_NO_IR))
    /\ rsi_reg_notify request d' = Some (tt, d').
Proof.
  unfold rsi_reg_notify. unfold_d.
  eexists. split; [reflexivity|]. cbn [core more more_trace with_more].
  cbn [country region channels_5ghz num_supp_bands set_regulatory].
  split; [reflexivity|]. split; [reflexivity|]. split; [reflexivity|].
  split; [reflexivity|]. split; [|split; [|split]].
  - intros H1 H2 H3. destruct (dfs_region request); try reflexivity;
      contradiction.
  - intros Hle.
    assert (Hb : (num_supp_bands (more d) >? 1) = false)
      by (rewrite Z.gtb_ltb; apply Z.ltb_ge; lia).
    rewrite Hb. reflexivity.
  - intros Hgt i ch Hch.
    assert (Hb : (num_supp_bands (more d) >? 1) = true)
      by (apply Z.gtb_gt; lia).
    rewrite Hb. exists (restrict_radar ch).
    change (map restrict_radar (channels_5ghz (more d)))
      with (restrict_radar <$> channels_5ghz (more d)).
    rewrite list_lookup_fmap, Hch.
    destruct (restrict_radar_cases ch) as (_ & Hf & Hn & Hdis & Hrad & Hset).
    split; [reflexivity|]. split; [exact Hn|]. split; [exact Hf|]. split.
    + intros [H|H]; auto.
    + intros H1 H2. apply (Hset H1 H2).
  - destruct (num_supp_bands (more d) >? 1); [|reflexivity].
    assert (Hm : map restrict_radar
                   (map restrict_radar (channels_5ghz (more d)))
                 = map restrict_radar (channels_5ghz (more d))).
    { rewrite map_map. apply map_ext. intros ch.
      apply restrict_radar_idempotent. }
    unfold with_more, set_regulatory. cbn. rewrite Hm. reflexivity.
Qed.

(** ** The channel tables *)

(** X19.  The channel tables agree with the channel numbering of 802.11:
    every entry of the 2.4 GHz table lies in that band at 2407 + 5n MHz
    for its channel number n, but channel 14 at 2484 MHz; every entry of
    the 5 GHz table lies in that band at 5000 + 5n MHz; within each table
    the channel numbers increase strictly, so none is listed twice; and no
    entry starts with a flag set. *)
Theorem channel_tables_follow_the_numbering :
  Forall (fun ch => band ch = NL80211_BAND_2GHZ
                    /\ chan_flags ch = 0
                    /\ center_freq ch
                       = Cases.channel_to_frequency (hw_value ch) (band ch))
    rsi_2ghz_channels
  /\ Forall (fun ch => band ch = NL80211_BAND_5GHZ
                       /\ chan_flags ch = 0
                       /\ center_freq ch
                          = Cases.channel_to_frequency (hw_value ch)
                              (band ch))
       rsi_5ghz_channels
  /\ StronglySorted Z.lt (map hw_value rsi_2ghz_channels)
  /\ StronglySorted Z.lt (map hw_value rsi_5ghz_channels).
Proof.
  split; [|split; [|split]].
  - repeat constructor.
  - repeat constructor.
  - repeat (constructor; [|repeat (constructor; [reflexivity|]);
                           constructor]).
    constructor.
  - repeat (constructor; [|repeat (constructor; [reflexivity|]);
                           constructor]).
    constructor.
Qed.

(** ** Received frames *)

Lemma vif0_bss_conf_run m q v :
  vif0 m = Some (Some q) -> vif_mem m !! q = Some v ->
  vif0_bss_conf m = Some (bss_conf v, m).
Proof.
  unfold vif0, vif0_bss_conf. unfold_m. intros H1 H2. cbn. rewrite H1. cbn.
  rewrite H2. reflexivity.
Qed.

Lemma move_header_pull k hdrlen bytes moved :
  move_header k hdrlen bytes = Some moved ->
  drop k moved = take hdrlen bytes ++ drop (k + hdrlen) bytes
  /\ (length (drop k moved) + k = length bytes)%nat
  /\ take k moved = take k bytes.
Proof.
  unfold move_header. destruct (decide _) as [Hlen|]; [|discriminate].
  intros H. injection H as <-.
  assert (Hk : length (take k bytes) = k) by (rewrite length_take; lia).
  split; [|split].
  - rewrite <- Hk at 1. apply drop_app_length.
  - rewrite <- Hk at 1. rewrite drop_app_length.
    rewrite length_app, length_take, length_drop. lia.
  - rewrite <- Hk at 1. apply take_app_length.
Qed.

(* the frame-control field stays where it was: the header moves by more
   than its two bytes *)
Lemma frame_control_moved k hdrlen bytes moved fc :
  (2 <= k)%nat ->
  move_header k hdrlen bytes = Some moved ->
  frame_control bytes = Some fc -> frame_control moved = Some fc.
Proof.
  intros Hk Hm Hfc.
  destruct (move_header_pull _ _ _ _ Hm) as (_ & _ & Ht).
  destruct bytes as [|b0 [|b1 rest]]; try discriminate.
  destruct k as [|[|k]]; try lia. cbn in Ht.
  destruct moved as [|c0 [|c1 more]]; try discriminate.
  injection Ht as -> -> _. exact Hfc.
Qed.

(* what stands at the offset of the second address after the move *)
Lemma addr2_moved k hdrlen bytes moved :
  (k <= 10)%nat -> (16 <= k + hdrlen)%nat ->
  move_header k hdrlen bytes = Some moved ->
  addr2 moved = Some (take ETH_ALEN (drop (10 - k) bytes)).
Proof.
  intros Hk Hh. unfold move_header, addr2, ETH_ALEN.
  destruct (decide (k + hdrlen <= length bytes)%nat) as [Hlen|];
    [|discriminate].
  intros H. injection H as <-.
  assert (Hk' : length (take k bytes) = k) by (rewrite length_take; lia).
  assert (Hh' : length (take hdrlen bytes) = hdrlen)
    by (rewrite length_take; lia).
  destruct (decide _) as [_|Hn].
  - f_equal. rewrite drop_app_ge by lia. rewrite Hk'.
    rewrite drop_app_le by lia.
    rewrite take_app_le by (rewrite length_drop; lia).
    replace hdrlen with ((10 - k) + (hdrlen - (10 - k)))%nat at 1 by lia.
    rewrite <- take_drop_commute, take_take. f_equal. lia.
  - exfalso. apply Hn. rewrite !length_app, Hk', Hh', length_drop. lia.
Qed.

Lemma perform_cqm_returns peer rssi m p :
  vif0 m = Some p -> exists m', rsi_perform_cqm peer rssi m = Some (tt, m').
Proof.
  intros Hv. unfold rsi_perform_cqm. unfold_m. cbn.
  destruct (cqm_event _ _ _ _); [|eauto].
  unfold vif0 in Hv. destruct m as [[c a] mem tr]. cbn in *.
  rewrite Hv. eauto.
Qed.

Lemma freq_kept x : (if negb (x =? 0) then x else 0) = x.
Proof. destruct (Z.eqb_spec x 0); cbn; congruence. Qed.

(* the function as its three parts *)
Lemma fill_shape hl cf skb d fc q v :
  frame_control (skb_data skb) = Some fc ->
  vif0 (core d) = Some (Some q) ->
  vif_mem (core d) !! q = Some v ->
  let wep := rsi_is_cipher_wep (common_of (core d)) in
  rsi_fill_rx_status hl cf skb d
  = match rx_strip wep fc (hl fc) (skb_data skb) with
    | Some (bytes, flag) =>
        match rx_monitor (bss_conf v) bytes (to_s8 (- skb_rssi skb))
                (core d) with
        | Some m' =>
            Some ((drop (rx_pulled wep fc) bytes,
                   expected_status cf skb d flag),
                  with_core m' d)
        | None => None
        end
    | None => None
    end.
Proof.
  intros Hfc Hv0 Hmem. cbn zeta.
  unfold rsi_fill_rx_status, expected_status, rx_strip, rx_pulled, rx_monitor.
  do 2 unfold_d. rewrite Hfc.
  unfold get_common. cbn beta iota zeta. cbn [core with_core].
  rewrite freq_kept.
  destruct (ieee80211_has_protected fc); cbn beta iota zeta;
    [destruct (rsi_is_cipher_wep (common_of (core d))); cbn beta iota zeta;
     [destruct (move_header 4 (hl fc) (skb_data skb)) as [bytes|]
     |destruct (move_header 8 (hl fc) (skb_data skb)) as [bytes|]];
     [|reflexivity| |reflexivity]|];
    cbn beta iota zeta; cbn [core with_core];
    rewrite (vif0_bss_conf_run _ q v Hv0 Hmem);
    (destruct (assoc (bss_conf v)); [|reflexivity]);
    match goal with
    | |- context [addr2 ?b] => destruct (addr2 b) as [peer|]; [|reflexivity]
    end;
    cbn beta iota zeta; cbn [core with_core];
    (destruct (decide _); [|reflexivity]);
    match goal with
    | |- context [frame_control ?b] =>
        destruct (frame_control b) as [fc'|]; [|reflexivity]
    end;
    cbn beta iota zeta; cbn [core with_core];
    (destruct (ieee80211_is_beacon fc'); [|reflexivity]);
    unfold lift; cbn [core with_core];
    destruct (rsi_perform_cqm _ _ (core d)) as [[[] m']|]; reflexivity.
Qed.

Lemma rx_monitor_cases bss bytes signal m peer fc p :
  addr2 bytes = Some peer -> frame_control bytes = Some fc ->
  vif0 m = Some p ->
  let watched := assoc bss
                 && bool_decide (take ETH_ALEN (bssid bss) = peer)
                 && ieee80211_is_beacon fc in
  exists m',
    rx_monitor bss bytes signal m = Some m'
    /\ (watched = false -> m' = m)
    /\ (watched = true -> rsi_perform_cqm peer signal m = Some (tt, m')).
Proof.
  intros Ha Hf Hv. cbn zeta. unfold rx_monitor. rewrite Ha, Hf.
  destruct (assoc bss); cbn [andb]; [|exists m; repeat split; congruence].
  destruct (decide _) as [He|He].
  - rewrite (bool_decide_eq_true_2 _ He). cbn [andb].
    destruct (ieee80211_is_beacon fc);
      [|exists m; repeat split; congruence].
    destruct (perform_cqm_returns peer signal m p Hv) as (m' & Hm).
    rewrite Hm. exists m'. repeat split; congruence.
  - rewrite (bool_decide_eq_false_2 _ He). cbn [andb].
    exists m; repeat split; congruence.
Qed.

(** X20.  A received frame is freed, and neither looked at nor handed to
    the stack, when the device is marked down or when no interface is
    counted: the machine and the wider state stay as they are, and the only
    thing that happens is that the buffer is freed. *)
Theorem rx_dropped_when_down_or_without_interface hl cf skb d :
  iface_down (common_of (core d)) = true \/ nvifs (core d) = 0 ->
  rsi_indicate_pkt_to_os hl cf skb d
  = Some (tt, {| core := core d; more := more d;
                 more_trace := more_trace d ++ [RX_FREED skb] |}).
Proof.
  intros H. unfold rsi_indicate_pkt_to_os. unfold_d.
  unfold get_common, get_adapter, nvifs in *. cbn [core with_core].
  assert (Hc : iface_down (common_of (core d))
               || (sc_nvifs (adapter_of (core d)) =? 0) = true).
  { destruct H as [->| ->]; [reflexivity|apply orb_true_r]. }
  rewrite Hc. reflexivity.
Qed.

Lemma rx_dropped_when_down_or_without_interface_witness :
  rsi_indicate_pkt_to_os Cases.hdrlen_24 Cases.channel_to_frequency
    (Cases.received Cases.beacon 80) (Cases.driver_of Scenario.at_attach)
  = Some (tt, {| core := Scenario.at_attach; more := Cases.more_at_attach;
                 more_trace := [RX_FREED (Cases.received Cases.beacon 80)] |}).
Proof.
  apply (rx_dropped_when_down_or_without_interface Cases.hdrlen_24
           Cases.channel_to_frequency (Cases.received Cases.beacon 80)
           (Cases.driver_of Scenario.at_attach)).
  right. reflexivity.
Defined.

(** X21.  The stop handler always returns, and whatever frame arrives
    right after it is freed: stopping marks the device down, which is the
    first thing the receive path tests. *)
Theorem rx_after_stop_is_dropped cc hl cf skb d :
  exists m1,
    rsi_mac80211_stop cc (core d) = Some (tt, m1)
    /\ dbind (lift (rsi_mac80211_stop cc))
         (fun _ => rsi_indicate_pkt_to_os hl cf skb) d
       = Some (tt, {| core := m1; more := more d;
                      more_trace := more_trace d ++ [RX_FREED skb] |}).
Proof.
  assert (Hs : exists m1, rsi_mac80211_stop cc (core d) = Some (tt, m1)
                          /\ iface_down (common_of m1) = true).
  { unfold rsi_mac80211_stop, rsi_send_rx_filter_frame. unfold_m.
    destruct d as [[[c a] mem tr] x mt]. cbn. eexists. split; reflexivity. }
  destruct Hs as (m1 & Hs & Hdown). exists m1. split; [exact Hs|].
  unfold dbind at 1. unfold lift at 1. rewrite Hs.
  unfold rsi_indicate_pkt_to_os. unfold_d.
  unfold get_common, get_adapter. cbn [core with_core].
  rewrite Hdown. reflexivity.
Qed.

(** X22.  A frame without the protected bit reaches the stack byte for
    byte, with no flag set, with the negated signal strength of the device
    as an 8-bit signed signal, and with the band in use and the frequency
    of the channel it came on.  The signal monitor runs on it, once and
    with the second address of the frame, exactly when the interface in
    slot 0 is associated, that address equals the bssid and the frame is a
    beacon; otherwise the machine stays as it is.  The wider state stays
    as it is in both cases. *)
Theorem rx_monitor_only_for_beacons_of_the_bss hl cf skb d fc q v peer :
  frame_control (skb_data skb) = Some fc ->
  ieee80211_has_protected fc = false ->
  addr2 (skb_data skb) = Some peer ->
  vif0 (core d) = Some (Some q) ->
  vif_mem (core d) !! q = Some v ->
  let signal := to_s8 (- skb_rssi skb) in
  let watched := assoc (bss_conf v)
                 && bool_decide (take ETH_ALEN (bssid (bss_conf v)) = peer)
                 && ieee80211_is_beacon fc in
  exists m',
    rsi_fill_rx_status hl cf skb d
    = Some ((skb_data skb, expected_status cf skb d 0), with_core m' d)
    /\ (watched = false -> m' = core d)
    /\ (watched = true
        -> rsi_perform_cqm peer signal (core d) = Some (tt, m')).
Proof.
  intros Hfc Hp Ha Hv0 Hmem. cbn zeta.
  rewrite (fill_shape hl cf skb d fc q v Hfc Hv0 Hmem).
  unfold rx_strip, rx_pulled. rewrite Hp.
  destruct (rx_monitor_cases (bss_conf v) (skb_data skb)
              (to_s8 (- skb_rssi skb)) (core d) peer fc (Some q) Ha Hfc Hv0)
    as (m' & Hm & Hoff & Hon).
  rewrite Hm. exists m'. split; [reflexivity|]. split; assumption.
Qed.

Lemma rx_monitor_only_for_beacons_of_the_bss_witness :
  exists m',
    rsi_fill_rx_status Cases.hdrlen_24 Cases.channel_to_frequency
      (Cases.received Cases.beacon 80)
      (Cases.driver_of (Cases.listening false))
    = Some ((Cases.beacon,
             {| rx_signal := -80; rx_band := NL80211_BAND_2GHZ;
                rx_freq := 2412; rx_flag := 0 |}),
            with_core m' (Cases.driver_of (Cases.listening false)))
    /\ rsi_perform_cqm Cases.ap (-80) (Cases.listening false)
       = Some (tt, m').
Proof.
  destruct (rx_monitor_only_for_beacons_of_the_bss Cases.hdrlen_24
              Cases.channel_to_frequency (Cases.received Cases.beacon 80)
              (Cases.driver_of (Cases.listening false)) 0x80 1%N
              {| vif_type := NL80211_IFTYPE_STATION;
                 bss_conf := {| assoc := true; bssid := Cases.ap;
                                qos := false; aid := 1;
                                chandef_chan := Some Scenario.channel_1;
                                cqm_rssi_thold := -70; cqm_rssi_hyst := 5 |};
                 vif_rest := [1] |} Cases.ap
              eq_refl eq_refl eq_refl eq_refl eq_refl)
    as (m' & Hrun & _ & Hon).
  exists m'. split; [exact Hrun|]. apply Hon. reflexivity.
Defined.

(** X23.  A frame with the protected bit loses the cipher header that
    follows its frame header: 4 bytes when the cached group cipher is WEP
    and no pairwise cipher is cached, 8 bytes otherwise.  What reaches the stack is the frame header followed
    by what came after the cipher header, marked decrypted and IV-stripped,
    and MMIC-stripped as well in the 8-byte case.  The test for a
    beacon of the associated network is made after the header was moved and
    through the pointer taken before: the six bytes it compares with the
    bssid, and passes to the monitor, are those that stood 4, or 8, bytes
    before the second address. *)
Theorem rx_protected_frame_is_stripped hl cf skb d fc q v :
  frame_control (skb_data skb) = Some fc ->
  ieee80211_has_protected fc = true ->
  vif0 (core d) = Some (Some q) ->
  vif_mem (core d) !! q = Some v ->
  let wep := rsi_is_cipher_wep (common_of (core d)) in
  let k := if wep then 4%nat else 8%nat in
  (k + hl fc <= length (skb_data skb))%nat ->
  (16 <= k + hl fc)%nat ->
  let signal := to_s8 (- skb_rssi skb) in
  let seen := take ETH_ALEN (drop (10 - k) (skb_data skb)) in
  let watched := assoc (bss_conf v)
                 && bool_decide (take ETH_ALEN (bssid (bss_conf v)) = seen)
                 && ieee80211_is_beacon fc in
  let flag := if wep
              then Z.lor RX_FLAG_DECRYPTED RX_FLAG_IV_STRIPPED
              else Z.lor (Z.lor RX_FLAG_MMIC_STRIPPED RX_FLAG_DECRYPTED)
                     RX_FLAG_IV_STRIPPED in
  exists m',
    rsi_fill_rx_status hl cf skb d
    = Some ((take (hl fc) (skb_data skb) ++ drop (k + hl fc) (skb_data skb),
             expected_status cf skb d flag), with_core m' d)
    /\ (watched = false -> m' = core d)
    /\ (watched = true
        -> rsi_perform_cqm seen signal (core d) = Some (tt, m')).
Proof.
  intros Hfc Hp Hv0 Hmem. cbn zeta. intros Hlen Hhdr.
  rewrite (fill_shape hl cf skb d fc q v Hfc Hv0 Hmem).
  unfold rx_strip, rx_pulled. rewrite Hp.
  destruct (rsi_is_cipher_wep (common_of (core d)));
    cbv beta iota in Hlen, Hhdr |- *;
    match goal with
    | |- context [move_header ?k ?h ?b] =>
        destruct (move_header k h b) as [moved|] eqn:Hm;
          [|unfold move_header in Hm; revert Hm;
            destruct (decide _); [discriminate|lia]]
    end;
    (destruct (move_header_pull _ _ _ _ Hm) as (Hd & _ & _));
    (pose proof (fun H => addr2_moved _ _ _ _ H Hhdr Hm) as Ha);
    (pose proof (fun H => frame_control_moved _ _ _ _ fc H Hm Hfc) as Hf);
    specialize (Ha ltac:(lia)); specialize (Hf ltac:(lia));
    (destruct (rx_monitor_cases (bss_conf v) moved
                 (to_s8 (- skb_rssi skb)) (core d) _ fc (Some q) Ha Hf Hv0)
       as (m' & Hmon & Hoff & Hon));
    rewrite Hmon, Hd; exists m'; (split; [reflexivity|]); split; assumption.
Qed.

Lemma rx_protected_frame_is_stripped_witness :
  rsi_fill_rx_status Cases.hdrlen_24 Cases.channel_to_frequency
    (Cases.received Cases.protected_data 60)
    (Cases.driver_of (Cases.listening false))
  = Some ((Cases.frame 0x08 0x42 Cases.ap [1; 2; 3; 4],
           {| rx_signal := -60; rx_band := NL80211_BAND_2GHZ;
              rx_freq := 2412; rx_flag := 26 |}),
          Cases.driver_of (Cases.listening false)).
Proof.
  destruct (rx_protected_frame_is_stripped Cases.hdrlen_24
              Cases.channel_to_frequency
              (Cases.received Cases.protected_data 60)
              (Cases.driver_of (Cases.listening false)) 0x4208 1%N
              {| vif_type := NL80211_IFTYPE_STATION;
                 bss_conf := {| assoc := true; bssid := Cases.ap;
                                qos := false; aid := 1;
                                chandef_chan := Some Scenario.channel_1;
                                cqm_rssi_thold := -70; cqm_rssi_hyst := 5 |};
                 vif_rest := [1] |}
              eq_refl eq_refl eq_refl eq_refl)
    as (m' & Hrun & Hoff & _).
  - vm_compute. lia.
  - vm_compute. lia.
  - rewrite Hrun, (Hoff eq_refl). reflexivity.
Defined.

(** ** From the monitoring parameters to the first report *)

Lemma bss_info_changed_frame cc ad ac am vif bss changed m :
  exists m' sent,
    rsi_mac80211_bss_info_changed cc ad ac am vif bss changed m
    = Some (tt, m')
    /\ vifs (adapter_of m') = vifs (adapter_of m)
    /\ sc_nvifs (adapter_of m') = sc_nvifs (adapter_of m)
    /\ vif_mem m' = vif_mem m
    /\ iface_down (common_of m') = iface_down (common_of m)
    /\ trace m' = trace m ++ sent
    /\ cqm_events sent = []
    /\ (tstmask changed BSS_CHANGED_CQM = true ->
        cqm_info (common_of m')
        = {| last_cqm_event_rssi := 0; rssi_thold := cqm_rssi_thold bss;
             rssi_hyst := cqm_rssi_hyst bss |}).
Proof.
  unfold rsi_mac80211_bss_info_changed, rsi_inform_bss_status,
    rsi_send_rx_filter_frame. unfold_m.
  destruct m as [[c [n vs p]] mem tr].
  destruct (tstmask changed BSS_CHANGED_ASSOC);
    [destruct (assoc bss)|];
    destruct (tstmask changed BSS_CHANGED_CQM); cbn;
    eexists; eexists;
    do 5 (split; [reflexivity|]);
    (split; [cbn [trace]; rewrite <- ?app_assoc;
             first [reflexivity | symmetry; apply app_nil_r]|]);
    (split; [reflexivity|]); intros; try discriminate; reflexivity.
Qed.

Lemma perform_cqm_no_prior peer rssi m p0 :
  last_reported m = 0 -> vif0 m = Some p0 ->
  rssi <> rssi_thold (cqm_info (common_of m)) ->
  exists m',
    rsi_perform_cqm peer rssi m = Some (tt, m')
    /\ trace m'
       = trace m
         ++ [Up (UP_CQM_RSSI_NOTIFY p0
                   (if rssi <? rssi_thold (cqm_info (common_of m))
                    then NL80211_CQM_RSSI_THRESHOLD_EVENT_LOW
                    else NL80211_CQM_RSSI_THRESHOLD_EVENT_HIGH) rssi)]
    /\ last_reported m' = rssi.
Proof.
  intros Hlast Hv0 Hne.
  unfold last_reported in Hlast. unfold vif0 in Hv0.
  unfold rsi_perform_cqm. rewrite bind_get_common. rewrite Hlast.
  destruct (cqm_event_no_prior rssi (rssi_thold (cqm_info (common_of m)))
              (rssi_hyst (cqm_info (common_of m)))) as [Hlow Hhigh].
  destruct (Z.ltb_spec rssi (rssi_thold (cqm_info (common_of m))))
    as [Hlt|Hge].
  - rewrite (Hlow Hlt). unfold_m. cbn. rewrite Hv0. cbn.
    eexists. split; [reflexivity|]. split; reflexivity.
  - rewrite Hhigh by lia. unfold_m. cbn. rewrite Hv0. cbn.
    eexists. split; [reflexivity|]. split; reflexivity.
Qed.

(** X24.  After a change of the monitoring parameters, the first beacon
    of the associated network that arrives while the device is up is
    handed to the stack unchanged, and its signal is reported at once,
    whatever the hysteresis: as "low" when it is below the new threshold
    and as "high" when it is above; the signal becomes the last-reported
    value.  Whatever else the change of parameters sent to the firmware,
    the report is the next thing on the trace. *)
Theorem first_beacon_after_cqm_change_is_reported cc ad ac am hl cf vif bss
    changed skb d fc q v :
  tstmask changed BSS_CHANGED_CQM = true ->
  iface_down (common_of (core d)) = false ->
  nvifs (core d) <> 0 ->
  vif0 (core d) = Some (Some q) ->
  vif_mem (core d) !! q = Some v ->
  assoc (bss_conf v) = true ->
  frame_control (skb_data skb) = Some fc ->
  ieee80211_has_protected fc = false ->
  ieee80211_is_beacon fc = true ->
  addr2 (skb_data skb) = Some (take ETH_ALEN (bssid (bss_conf v))) ->
  let signal := to_s8 (- skb_rssi skb) in
  signal <> cqm_rssi_thold bss ->
  exists d1 d2,
    lift (rsi_mac80211_bss_info_changed cc ad ac am vif bss changed) d
    = Some (tt, d1)
    /\ rsi_indicate_pkt_to_os hl cf skb d1 = Some (tt, d2)
    /\ more d2 = more d
    /\ more_trace d2
       = more_trace d
         ++ [RX_DELIVERED (skb_data skb) (expected_status cf skb d 0)]
    /\ last_reported (core d2) = signal
    /\ trace (core d2)
       = trace (core d1)
         ++ [Up (UP_CQM_RSSI_NOTIFY (Some q)
                   (if signal <? cqm_rssi_thold bss
                    then NL80211_CQM_RSSI_THRESHOLD_EVENT_LOW
                    else NL80211_CQM_RSSI_THRESHOLD_EVENT_HIGH) signal)].
Proof.
  intros Hcqm Hup Hn Hv0 Hmem Hassoc Hfc Hp Hb Ha. cbn zeta. intros Hne.
  destruct (bss_info_changed_frame cc ad ac am vif bss changed (core d))
    as (m1 & sent & Hrun & Hvs & Hnv & Hvm & Hdown & _ & _ & Hinfo).
  specialize (Hinfo Hcqm).
  exists (with_core m1 d). unfold lift at 1. rewrite Hrun.
  assert (Hv1 : vif0 m1 = Some (Some q)) by (unfold vif0; rewrite Hvs; exact Hv0).
  assert (Hmem1 : vif_mem m1 !! q = Some v) by (rewrite Hvm; exact Hmem).
  assert (Hlast : last_reported m1 = 0)
    by (unfold last_reported; rewrite Hinfo; reflexivity).
  assert (Hth : rssi_thold (cqm_info (common_of m1)) = cqm_rssi_thold bss)
    by (rewrite Hinfo; reflexivity).
  destruct (perform_cqm_no_prior (take ETH_ALEN (bssid (bss_conf v)))
              (to_s8 (- skb_rssi skb)) m1 (Some q) Hlast Hv1)
    as (m2 & Hmon & Htr & Hlast2); [rewrite Hth; exact Hne|].
  rewrite Hth in Htr.
  exists {| core := m2; more := more d;
            more_trace := more_trace d
              ++ [RX_DELIVERED (skb_data skb) (expected_status cf skb d 0)] |}.
  split; [reflexivity|]. split.
  - pose proof (fill_shape hl cf skb (with_core m1 d) fc q v Hfc Hv1 Hmem1)
      as Hfill.
    cbn zeta in Hfill. unfold rx_strip, rx_pulled, rx_monitor in Hfill.
    rewrite Hp, Hassoc, Ha in Hfill. cbn [core with_core] in Hfill.
    destruct (decide _) as [_|Hx]; [|contradiction].
    rewrite Hfc, Hb, Hmon in Hfill.
    unfold rsi_indicate_pkt_to_os. unfold dbind at 1 2. unfold lift at 1 2.
    unfold get_common, get_adapter. cbn [core with_core].
    rewrite Hdown, Hup, Hnv.
    unfold nvifs in Hn. apply Z.eqb_neq in Hn. rewrite Hn. cbn [orb].
    unfold dbind. unfold with_core in *. cbn [core more more_trace] in *.
    rewrite Hfill. reflexivity.
  - cbn [core more more_trace]. repeat split; assumption.
Qed.

Lemma first_beacon_after_cqm_change_is_reported_witness :
  exists d1 d2,
    lift (rsi_mac80211_bss_info_changed (Scenario.answers 0) 1 2 4 1
            {| assoc := true; bssid := Cases.ap; qos := false; aid := 1;
               chandef_chan := Some Scenario.channel_1;
               cqm_rssi_thold := -60; cqm_rssi_hyst := 100 |}
            BSS_CHANGED_CQM)
      (Cases.driver_of (Cases.listening false)) = Some (tt, d1)
    /\ rsi_indicate_pkt_to_os Cases.hdrlen_24 Cases.channel_to_frequency
         (Cases.received Cases.beacon 80) d1 = Some (tt, d2)
    /\ last_reported (core d2) = -80
    /\ cqm_events (trace (core d2))
       = [(NL80211_CQM_RSSI_THRESHOLD_EVENT_LOW, -80)].
Proof.
  destruct (first_beacon_after_cqm_change_is_reported (Scenario.answers 0)
              1 2 4 Cases.hdrlen_24 Cases.channel_to_frequency 1%N
              {| assoc := true; bssid := Cases.ap; qos := false; aid := 1;
                 chandef_chan := Some Scenario.channel_1;
                 cqm_rssi_thold := -60; cqm_rssi_hyst := 100 |}
              BSS_CHANGED_CQM (Cases.received Cases.beacon 80)
              (Cases.driver_of (Cases.listening false)) 0x80 1%N
              {| vif_type := NL80211_IFTYPE_STATION;
                 bss_conf := {| assoc := true; bssid := Cases.ap;
                                qos := false; aid := 1;
                                chandef_chan := Some Scenario.channel_1;
                                cqm_rssi_thold := -70; cqm_rssi_hyst := 5 |};
                 vif_rest := [1] |}
              eq_refl eq_refl)
    as (d1 & d2 & Hrun1 & Hrun2 & _ & _ & Hlast & Htr);
    try reflexivity; try discriminate.
  exists d1, d2. split; [exact Hrun1|]. split; [exact Hrun2|].
  split; [exact Hlast|]. rewrite Htr.
  vm_compute in Hrun1. injection Hrun1 as <-. reflexivity.
Defined.

(** ** The registered bands *)

(** X25.  The bit rates registered for a band are the rate table from
    entry 0 on for 2.4 GHz and from entry 4 on for 5 GHz, and the channels
    registered are all of that band.  The minimum rate picked for a peer
    without HT is the entry of the rate table at the position of the lowest
    common bit, counted from entry 0 on either band: on 5 GHz the rate it
    picks for bit i stands four entries before the rate registered at
    index i. *)
Theorem rate_bits_are_read_from_the_table_start rc sta d ch sb i :
  conf_chan (conf (hw (core d))) = Some ch ->
  arrays_ok (core d) ->
  rsi_register_rates_channels true (band ch) = Some sb ->
  ht_supported sta = false ->
  lowest_set (Z.land (fixedrate_mask (more d) (band ch))
                (supp_rates sta (band ch))) 0 12 i ->
  exists d',
    rsi_set_min_rate rc sta d = Some (tt, d')
    /\ Some (cached_min_rate d') = rc <$> rsi_rates !! i
    /\ sb_bitrates sb !! i
       = rsi_rates !! (i + match band ch with
                           | NL80211_BAND_2GHZ => 0
                           | NL80211_BAND_5GHZ => 4
                           end)%nat
    /\ Forall (fun c => band c = band ch) (sb_channels sb).
Proof.
  intros Hch Hok Hreg Hht Hlow.
  destruct (arrays_ok_vif_info (core d) Hok) as [i0 Hi].
  destruct (set_min_rate_run rc sta d ch i0 Hch Hi)
    as (d' & r & Hrun & Hchosen & Hmin & _).
  exists d'. split; [exact Hrun|]. split.
  - unfold chosen_rate in Hchosen. rewrite Hht in Hchosen.
    rewrite (first_rate_lowest _ 12 i Hlow) in Hchosen.
    unfold cached_min_rate. congruence.
  - unfold rsi_register_rates_channels in Hreg.
    destruct (band ch); injection Hreg as <-; cbn [sb_bitrates sb_channels].
    + split; [rewrite Nat.add_0_r; reflexivity|]. repeat constructor.
    + split; [|repeat constructor].
      change (drop 4 rsi_rates !! i = rsi_rates !! (i + 4)%nat).
      rewrite lookup_drop. f_equal. lia.
Qed.

(** On 5 GHz, a peer whose only rate is the first registered one: the
    rate registered at index 0 is that of 6 Mb/s, the rate cached is that
    of 1 Mb/s. *)
Lemma rate_bits_are_read_from_the_table_start_witness :
  exists d' sb,
    rsi_set_min_rate Cases.rate_codes (Cases.peer 0x001 false 0)
      (Cases.on_5ghz 0xfff) = Some (tt, d')
    /\ rsi_register_rates_channels true NL80211_BAND_5GHZ = Some sb
    /\ sb_bitrates sb !! 0%nat = Some RSI_RATE_6
    /\ cached_min_rate d' = Cases.rate_codes RSI_RATE_1.
Proof.
  destruct (rsi_register_rates_channels true NL80211_BAND_5GHZ)
    as [sb|] eqn:Hreg; [|discriminate].
  destruct (rate_bits_are_read_from_the_table_start Cases.rate_codes
              (Cases.peer 0x001 false 0) (Cases.on_5ghz 0xfff)
              {| band := NL80211_BAND_5GHZ; center_freq := 5180;
                 hw_value := 36; chan_flags := 0 |} sb 0%nat eq_refl)
    as (d' & Hrun & Hmin & Hsb & _).
  - split; reflexivity.
  - exact Hreg.
  - reflexivity.
  - split; [lia|]. split; [reflexivity|]. intros j Hj. lia.
  - exists d', sb. split; [exact Hrun|]. split; [reflexivity|].
    split; [rewrite Hsb; reflexivity|].
    injection Hmin as ->. reflexivity.
Defined.

(** ** Start and stop *)

(** X26.  Stop followed by start always returns 0, whatever the firmware
    answers to the two filter commands, and leaves the machine as it was
    but for the device being marked up and the trace: a filter command
    with word [0xffff], which blocks every frame, and then one with word
    0.  Interfaces, keys, rates and the configuration are not touched. *)
Theorem start_after_stop cc m :
  exists m1 s1 s2,
    rsi_mac80211_stop cc m = Some (tt, m1)
    /\ iface_down (common_of m1) = true
    /\ rsi_mac80211_start cc m1
       = Some (0, with_trace (trace m ++ [Fw (FW_RX_FILTER 0xffff) s1;
                                          Fw (FW_RX_FILTER 0) s2])
                    (with_common (set_iface_down false (common_of m)) m))
    /\ s1 = cc (trace m) (FW_RX_FILTER 0xffff)
    /\ s2 = cc (trace m ++ [Fw (FW_RX_FILTER 0xffff) s1]) (FW_RX_FILTER 0).
Proof.
  unfold rsi_mac80211_stop, rsi_mac80211_start, rsi_send_rx_filter_frame.
  unfold_m. destruct m as [[c [n vs p]] mem tr]. cbn.
  eexists. eexists. eexists. split; [reflexivity|]. split; [reflexivity|].
  split; [|split; reflexivity].
  unfold with_trace, with_common, with_adapter, set_iface_down. cbn.
  rewrite <- app_assoc. reflexivity.
Qed.

(** ** Aggregation: the other actions *)

(** X27.  The slot of the interface is looked up for every block-ack
    action: the lookup ends at slot 0 for the stored interface and, for
    any other interface, at the index one past the last slot, where the
    per-interface records have no entry.  TX_START and TX_OPERATIONAL use
    that index unchecked; what they do past the records is not stated
    here.  RX_START and RX_STOP do not use it and work for any interface:
    one command each, RX direction, with the supplied sequence number for a
    start and sequence number 0 for a stop; the status of the command is
    returned and nothing else changes.  An action outside the seven known
    ones answers "unsupported" and does nothing. *)
Theorem ampdu_slot_lookup_and_rx_actions cc vif p m :
  arrays_ok m ->
  (vif0 m = Some (Some vif) ->
   vif_slot vif (vifs (adapter_of m)) 0 RSI_MAX_VIFS = 0%nat)
  /\ (vif0 m <> Some (Some vif) ->
      vif_slot vif (vifs (adapter_of m)) 0 RSI_MAX_VIFS = RSI_MAX_VIFS
      /\ vif_info (common_of m) !! RSI_MAX_VIFS = None)
  /\ (action p = IEEE80211_AMPDU_RX_START ->
      let c := FW_AGGREGATION_PARAMS (tid p) (to_u16 (ssn p))
                 (to_u8 (buf_size p)) STA_RX_ADDBA_DONE in
      rsi_mac80211_ampdu_action cc vif p m
      = Some (cc (trace m) c,
              with_trace (trace m ++ [Fw c (cc (trace m) c)]) m))
  /\ (action p = IEEE80211_AMPDU_RX_STOP ->
      let c := FW_AGGREGATION_PARAMS (tid p) 0 (to_u8 (buf_size p))
                 STA_RX_DELBA in
      rsi_mac80211_ampdu_action cc vif p m
      = Some (cc (trace m) c,
              with_trace (trace m ++ [Fw c (cc (trace m) c)]) m))
  /\ (forall n,
        action p = ieee80211_ampdu_other n ->
        rsi_mac80211_ampdu_action cc vif p m = Some (- EOPNOTSUPP, m)).
Proof.
  intros Hok.
  destruct (arrays_ok_vif_info m Hok) as [i Hi].
  split; [|split; [|split; [|split]]].
  - intros Hv0. apply vif_slot_stored. exact Hv0.
  - intros Hne. split.
    + cbn. destruct (decide _) as [He|_]; [|reflexivity].
      exfalso. apply Hne. exact He.
    + rewrite Hi. reflexivity.
  - unfold rsi_mac80211_ampdu_action, rsi_send_aggregation_params_frame.
    rewrite bind_get_adapter. intros ->. reflexivity.
  - unfold rsi_mac80211_ampdu_action, rsi_send_aggregation_params_frame.
    rewrite bind_get_adapter. intros ->. reflexivity.
  - unfold rsi_mac80211_ampdu_action. rewrite bind_get_adapter.
    intros n ->. reflexivity.
Qed.

(** With station 1 stored, the lookup for interface 2 ends at index 1, and
    an RX_STOP for interface 2 sends its command. *)
Lemma ampdu_slot_lookup_and_rx_actions_witness :
  vif_slot 2 (vifs (adapter_of Scenario.with_station)) 0 RSI_MAX_VIFS
  = 1%nat
  /\ rsi_mac80211_ampdu_action (Scenario.answers 0) 2
       (Scenario.ampdu IEEE80211_AMPDU_RX_STOP 3 100) Scenario.with_station
     = Some (0, with_trace
                  [Fw (FW_AGGREGATION_PARAMS 3 0
                         (to_u8 (buf_size
                                   (Scenario.ampdu IEEE80211_AMPDU_RX_STOP
                                      3 100)))
                         STA_RX_DELBA) 0]
                  Scenario.with_station).
Proof.
  destruct (ampdu_slot_lookup_and_rx_actions (Scenario.answers 0) 2
              (Scenario.ampdu IEEE80211_AMPDU_RX_STOP 3 100)
              Scenario.with_station) as (_ & Hslot & _ & Hstop & _).
  - split; reflexivity.
  - split.
    + apply Hslot. discriminate.
    + apply Hstop. reflexivity.
Defined.
